(** * React Native migration toolkit: props adder and component analyzer

    A shallow embedding of the two scripts of the toolkit,

    - the props adder  ([src/unnamed/part_004], the [add-props.js] of the
      READMEs), module [AddProps];
    - the component analyzer ([src/component-analyzer.js]), module
      [Analyzer];

    together with the part of the host language and of the Babel syntax
    tree that they read and write (modules [Js] and [Babel]).

    Both scripts keep their statistics in a module-level object ([stats],
    [analysis]) that every function mutates; here that object is passed in
    and returned explicitly.  [traverse] is modelled by the list of the
    nodes it visits, in the order of the visits; a node that sits inside
    another one (an element in an attribute value) is held once, in that
    list, and referred to by its position where it is used.

    A string stands for a JavaScript string by its UTF-8 encoding.  What
    the scripts take from their host, the lower-casing of a string and the
    writing of a file, is a parameter of the model ([Js.Host],
    [Fs.FileSystem]). *)

From Stdlib Require Import ZArith Ascii.
From stdpp Require Import gmap strings list fin_maps sorting.


(* ===================================================================== *)
(** ** The host language *)
(* ===================================================================== *)

Module Js.

(** The values a property access such as [node.name.name] can produce in
    the two scripts: a string, [undefined], or some object. *)
Inductive value : Type :=
| Undefined
| Str (s : string)
| Obj.

(** [!v] is [false] exactly on truthy values; the empty string is falsy. *)
Definition truthy (v : value) : bool :=
  match v with
  | Undefined => false
  | Str s => negb (String.eqb s "")
  | Obj => true
  end.

(** [typeof v === 'string'] *)
Definition isString (v : value) : bool :=
  match v with Str _ => true | _ => false end.

(** [a || b] on optional strings ([None] is [undefined]). *)
Definition or (a b : option string) : option string :=
  match a with
  | Some s => if String.eqb s "" then b else a
  | None => b
  end.

(** [v === s] for a string [s]. *)
Definition strictEq (v : option string) (s : string) : bool :=
  match v with
  | Some s' => String.eqb s' s
  | None => false
  end.

(** [Array.prototype.includes] on an array of strings: a value that is
    not a string is never found. *)
Definition arrayIncludes (l : list string) (v : value) : bool :=
  match v with
  | Str s => bool_decide (s ∈ l)
  | _ => false
  end.

(** [String.prototype.includes]: [sub] occurs somewhere in [s]. *)
Fixpoint includes (s sub : string) : bool :=
  String.prefix sub s ||
  match s with
  | EmptyString => false
  | String _ s' => includes s' sub
  end.

Definition toLowerAscii (c : ascii) : ascii :=
  let n := nat_of_ascii c in
  if (65 <=? n)%nat && (n <=? 90)%nat then ascii_of_nat (n + 32) else c.

(** The letters [A] to [Z] of a string folded to [a] to [z], every other
    character kept. *)
Fixpoint asciiLowerCase (s : string) : string :=
  match s with
  | EmptyString => EmptyString
  | String c s' => String (toLowerAscii c) (asciiLowerCase s')
  end.

(** Every character of the string is below U+0080. *)
Fixpoint isAscii (s : string) : bool :=
  match s with
  | EmptyString => true
  | String c s' => (nat_of_ascii c <? 128)%nat && isAscii s'
  end.

(** [String.prototype.toLowerCase] is the host's: it converts by the
    Unicode case mappings, which this development does not spell out (they
    send U+212A, the Kelvin sign, to [k], for one).  What is used of it is
    what ECMA-262 gives for a string of ASCII characters: the
    letters [A] to [Z] are folded and nothing else changes. *)
Class Host : Type := {
  toLowerCase : string → string;
  toLowerCase_ascii :
    ∀ s, isAscii s = true → toLowerCase s = asciiLowerCase s
}.

(** A host that folds the ASCII letters only: it is the host's lower-casing
    on every string of ASCII characters. *)
Definition asciiHost : Host :=
  {| toLowerCase := asciiLowerCase;
     toLowerCase_ascii := λ _ _, eq_refl |}.

(** [String.prototype.localeCompare].  The host compares by the
    collation of the current locale; it is taken here as the comparison
    by code points, which is what the specification's data model names.
    Negative, zero or positive as [a] sorts before, with or after [b]. *)
Definition localeCompare (a b : string) : Z :=
  match String.compare a b with
  | Lt => (-1)%Z
  | Eq => 0%Z
  | Gt => 1%Z
  end.

Section Sort.
Context {A : Type} (compareFn : A → A → Z).

(** One step of a stable insertion: [x] stood before every element of
    [l] and stays before those it does not sort after. *)
Fixpoint sortInsert (x : A) (l : list A) : list A :=
  match l with
  | [] => [x]
  | y :: l' =>
      if (compareFn x y <=? 0)%Z then x :: l else y :: sortInsert x l'
  end.

(** [Array.prototype.sort(compareFn)]: a stable sort. *)
Definition sort (l : list A) : list A := foldr sortInsert [] l.

End Sort.

End Js.

(* ===================================================================== *)
(** ** The syntax tree *)
(* ===================================================================== *)

Module Babel.

(** The name of an opening element: [<Field>], [<Form.Field>] or
    [<svg:rect>]. *)
Inductive JSXName : Type :=
| JSXIdentifier (name : string)
| JSXMemberExpression (object property : string)
| JSXNamespacedName (namespace name : string).

(** [openingElement.name.name]: the identifier's string; a member
    expression has no [name] field; the [name] of a namespaced name is
    itself an identifier node. *)
Definition nameOf (n : JSXName) : Js.value :=
  match n with
  | JSXIdentifier s => Js.Str s
  | JSXMemberExpression _ _ => Js.Undefined
  | JSXNamespacedName _ _ => Js.Obj
  end.

(** What an attribute's [value] field holds.  An expression other than a
    string literal is its source text together with the [JSXElement] nodes
    inside it ([icon={<Field/>}], [render={() => <Field/>}]): such a node
    is not copied into the value, it is one of the file's [jsxElements],
    at the position given, and is visited and changed there. *)
Inductive ValueNode : Type :=
| Null
| StringLiteral (value : string)
| JSXExpressionContainer (expression : ValueNode)
| SourceExpression (code : string) (elements : list nat).

(** What [prop.key] holds on a node that has a [key]: an object with a
    [name] (an identifier) or a [value] (a string literal).  In the Babel
    tree these are the keys of object properties and class members. *)
Record KeyNode : Type := mkKey {
  keyName : option string;
  keyValue : option string
}.

(** An entry of [openingElement.attributes], as a JavaScript object with
    the fields the scripts read and write.  In the Babel tree a
    [JSXAttribute] is [{ type, name, value }], its identifier under [name],
    and a [JSXSpreadAttribute] is [{ type, argument }]: neither has a [key]
    field, so [key] is [None] on every node that the parser or a builder
    makes. *)
Record Attribute : Type := mkAttribute {
  key : option KeyNode;
  name : option string;
  value : ValueNode
}.

(** [t.jsxAttribute(t.jsxIdentifier(name), value)] *)
Definition jsxAttribute (name : string) (value : ValueNode) : Attribute :=
  {| key := None; name := Some name; value := value |}.

(** [{...argument}] *)
Definition jsxSpreadAttribute : Attribute :=
  {| key := None; name := None; value := Null |}.

(** The attributes the parser and the builders produce. *)
Definition isJSXAttributeNode (p : Attribute) : Prop := key p = None.

(** A [JSXElement] node, by what the scripts read and write of it:
    [openingElement.name] and [openingElement.attributes].  Its children
    are nodes of their own. *)
Record JSXElement : Type := mkElement {
  tag : JSXName;
  attributes : list Attribute
}.

Inductive SpecifierType : Type :=
| ImportSpecifier
| ImportDefaultSpecifier
| ImportNamespaceSpecifier.

Record Specifier : Type := mkSpecifier {
  specType : SpecifierType;
  local : string
}.

Record ImportDeclaration : Type := mkImport {
  importSource : string;
  specifiers : list Specifier
}.

(** A parsed file, as [traverse] presents it: the import declarations in
    document order, and every [JSXElement] node of the tree, nested ones
    included, in the order in which the [JSXElement] visitor is called on
    them.  The list is the store of these nodes: an attribute value refers
    to the elements inside it by their positions in it. *)
Record File : Type := mkFile {
  importDeclarations : list ImportDeclaration;
  jsxElements : list JSXElement
}.

Definition isImportSpecifier (s : Specifier) : bool :=
  match specType s with ImportSpecifier => true | _ => false end.

(** [specifiers.filter(spec => spec.type === 'ImportSpecifier')
               .map(spec => spec.local.name)] *)
Definition namedLocals (d : ImportDeclaration) : list string :=
  map local (filter (λ s, isImportSpecifier s = true) (specifiers d)).

(** [parse(content, ...)] returns a tree or throws an error with a
    message. *)
Inductive ParseResult : Type :=
| Parsed (ast : File)
| SyntaxError (message : string).

Record SourceFile : Type := mkSource {
  filePath : string;
  parsed : ParseResult
}.

End Babel.

(* ===================================================================== *)
(** ** The file system *)
(* ===================================================================== *)

Module Fs.

(** [generate(ast, ...)] and [fs.writeFileSync(filePath, output.code)],
    the two calls that write a tree back: [None] when the file is
    written, the message of the error when one of the two throws. *)
Class FileSystem : Type := {
  writeFileSync : string → Babel.File → option string
}.

(** A file system on which every write succeeds. *)
Definition writable : FileSystem := {| writeFileSync := λ _ _, None |}.

End Fs.

(** [{ source, components }], the import record both scripts build. *)
Module ImportInfo.
Record t : Type := mk {
  source : string;
  components : list string
}.
End ImportInfo.

(* ===================================================================== *)
(** ** The props adder ([src/unnamed/part_004]) *)
(* ===================================================================== *)

Module AddProps.

(** An entry of [config.props]. *)
Record PropConfig : Type := mkProp {
  name : string;
  value : string
}.

(** [config.json], without the fields that only file discovery reads
    ([srcFolder], [fileExtensions]). *)
Record Config : Type := mkConfig {
  components : list string;
  packages : list string;
  props : list PropConfig;
  updateExisting : bool
}.

(** The module-level [stats] object. *)
Record Stats : Type := mkStats {
  filesProcessed : nat;
  filesModified : nat;
  componentsFound : nat;
  propsAdded : nat;
  propsUpdated : nat;
  componentsSkipped : nat;
  errors : list string
}.

Definition initialStats : Stats := mkStats 0 0 0 0 0 0 [].

Definition htmlElementNames : list string :=
  [ "div"; "span"; "p"; "h1"; "h2"; "h3"; "h4"; "h5"; "h6";
    "a"; "img"; "ul"; "ol"; "li"; "table"; "tr"; "td"; "th";
    "form"; "input"; "button"; "label"; "select"; "option";
    "textarea"; "section"; "article"; "header"; "footer"; "nav";
    "main"; "aside"; "figure"; "figcaption"; "blockquote"; "code";
    "pre"; "em"; "strong"; "small"; "mark"; "del"; "ins"; "sub"; "sup" ].

(** HTML elements to skip (lowercase). *)
Definition HTML_ELEMENTS : gset string := list_to_set htmlElementNames.

(** [prop.key?.name || prop.key?.value] *)
Definition keyOf (prop : Babel.Attribute) : option string :=
  Js.or (Babel.key prop ≫= Babel.keyName) (Babel.key prop ≫= Babel.keyValue).

(** [a.key?.name || a.key?.value || ''] *)
Definition sortNameOf (a : Babel.Attribute) : string :=
  default "" (Js.or (keyOf a) (Some "")).

(** Sort props alphabetically. *)
Definition sortPropsAlphabetically (props : list Babel.Attribute)
  : list Babel.Attribute :=
  Js.sort (λ a b, Js.localeCompare (sortNameOf a) (sortNameOf b)) props.

(** Check if prop already exists. *)
Definition hasProp (props : list Babel.Attribute) (propName : string) : bool :=
  existsb (λ prop, Js.strictEq (keyOf prop) propName) props.

Definition setValue (prop : Babel.Attribute) (v : Babel.ValueNode)
  : Babel.Attribute :=
  {| Babel.key := Babel.key prop;
     Babel.name := Babel.name prop;
     Babel.value := v |}.

(** Update existing prop value: the first prop whose key is [propName]
    gets the string literal; the result says whether there was one. *)
Fixpoint updatePropValue (props : list Babel.Attribute)
    (propName newValue : string) : bool * list Babel.Attribute :=
  match props with
  | [] => (false, [])
  | p :: rest =>
      if Js.strictEq (keyOf p) propName
      then (true, setValue p (Babel.StringLiteral newValue) :: rest)
      else
        let '(found, rest') := updatePropValue rest propName newValue in
        (found, p :: rest')
  end.

Definition incrComponentsFound (s : Stats) : Stats :=
  mkStats (filesProcessed s) (filesModified s) (S (componentsFound s))
          (propsAdded s) (propsUpdated s) (componentsSkipped s) (errors s).

Definition incrPropsAdded (s : Stats) : Stats :=
  mkStats (filesProcessed s) (filesModified s) (componentsFound s)
          (S (propsAdded s)) (propsUpdated s) (componentsSkipped s) (errors s).

Definition incrPropsUpdated (s : Stats) : Stats :=
  mkStats (filesProcessed s) (filesModified s) (componentsFound s)
          (propsAdded s) (S (propsUpdated s)) (componentsSkipped s) (errors s).

Definition incrComponentsSkipped (s : Stats) : Stats :=
  mkStats (filesProcessed s) (filesModified s) (componentsFound s)
          (propsAdded s) (propsUpdated s) (S (componentsSkipped s)) (errors s).

Definition incrFilesProcessed (s : Stats) : Stats :=
  mkStats (S (filesProcessed s)) (filesModified s) (componentsFound s)
          (propsAdded s) (propsUpdated s) (componentsSkipped s) (errors s).

Definition incrFilesModified (s : Stats) : Stats :=
  mkStats (filesProcessed s) (S (filesModified s)) (componentsFound s)
          (propsAdded s) (propsUpdated s) (componentsSkipped s) (errors s).

Definition pushError (msg : string) (s : Stats) : Stats :=
  mkStats (filesProcessed s) (filesModified s) (componentsFound s)
          (propsAdded s) (propsUpdated s) (componentsSkipped s)
          (errors s ++ [msg]).

(** What the loop over [process.argv.slice(2)] ends in: the script goes on
    with [customSrcPath] ([None] for [null] and [undefined]), or [--help]
    printed the usage and called [process.exit(0)]. *)
Inductive ArgsResult : Type :=
| Continue (customSrcPath : option string)
| ExitHelp.

(** Parse command line arguments.  [--src] and [-s] take the next argument,
    whatever it is, and skip it; past the end of the array the value is
    [undefined]. *)
Fixpoint parseArgs (args : list string) (customSrcPath : option string)
  : ArgsResult :=
  match args with
  | [] => Continue customSrcPath
  | arg :: rest =>
      if String.eqb arg "--src" || String.eqb arg "-s" then
        match rest with
        | [] => Continue None
        | path :: rest' => parseArgs rest' (Some path)
        end
      else if String.eqb arg "--help" || String.eqb arg "-h" then ExitHelp
      else parseArgs rest customSrcPath
  end.

Section WithConfig.
Context {host : Js.Host} {fs : Fs.FileSystem}.
Variable config : Config.

(** Check if a component is imported from specified packages. *)
Definition isComponentFromTargetPackages (imports : list ImportInfo.t)
    (componentName : string) : bool :=
  existsb
    (λ importInfo,
       bool_decide (componentName ∈ ImportInfo.components importInfo) &&
       existsb (λ pkg, Js.includes (ImportInfo.source importInfo) pkg)
               (packages config))
    imports.

(** Check if component should be processed. *)
Definition shouldProcessComponent (componentName : Js.value)
    (imports : list ImportInfo.t) : bool :=
  if negb (Js.truthy componentName) || negb (Js.isString componentName)
  then false
  else
    match componentName with
    | Js.Str s =>
        if bool_decide (Js.toLowerCase s ∈ HTML_ELEMENTS) then false
        else if bool_decide (s ∈ components config) then true
        else isComponentFromTargetPackages imports s
    | _ => false
    end.

(** The body of the loop over [config.props]: the attribute array, the
    [hasChanges] flag and the statistics before and after one entry. *)
Definition processProp (acc : list Babel.Attribute * bool * Stats)
    (propConfig : PropConfig) : list Babel.Attribute * bool * Stats :=
  let '(existingProps, hasChanges, stats) := acc in
  let propName := name propConfig in
  let propValue := value propConfig in
  if hasProp existingProps propName then
    if updateExisting config then
      let '(found, existingProps') :=
        updatePropValue existingProps propName propValue in
      if found
      then (existingProps', true, incrPropsUpdated stats)
      else (existingProps', hasChanges, stats)
    else (existingProps, hasChanges, incrComponentsSkipped stats)
  else
    let newProp :=
      Babel.jsxAttribute propName
        (Babel.JSXExpressionContainer (Babel.StringLiteral propValue)) in
    (existingProps ++ [newProp], true, incrPropsAdded stats).

(** Add new props to component.  Returns [hasChanges], the element as the
    call leaves it, and the statistics. *)
Definition addPropsToComponent (stats : Stats) (jsxElement : Babel.JSXElement)
    (imports : list ImportInfo.t) : bool * Babel.JSXElement * Stats :=
  let componentName := Babel.nameOf (Babel.tag jsxElement) in
  if negb (shouldProcessComponent componentName imports)
  then (false, jsxElement, stats)
  else
    let stats := incrComponentsFound stats in
    let '(existingProps, hasChanges, stats) :=
      foldl processProp (Babel.attributes jsxElement, false, stats)
            (props config) in
    let attributes :=
      if hasChanges then sortPropsAlphabetically existingProps
      else existingProps in
    (hasChanges, Babel.mkElement (Babel.tag jsxElement) attributes, stats).

(** The [ImportDeclaration] visitor of [processFile]. *)
Definition collectImport (imports : list ImportInfo.t)
    (d : Babel.ImportDeclaration) : list ImportInfo.t :=
  let source := Babel.importSource d in
  let components := Babel.namedLocals d in
  if (0 <? length components)%nat
  then imports ++ [ImportInfo.mk source components]
  else imports.

(** The [JSXElement] visitor of [processFile]. *)
Definition visitJSXElement (imports : list ImportInfo.t)
    (acc : bool * list Babel.JSXElement * Stats) (el : Babel.JSXElement)
  : bool * list Babel.JSXElement * Stats :=
  let '(fileModified, done, stats) := acc in
  let '(changed, el', stats') := addPropsToComponent stats el imports in
  (fileModified || changed, done ++ [el'], stats').

(** What a run leaves behind: the statistics, the files written back
    (path and tree, last write last) and the lines sent to
    [console.error]. *)
Record Run : Type := mkRun {
  stats : Stats;
  written : list (string * Babel.File);
  consoleError : list string
}.

Definition initialRun : Run := mkRun initialStats [] [].

(** The [catch] of [processFile]: the message goes to [stats.errors] and
    to [console.error].  The statistics are the ones at the [throw]. *)
Definition catchError (filePath message : string) (st : Stats) (run : Run)
  : Run :=
  let errorMsg := "Error processing " +:+ filePath +:+ ": " +:+ message in
  mkRun (pushError errorMsg st) (written run)
        (consoleError run ++ ["✗ " +:+ errorMsg]).

(** Process a single file.  Reading and parsing may throw, before
    anything is counted; so may writing the file back, after the elements
    and the props of the file have been counted.  Either way the [catch]
    records the message and [filesProcessed] is not reached. *)
Definition processFile (run : Run) (file : Babel.SourceFile) : Run :=
  let filePath := Babel.filePath file in
  match Babel.parsed file with
  | Babel.Parsed ast =>
      let imports := foldl collectImport [] (Babel.importDeclarations ast) in
      let '(fileModified, elements, st) :=
        foldl (visitJSXElement imports) (false, [], stats run)
              (Babel.jsxElements ast) in
      if fileModified then
        let output := Babel.mkFile (Babel.importDeclarations ast) elements in
        match Fs.writeFileSync filePath output with
        | None =>
            mkRun (incrFilesProcessed (incrFilesModified st))
                  (written run ++ [(filePath, output)])
                  (consoleError run)
        | Some message => catchError filePath message st run
        end
      else
        mkRun (incrFilesProcessed st) (written run) (consoleError run)
  | Babel.SyntaxError message =>
      catchError filePath message (stats run) run
  end.

(** Main execution function, up to the report. *)
Definition main (files : list Babel.SourceFile) : Run :=
  if (length files =? 0)%nat then initialRun
  else foldl processFile initialRun files.

End WithConfig.

End AddProps.

(* ===================================================================== *)
(** ** The component analyzer ([src/component-analyzer.js]) *)
(* ===================================================================== *)

Module Analyzer.

(** ['high'], ['medium'], ['low'] *)
Inductive Priority : Type := low | medium | high.

Module ComponentFilters.
Record t : Type := mk {
  include : list string;
  exclude : list string
}.
End ComponentFilters.

Module PriorityThresholds.
Record t : Type := mk {
  high : Z;
  medium : Z
}.
End PriorityThresholds.

(** [analyzer-config.json], without the fields of file discovery and of
    the report's links. *)
Record Config : Type := mkConfig {
  packagesToTrack : list string;
  priorityThresholds : PriorityThresholds.t;
  componentFilters : ComponentFilters.t
}.

(** A value of [analysis.components]. *)
Module ComponentData.
Record t : Type := mk {
  name : string;
  totalUsages : nat;
  files : gmap string nat;
  packages : gset string;
  migrationPriority : Priority
}.
End ComponentData.

(** A value of [analysis.files]. *)
Module FileData.
Record t : Type := mk {
  path : string;
  imports : list ImportInfo.t;
  componentUsage : gmap string nat;
  totalUsages : nat
}.
End FileData.

(** [analysis.summary] ([startTime] left out). *)
Module Summary.
Record t : Type := mk {
  totalFiles : nat;
  totalComponents : nat;
  totalUsages : nat;
  packages : gset string
}.
End Summary.

(** The module-level [analysis] object. *)
Record Analysis : Type := mkAnalysis {
  summary : Summary.t;
  components : gmap string ComponentData.t;
  files : gmap string FileData.t;
  imports : gmap string (list string)
}.

Definition initialAnalysis : Analysis :=
  mkAnalysis (Summary.mk 0 0 0 ∅) ∅ ∅ ∅.

(** [{ name: componentName, totalUsages: 0, files: new Map(),
       packages: new Set(), migrationPriority: 'low' }] *)
Definition newComponentData (componentName : string) : ComponentData.t :=
  ComponentData.mk componentName 0 ∅ ∅ low.

(** [map.set(k, (map.has(k) ? map.get(k) : 0) + 1)] *)
Definition increment (k : string) (m : gmap string nat) : gmap string nat :=
  <[k := S (default 0 (m !! k))]> m.

(** One sighting of the component in [filePath], imported (or not) by
    [importInfo]: the three updates of [componentData]. *)
Definition recordUsage (filePath : string) (importInfo : option ImportInfo.t)
    (c : ComponentData.t) : ComponentData.t :=
  ComponentData.mk
    (ComponentData.name c)
    (S (ComponentData.totalUsages c))
    (increment filePath (ComponentData.files c))
    (match importInfo with
     | Some i => {[ImportInfo.source i]} ∪ ComponentData.packages c
     | None => ComponentData.packages c
     end)
    (ComponentData.migrationPriority c).

Definition setPriority (p : Priority) (c : ComponentData.t) : ComponentData.t :=
  ComponentData.mk (ComponentData.name c) (ComponentData.totalUsages c)
    (ComponentData.files c) (ComponentData.packages c) p.

(** [components.forEach(comp => { if (!arr.includes(comp)) arr.push(comp) })] *)
Definition pushMissing (arr components : list string) : list string :=
  foldl (λ arr comp, if bool_decide (comp ∈ arr) then arr else arr ++ [comp])
        arr components.

(** [Array.from(map.values()).reduce((sum, count) => sum + count, 0)] *)
Definition sumValues (m : gmap string nat) : nat :=
  map_fold (λ _ count sum, sum + count) 0 m.

(** [Array.from(analysis.components.values())
       .reduce((sum, comp) => sum + comp.totalUsages, 0)] *)
Definition sumTotalUsages (m : gmap string ComponentData.t) : nat :=
  map_fold (λ _ comp sum, sum + ComponentData.totalUsages comp) 0 m.

(** What the loop over [process.argv.slice(2)] ends in. *)
Inductive ArgsResult : Type :=
| Continue (customSrcPath customConfigPath : option string)
| ExitHelp.

(** Parse command line arguments.  [--src]/[-s] and [--config]/[-c] take
    the next argument, whatever it is, and skip it. *)
Fixpoint parseArgs (args : list string)
    (customSrcPath customConfigPath : option string) : ArgsResult :=
  match args with
  | [] => Continue customSrcPath customConfigPath
  | arg :: rest =>
      if String.eqb arg "--src" || String.eqb arg "-s" then
        match rest with
        | [] => Continue None customConfigPath
        | path :: rest' => parseArgs rest' (Some path) customConfigPath
        end
      else if String.eqb arg "--config" || String.eqb arg "-c" then
        match rest with
        | [] => Continue customSrcPath None
        | path :: rest' => parseArgs rest' customSrcPath (Some path)
        end
      else if String.eqb arg "--help" || String.eqb arg "-h" then ExitHelp
      else parseArgs rest customSrcPath customConfigPath
  end.

(** [customConfigPath || './analyzer-config.json'] *)
Definition configPath (customConfigPath : option string) : string :=
  default "" (Js.or customConfigPath (Some "./analyzer-config.json")).

(** [(a, b) => b.totalUsages - a.totalUsages] on component records. *)
Definition byUsageDescending (a b : ComponentData.t) : Z :=
  (Z.of_nat (ComponentData.totalUsages b)
   - Z.of_nat (ComponentData.totalUsages a))%Z.

(** [(a, b) => b.totalUsages - a.totalUsages] on file records. *)
Definition byFileUsageDescending (a b : FileData.t) : Z :=
  (Z.of_nat (FileData.totalUsages b) - Z.of_nat (FileData.totalUsages a))%Z.

(** [sortedComponents] of [generateHTMLReport], on the array
    [Array.from(analysis.components.values())]. *)
Definition sortedComponents (values : list ComponentData.t)
  : list ComponentData.t :=
  Js.sort byUsageDescending values.

(** [sortedFiles] of [generateHTMLReport], on the array
    [Array.from(analysis.files.values())]. *)
Definition sortedFiles (values : list FileData.t) : list FileData.t :=
  Js.sort byFileUsageDescending values.

(** [topComponents] of [main]: [.sort(...).slice(0, 5)] on the array
    [Array.from(analysis.components.values())]. *)
Definition topComponents (values : list ComponentData.t)
  : list ComponentData.t :=
  take 5 (Js.sort byUsageDescending values).

Section WithConfig.
Variable config : Config.

(** Get migration priority based on usage count. *)
Definition getMigrationPriority (usageCount : Z) : Priority :=
  if (usageCount >=? PriorityThresholds.high (priorityThresholds config))%Z
  then high
  else if (usageCount >=? PriorityThresholds.medium (priorityThresholds config))%Z
  then medium
  else low.

(** The [ImportDeclaration] visitor of [analyzeImports]. *)
Definition analyzeImport (acc : list ImportInfo.t * Analysis)
    (d : Babel.ImportDeclaration) : list ImportInfo.t * Analysis :=
  let '(fileImports, analysis) := acc in
  let source := Babel.importSource d in
  (* Check if this package is in our tracking list (exact match) *)
  if existsb (λ pkg, String.eqb source pkg) (packagesToTrack config) then
    let components := Babel.namedLocals d in
    if (0 <? length components)%nat then
      let s := summary analysis in
      let summary' :=
        Summary.mk (Summary.totalFiles s) (Summary.totalComponents s)
                   (Summary.totalUsages s) ({[source]} ∪ Summary.packages s) in
      let known := default [] (imports analysis !! source) in
      (fileImports ++ [ImportInfo.mk source components],
       mkAnalysis summary' (Analyzer.components analysis) (files analysis)
                  (<[source := pushMissing known components]> (imports analysis)))
    else acc
  else acc.

(** Analyze import statements. *)
Definition analyzeImports (analysis : Analysis) (ast : Babel.File)
  : list ImportInfo.t * Analysis :=
  foldl analyzeImport ([], analysis) (Babel.importDeclarations ast).

(** [fileImports.some(imp => imp.components.includes(componentName))] *)
Definition isTrackedComponent (fileImports : list ImportInfo.t)
    (componentName : Js.value) : bool :=
  existsb (λ imp, Js.arrayIncludes (ImportInfo.components imp) componentName)
          fileImports.

(** The include and exclude filters let the element through. *)
Definition passesFilters (componentName : Js.value) : bool :=
  let filters := componentFilters config in
  if (0 <? length (ComponentFilters.include filters))%nat &&
     negb (Js.arrayIncludes (ComponentFilters.include filters) componentName)
  then false
  else if Js.arrayIncludes (ComponentFilters.exclude filters) componentName
  then false
  else true.

(** The [JSXElement] visitor of [analyzeJSXUsage]. *)
Definition visitJSXElement (filePath : string) (fileImports : list ImportInfo.t)
    (acc : gmap string nat * Analysis) (el : Babel.JSXElement)
  : gmap string nat * Analysis :=
  let '(componentUsage, analysis) := acc in
  let componentName := Babel.nameOf (Babel.tag el) in
  if negb (passesFilters componentName) then acc
  else if isTrackedComponent fileImports componentName then
    match componentName with
    | Js.Str name =>
        let componentData :=
          default (newComponentData name) (components analysis !! name) in
        let importInfo :=
          find (λ imp, Js.arrayIncludes (ImportInfo.components imp) componentName)
               fileImports in
        (increment name componentUsage,
         mkAnalysis (summary analysis)
           (<[name := recordUsage filePath importInfo componentData]>
              (components analysis))
           (files analysis) (imports analysis))
    | _ => acc
    end
  else acc.

(** Analyze JSX usage. *)
Definition analyzeJSXUsage (analysis : Analysis) (ast : Babel.File)
    (filePath : string) (fileImports : list ImportInfo.t)
  : gmap string nat * Analysis :=
  foldl (visitJSXElement filePath fileImports) (∅, analysis)
        (Babel.jsxElements ast).

(** What a run leaves behind: the [analysis] object and the lines sent to
    [console.error]. *)
Record Run : Type := mkRun {
  analysis : Analysis;
  consoleError : list string
}.

Definition initialRun : Run := mkRun initialAnalysis [].

(** Process a single file.  Reading or parsing may throw; the [catch]
    prints the message. *)
Definition processFile (run : Run) (file : Babel.SourceFile) : Run :=
  let filePath := Babel.filePath file in
  match Babel.parsed file with
  | Babel.Parsed ast =>
      let '(fileImports, a) := analyzeImports (analysis run) ast in
      let '(componentUsage, a) := analyzeJSXUsage a ast filePath fileImports in
      let fileData :=
        FileData.mk filePath fileImports componentUsage
                    (sumValues componentUsage) in
      let s := summary a in
      mkRun
        (mkAnalysis
           (Summary.mk (S (Summary.totalFiles s)) (Summary.totalComponents s)
                       (Summary.totalUsages s) (Summary.packages s))
           (components a)
           (<[filePath := fileData]> (files a))
           (imports a))
        (consoleError run)
  | Babel.SyntaxError message =>
      let errorMsg := "Error analyzing " +:+ filePath +:+ ": " +:+ message in
      mkRun (analysis run) (consoleError run ++ ["✗ " +:+ errorMsg])
  end.

(** The first statement of [generateHTMLReport]: calculate migration
    priorities. *)
Definition calculatePriorities (a : Analysis) : Analysis :=
  mkAnalysis (summary a)
    ((λ component,
        setPriority
          (getMigrationPriority (Z.of_nat (ComponentData.totalUsages component)))
          component) <$> components a)
    (files a) (imports a).

(** The summary that [main] calculates after the loop. *)
Definition calculateSummary (a : Analysis) : Analysis :=
  let s := summary a in
  mkAnalysis
    (Summary.mk (Summary.totalFiles s) (size (components a))
                (sumTotalUsages (components a)) (Summary.packages s))
    (components a) (files a) (imports a).

(** Main execution function, up to the state the reports are written
    from. *)
Definition main (files : list Babel.SourceFile) : Run :=
  if (length files =? 0)%nat then initialRun
  else
    let run := foldl processFile initialRun files in
    mkRun (calculatePriorities (calculateSummary (analysis run)))
          (consoleError run).

End WithConfig.

End Analyzer.

(* ===================================================================== *)
(** ** Orders and observations used by the statements *)
(* ===================================================================== *)

(** ['low' < 'medium' < 'high'] *)
Definition priorityRank (p : Analyzer.Priority) : nat :=
  match p with
  | Analyzer.low => 0
  | Analyzer.medium => 1
  | Analyzer.high => 2
  end.

(** The tag is a plain identifier ([<Field>]), not a member expression or a
    namespaced name. *)
Definition isPlainIdentifier (n : Babel.JSXName) : bool :=
  match n with
  | Babel.JSXIdentifier _ => true
  | _ => false
  end.

(** [analysis.components.get(name).totalUsages], 0 without a record. *)
Definition usagesOf (a : Analyzer.Analysis) (name : string) : nat :=
  from_option Analyzer.ComponentData.totalUsages 0
              (Analyzer.components a !! name).

(** [analysis.components.get(name).files.get(filePath)], 0 without one. *)
Definition usagesIn (a : Analyzer.Analysis) (name filePath : string) : nat :=
  from_option
    (λ c, default 0 (Analyzer.ComponentData.files c !! filePath)) 0
    (Analyzer.components a !! name).

(** The file was read and parsed. *)
Definition parsedOk (f : Babel.SourceFile) : bool :=
  match Babel.parsed f with
  | Babel.Parsed _ => true
  | Babel.SyntaxError _ => false
  end.

(** The message of the error that reading or parsing the file threw. *)
Definition thrownMessage (f : Babel.SourceFile) : option string :=
  match Babel.parsed f with
  | Babel.Parsed _ => None
  | Babel.SyntaxError message => Some message
  end.

(** The entry of [stats.errors] for a file that fails to read or parse. *)
Definition parseErrorMsg (f : Babel.SourceFile) : option string :=
  (λ message,
     "Error processing " +:+ Babel.filePath f +:+ ": " +:+ message)
    <$> thrownMessage f.

(** What the two traversals of the props adder's [processFile] make of a
    parsed file: whether some element changed, and the tree as it stands
    then. *)
Definition traversed {host : Js.Host} (config : AddProps.Config)
    (ast : Babel.File) : bool * Babel.File :=
  let imports :=
    foldl AddProps.collectImport [] (Babel.importDeclarations ast) in
  let '(fileModified, elements, _) :=
    foldl (AddProps.visitJSXElement config imports)
          (false, [], AddProps.initialStats) (Babel.jsxElements ast) in
  (fileModified, Babel.mkFile (Babel.importDeclarations ast) elements).

(** The message of the error that the props adder's [processFile] catches
    at a file, if it catches one: reading or parsing threw, or an element
    changed and writing the tree back threw. *)
Definition caughtBy {host : Js.Host} {fs : Fs.FileSystem}
    (config : AddProps.Config) (f : Babel.SourceFile) : option string :=
  match Babel.parsed f with
  | Babel.SyntaxError message => Some message
  | Babel.Parsed ast =>
      let '(fileModified, output) := traversed config ast in
      if fileModified then Fs.writeFileSync (Babel.filePath f) output
      else None
  end.

(** The entry of [stats.errors] that the props adder's [catch] builds. *)
Definition addPropsErrorMsg {host : Js.Host} {fs : Fs.FileSystem}
    (config : AddProps.Config) (f : Babel.SourceFile) : option string :=
  (λ message,
     "Error processing " +:+ Babel.filePath f +:+ ": " +:+ message)
    <$> caughtBy config f.

(** The files at which the props adder's [processFile] catches no error. *)
Definition completedFiles {host : Js.Host} {fs : Fs.FileSystem}
    (config : AddProps.Config) (files : list Babel.SourceFile)
  : list Babel.SourceFile :=
  filter (λ f, caughtBy config f = None) files.

(** The line that the analyzer's [catch] sends to [console.error]. *)
Definition analyzerErrorLine (f : Babel.SourceFile) : option string :=
  (λ message,
     "✗ " +:+ ("Error analyzing " +:+ Babel.filePath f +:+ ": " +:+ message))
    <$> thrownMessage f.

(** The element passes the analyzer's filters and its tag is bound by one of
    the file's retained imports: a sighting that the analyzer counts. *)
Definition isSighting (config : Analyzer.Config)
    (fileImports : list ImportInfo.t) (el : Babel.JSXElement) : bool :=
  Analyzer.passesFilters config (Babel.nameOf (Babel.tag el)) &&
  Analyzer.isTrackedComponent fileImports (Babel.nameOf (Babel.tag el)).

(** The part of [stats] that only [processFile] writes. *)
Definition fileCounters (s : AddProps.Stats) : nat * nat * list string :=
  (AddProps.filesProcessed s, AddProps.filesModified s, AddProps.errors s).

(** The files of the run that were read and parsed. *)
Definition parsedFiles (files : list Babel.SourceFile) : list Babel.SourceFile :=
  filter (λ f, parsedOk f = true) files.

(** The imports that the analyzer retains for a file. *)
Definition retainedImports (config : Analyzer.Config) (ast : Babel.File)
  : list ImportInfo.t :=
  (Analyzer.analyzeImports config Analyzer.initialAnalysis ast).1.

(** The number of sightings in a file; a file that fails to parse has
    none. *)
Definition sightingsIn (config : Analyzer.Config) (f : Babel.SourceFile) : nat :=
  match Babel.parsed f with
  | Babel.Parsed ast =>
      length (filter (λ el, isSighting config (retainedImports config ast) el = true)
                     (Babel.jsxElements ast))
  | Babel.SyntaxError _ => 0
  end.

(** The fields of an attribute node that say which attribute it is (its
    value apart). *)
Definition shapeOf (p : Babel.Attribute)
  : option Babel.KeyNode * option string :=
  (Babel.key p, Babel.name p).

(** The directives that the props adder has dealt with so far: one count
    per directive added, updated or skipped. *)
Definition directivesHandled (s : AddProps.Stats) : nat :=
  AddProps.propsAdded s + AddProps.propsUpdated s + AddProps.componentsSkipped s.

(** The element is one that the props adder processes, given the imports
    of its file. *)
Definition inScope {host : Js.Host} (config : AddProps.Config)
    (imports : list ImportInfo.t) (el : Babel.JSXElement) : bool :=
  AddProps.shouldProcessComponent config (Babel.nameOf (Babel.tag el)) imports.

(** The number of elements of a file that the props adder processes; a file
    that fails to parse has none. *)
Definition inScopeElements {host : Js.Host} (config : AddProps.Config)
    (f : Babel.SourceFile) : nat :=
  match Babel.parsed f with
  | Babel.Parsed ast =>
      length
        (filter
           (λ el,
              inScope config
                (foldl AddProps.collectImport [] (Babel.importDeclarations ast))
                el = true)
           (Babel.jsxElements ast))
  | Babel.SyntaxError _ => 0
  end.

(** The tag is not an identifier with a character outside ASCII. *)
Definition asciiTag (n : Babel.JSXName) : bool :=
  match Babel.nameOf n with
  | Js.Str s => Js.isAscii s
  | _ => true
  end.

(** The argument is one of the two spellings of a flag. *)
Definition isFlag (long short arg : string) : Prop :=
  arg = long ∨ arg = short.

(** With [updateExisting] on nothing has been counted as skipped, with
    [updateExisting] off nothing as updated. *)
Definition modeRespected (config : AddProps.Config) (st : AddProps.Stats)
  : Prop :=
  (AddProps.updateExisting config = true → AddProps.componentsSkipped st = 0) ∧
  (AddProps.updateExisting config = false → AddProps.propsUpdated st = 0).

(** What holds of the record of the component [n] while the analyzer runs
    over files with the paths [paths]. *)
Definition recordInvariant (config : Analyzer.Config) (paths : list string)
    (n : string) (c : Analyzer.ComponentData.t) : Prop :=
  Analyzer.ComponentData.name c = n ∧
  Analyzer.ComponentData.totalUsages c
    = Analyzer.sumValues (Analyzer.ComponentData.files c) ∧
  0 < Analyzer.ComponentData.totalUsages c ∧
  (∀ f k, Analyzer.ComponentData.files c !! f = Some k → 0 < k ∧ f ∈ paths) ∧
  Analyzer.ComponentData.packages c ≠ ∅ ∧
  (∀ p, p ∈ Analyzer.ComponentData.packages c →
        p ∈ Analyzer.packagesToTrack config) ∧
  Analyzer.passesFilters config (Js.Str n) = true.

(** The element is a sighting of the component [n]. *)
Definition isSightingOf (config : Analyzer.Config)
    (fileImports : list ImportInfo.t) (n : string) (el : Babel.JSXElement)
  : bool :=
  isSighting config fileImports el &&
  match Babel.nameOf (Babel.tag el) with
  | Js.Str s => String.eqb s n
  | _ => false
  end.

(** The number of sightings of the component [n] in a file; a file that
    fails to parse has none. *)
Definition sightingsOfIn (config : Analyzer.Config) (n : string)
    (f : Babel.SourceFile) : nat :=
  match Babel.parsed f with
  | Babel.Parsed ast =>
      length
        (filter
           (λ el, isSightingOf config (retainedImports config ast) n el = true)
           (Babel.jsxElements ast))
  | Babel.SyntaxError _ => 0
  end.

(** The import declarations of the parsed files of a run, in the order in
    which the analyzer meets them. *)
Definition declarationsOf (files : list Babel.SourceFile)
  : list Babel.ImportDeclaration :=
  files ≫= λ f,
    match Babel.parsed f with
    | Babel.Parsed ast => Babel.importDeclarations ast
    | Babel.SyntaxError _ => []
    end.

(** Some declaration of [decls] imports the name [x] from the module [p] by
    a named import. *)
Definition boundBy (decls : list Babel.ImportDeclaration) (p x : string)
  : Prop :=
  ∃ d, d ∈ decls ∧ Babel.importSource d = p ∧ x ∈ Babel.namedLocals d.

(** [analysis.imports] and [analysis.summary.packages] say exactly what the
    declarations [decls] import by name from the tracked packages. *)
Definition importsExact (config : Analyzer.Config)
    (decls : list Babel.ImportDeclaration)
    (imports : gmap string (list string)) (packages : gset string) : Prop :=
  dom imports = packages ∧
  (∀ p l, imports !! p = Some l →
          p ∈ Analyzer.packagesToTrack config ∧ NoDup l ∧ l ≠ [] ∧
          ∀ x, x ∈ l ↔ boundBy decls p x) ∧
  (∀ p x, p ∈ Analyzer.packagesToTrack config → boundBy decls p x →
          is_Some (imports !! p)).


(** The attribute that the props adder builds for a directive. *)
Definition newPropFor (pc : AddProps.PropConfig) : Babel.Attribute :=
  Babel.jsxAttribute (AddProps.name pc)
    (Babel.JSXExpressionContainer (Babel.StringLiteral (AddProps.value pc))).

(** The attribute's name as the source text has it. *)
Definition attributeNames (el : Babel.JSXElement) : list string :=
  omap Babel.name (Babel.attributes el).

(* ===================================================================== *)
(** ** Host-language facts *)
(* ===================================================================== *)

Lemma prefix_app (p s : string) :
  String.prefix p s = true ↔ ∃ post, s = p +:+ post.
Proof.
  revert s. induction p as [|a p IH]; intros s; simpl.
  - destruct s; split; eauto.
  - destruct s as [|b s]; simpl.
    + split; [done | intros [post H]; discriminate].
    + destruct (ascii_dec a b) as [->|Hne].
      * rewrite IH. split; intros [post H]; exists post.
        -- by rewrite H.
        -- by injection H.
      * split; [done | intros [post H]; injection H; congruence].
Qed.

(** [s.includes(sub)] holds exactly when [sub] occurs in [s]. *)
Lemma includes_substring (s sub : string) :
  Js.includes s sub = true ↔ ∃ pre post, s = pre +:+ sub +:+ post.
Proof.
  induction s as [|c s IH]; cbn [Js.includes].
  - rewrite orb_false_r, prefix_app. split.
    + intros [post H]. exists "", post. done.
    + intros (pre & post & H). destruct pre; simpl in H.
      * eauto.
      * discriminate.
  - rewrite orb_true_iff, prefix_app, IH. split.
    + intros [[post H] | (pre & post & H)].
      * exists "", post. done.
      * exists (String c pre), post. simpl. by rewrite H.
    + intros (pre & post & H). destruct pre as [|c' pre]; simpl in H.
      * left. eauto.
      * right. injection H as _ H. eauto.
Qed.

Lemma append_empty_r (s : string) : s +:+ "" = s.
Proof.
  induction s as [|c s IH]; [done|].
  change (String c (s +:+ "") = String c s). by rewrite IH.
Qed.

Lemma includes_self (s : string) : Js.includes s s = true.
Proof.
  apply includes_substring. exists "", "". simpl. by rewrite append_empty_r.
Qed.

Lemma localeCompare_refl (s : string) : Js.localeCompare s s = 0%Z.
Proof.
  unfold Js.localeCompare.
  pose proof (String.compare_antisym s s) as H.
  by destruct (String.compare s s).
Qed.

(** A sort whose comparison function answers "not after" for every pair of
    elements of the array leaves the array as it is. *)
Lemma sort_all_le {A} (compareFn : A → A → Z) (l : list A) :
  (∀ x y, x ∈ l → y ∈ l → (compareFn x y <= 0)%Z) →
  Js.sort compareFn l = l.
Proof.
  induction l as [|x l IH]; intros H; [done|].
  simpl. rewrite IH by (intros; apply H; by constructor).
  destruct l as [|y l]; [done|]. simpl.
  assert (compareFn x y <= 0)%Z as Hle
    by (apply H; [constructor | do 2 constructor]).
  by rewrite (proj2 (Z.leb_le _ _) Hle).
Qed.

(* ===================================================================== *)
(** ** The props adder on the attributes of a parsed element *)
(* ===================================================================== *)

Section AddPropsFacts.
Import AddProps.
Context {host : Js.Host} {fs : Fs.FileSystem}.
Variable config : Config.

(** An attribute node has no [key], so the name the script reads from it is
    [undefined]. *)
Lemma keyOf_node (p : Babel.Attribute) :
  Babel.isJSXAttributeNode p → keyOf p = None.
Proof. unfold Babel.isJSXAttributeNode, keyOf. by intros ->. Qed.

Lemma keyOf_jsxAttribute (n : string) (v : Babel.ValueNode) :
  keyOf (Babel.jsxAttribute n v) = None.
Proof. done. Qed.

(** [hasProp] finds nothing among attribute nodes, whatever their names. *)
Lemma hasProp_nodes (props : list Babel.Attribute) (propName : string) :
  Forall Babel.isJSXAttributeNode props → hasProp props propName = false.
Proof.
  induction 1 as [|p props Hp _ IH]; [done|].
  simpl. by rewrite (keyOf_node p Hp), IH.
Qed.

(** The sort compares the empty name with itself throughout and moves
    nothing. *)
Lemma sortPropsAlphabetically_nodes (props : list Babel.Attribute) :
  Forall Babel.isJSXAttributeNode props →
  sortPropsAlphabetically props = props.
Proof.
  intros Hall. apply sort_all_le. intros x y Hx Hy.
  rewrite Forall_forall in Hall.
  unfold sortNameOf. rewrite !keyOf_node by auto. simpl.
  by rewrite localeCompare_refl.
Qed.

Lemma newProps_nodes (ds : list PropConfig) :
  Forall Babel.isJSXAttributeNode (newPropFor <$> ds).
Proof. induction ds; by constructor. Qed.

(** The loop over [config.props] on attribute nodes: every directive is
    appended, present or not. *)
Lemma processProps_nodes (ds : list PropConfig) (attrs : list Babel.Attribute)
    (hasChanges : bool) (st : Stats) :
  Forall Babel.isJSXAttributeNode attrs →
  foldl (processProp config) (attrs, hasChanges, st) ds =
  (attrs ++ (newPropFor <$> ds),
   hasChanges || bool_decide (ds ≠ []),
   Nat.iter (length ds) incrPropsAdded st).
Proof.
  revert attrs hasChanges st.
  induction ds as [|d ds IH]; intros attrs hasChanges st Hall.
  - simpl. by rewrite app_nil_r, orb_false_r.
  - cbn [foldl]. unfold processProp at 2.
    rewrite (hasProp_nodes attrs _ Hall).
    rewrite IH.
    + rewrite <- app_assoc. cbn [fmap list_fmap app length].
      rewrite Nat.iter_succ_r.
      rewrite (bool_decide_eq_true_2 (d :: ds ≠ [])) by done.
      by rewrite orb_true_r.
    + apply Forall_app. split; [done|]. by repeat constructor.
Qed.

(** [addPropsToComponent] on an element in scope whose attributes are
    attribute nodes. *)
Lemma addPropsToComponent_nodes (st : Stats) (el : Babel.JSXElement)
    (imports : list ImportInfo.t) :
  shouldProcessComponent config (Babel.nameOf (Babel.tag el)) imports = true →
  Forall Babel.isJSXAttributeNode (Babel.attributes el) →
  addPropsToComponent config st el imports =
  (bool_decide (props config ≠ []),
   Babel.mkElement (Babel.tag el)
     (Babel.attributes el ++ (newPropFor <$> props config)),
   Nat.iter (length (props config)) incrPropsAdded (incrComponentsFound st)).
Proof.
  intros Hscope Hall. unfold addPropsToComponent.
  rewrite Hscope. cbn [negb]. rewrite processProps_nodes by done.
  cbn [orb]. case_bool_decide as Hds.
  - rewrite sortPropsAlphabetically_nodes; [done|].
    apply Forall_app. split; [done | apply newProps_nodes].
  - by rewrite Hds, app_nil_r.
Qed.

(** Run on its own output, the props adder appends every directive once
    more and reports a change again. *)
Lemma addPropsToComponent_again (st : Stats) (el : Babel.JSXElement)
    (imports : list ImportInfo.t) :
  shouldProcessComponent config (Babel.nameOf (Babel.tag el)) imports = true →
  Forall Babel.isJSXAttributeNode (Babel.attributes el) →
  props config ≠ [] →
  let '(_, el1, st1) := addPropsToComponent config st el imports in
  let '(changed2, el2, _) := addPropsToComponent config st1 el1 imports in
  changed2 = true ∧
  Babel.attributes el2 = Babel.attributes el1 ++ (newPropFor <$> props config) ∧
  length (Babel.attributes el2) =
    length (Babel.attributes el1) + length (props config).
Proof.
  intros Hscope Hall Hds.
  rewrite addPropsToComponent_nodes by done.
  rewrite addPropsToComponent_nodes; cbn [Babel.tag Babel.attributes].
  - split; [by apply bool_decide_eq_true|].
    split; [done|]. by rewrite (length_app _ (_ <$> _)), length_fmap.
  - done.
  - apply Forall_app. split; [done | apply newProps_nodes].
Qed.

(** [updatePropValue] finds the prop whenever [hasProp] does. *)
Lemma updatePropValue_found (props : list Babel.Attribute)
    (propName newValue : string) :
  (updatePropValue props propName newValue).1 = hasProp props propName.
Proof.
  induction props as [|p props IH]; [done|].
  simpl. destruct (Js.strictEq (keyOf p) propName); [done|].
  destruct (updatePropValue props propName newValue) as [found rest].
  by simpl in *.
Qed.

(** With [updateExisting] off, a prop that [hasProp] finds is skipped: the
    attributes and [hasChanges] stay, [componentsSkipped] grows by one. *)
Lemma processProp_skip_when_found (attrs : list Babel.Attribute)
    (hasChanges : bool) (st : Stats) (d : PropConfig) :
  updateExisting config = false →
  hasProp attrs (name d) = true →
  processProp config (attrs, hasChanges, st) d
    = (attrs, hasChanges, incrComponentsSkipped st).
Proof. intros Hupd Hhas. unfold processProp. by rewrite Hhas, Hupd. Qed.

(** An update sets [hasChanges] whether or not the value differs from the
    one already there. *)
Lemma processProp_update_reports_change (attrs : list Babel.Attribute)
    (hasChanges : bool) (st : Stats) (d : PropConfig) :
  updateExisting config = true →
  hasProp attrs (name d) = true →
  (processProp config (attrs, hasChanges, st) d).1.2 = true.
Proof.
  intros Hupd Hhas. unfold processProp. rewrite Hhas, Hupd.
  pose proof (updatePropValue_found attrs (name d) (value d)) as Hfound.
  destruct (updatePropValue attrs (name d) (value d)) as [found rest].
  simpl in Hfound. by rewrite Hfound, Hhas.
Qed.

(** Whether a name of ASCII characters is in scope does not depend on the
    host: its lower-casing is the ASCII fold. *)
Lemma shouldProcessComponent_ascii (s : string) (imports : list ImportInfo.t) :
  Js.isAscii s = true →
  shouldProcessComponent config (Js.Str s) imports
    = shouldProcessComponent (host := Js.asciiHost) config (Js.Str s) imports.
Proof.
  intros Hs. unfold shouldProcessComponent.
  by rewrite (Js.toLowerCase_ascii s Hs).
Qed.

(** Nor does what [addPropsToComponent] makes of an element with such a
    tag. *)
Lemma addPropsToComponent_ascii (st : Stats) (el : Babel.JSXElement)
    (imports : list ImportInfo.t) :
  asciiTag (Babel.tag el) = true →
  addPropsToComponent config st el imports
    = addPropsToComponent (host := Js.asciiHost) config st el imports.
Proof.
  unfold asciiTag, addPropsToComponent. intros Hs.
  destruct (Babel.nameOf (Babel.tag el)) as [|s|]; [done | | done].
  by rewrite (shouldProcessComponent_ascii s imports Hs).
Qed.

End AddPropsFacts.

(** Evaluates the calls of [addPropsToComponent] on elements with ASCII
    tags, one after the other. *)
Ltac evaluate_merges host :=
  cbv beta zeta;
  repeat
    (rewrite (addPropsToComponent_ascii (host := host)) by reflexivity;
     match goal with
     | |- context [@AddProps.addPropsToComponent Js.asciiHost ?c ?s ?e ?i] =>
         let r :=
           eval vm_compute in
             (@AddProps.addPropsToComponent Js.asciiHost c s e i) in
         change (@AddProps.addPropsToComponent Js.asciiHost c s e i) with r;
         cbv beta iota
     end).

(** C1.  Idempotence of the merge with [updateExisting = true] does not hold
    on the code: for [<Field/>], target component [Field] and the directive
    [required = "true"], the first application yields the single attribute
    [required]; the second application, on that result, does not find it
    (it looks for a [key], the attribute has a [name]), appends a second
    [required] and reports a change again. *)
Theorem second_run_appends_again {host : Js.Host} :
  let config :=
    AddProps.mkConfig ["Field"] [] [AddProps.mkProp "required" "true"] true in
  let field := Babel.mkElement (Babel.JSXIdentifier "Field") [] in
  let required :=
    Babel.jsxAttribute "required"
      (Babel.JSXExpressionContainer (Babel.StringLiteral "true")) in
  let '(changed1, el1, st1) :=
    AddProps.addPropsToComponent config AddProps.initialStats field [] in
  let '(changed2, el2, st2) :=
    AddProps.addPropsToComponent config st1 el1 [] in
  changed1 = true ∧
  Babel.attributes el1 = [required] ∧
  changed2 = true ∧
  Babel.attributes el2 = [required; required] ∧
  AddProps.propsAdded st2 = 2 ∧
  AddProps.propsUpdated st2 = 0.
Proof. evaluate_merges host. vm_compute. split_and!; reflexivity. Qed.

(** C2.  The sort invariant does not hold on the code.  For
    [<Field zeta="1"/>] and the directive [alpha = "2"] the merge reports a
    change and leaves the names in the order [zeta], [alpha]: the comparison
    function reads the empty name from every attribute and the sort moves
    nothing.  For [<Field size="s"/>] and the directive [size = "m"] the
    merge reports a change and the result carries the name [size] twice. *)
Theorem changed_result_unsorted_with_duplicates {host : Js.Host} :
  let target := Babel.JSXIdentifier "Field" in
  let run attrs d :=
    AddProps.addPropsToComponent
      (AddProps.mkConfig ["Field"] [] [d] true) AddProps.initialStats
      (Babel.mkElement target attrs) [] in
  let '(changedA, elA, _) :=
    run [Babel.jsxAttribute "zeta" (Babel.StringLiteral "1")]
        (AddProps.mkProp "alpha" "2") in
  let '(changedB, elB, _) :=
    run [Babel.jsxAttribute "size" (Babel.StringLiteral "s")]
        (AddProps.mkProp "size" "m") in
  changedA = true ∧
  attributeNames elA = ["zeta"; "alpha"] ∧
  Js.localeCompare "zeta" "alpha" = 1%Z ∧
  changedB = true ∧
  attributeNames elB = ["size"; "size"].
Proof. evaluate_merges host. vm_compute. split_and!; reflexivity. Qed.

(** C3.  Scenario 3 does not come out as stated.  For
    [<Field maxLength="10"/>], the directive [maxLength = "20"] and
    [updateExisting = false], the existing attribute keeps its value ["10"],
    but it is not found: nothing is counted as skipped, a second
    [maxLength] attribute with the value ["20"] is appended, and the merge
    reports a change. *)
Theorem existing_prop_not_found_when_updates_off {host : Js.Host} :
  let config :=
    AddProps.mkConfig ["Field"] [] [AddProps.mkProp "maxLength" "20"] false in
  let field :=
    Babel.mkElement (Babel.JSXIdentifier "Field")
      [Babel.jsxAttribute "maxLength" (Babel.StringLiteral "10")] in
  let '(changed, el, st) :=
    AddProps.addPropsToComponent config AddProps.initialStats field [] in
  AddProps.hasProp (Babel.attributes field) "maxLength" = false ∧
  changed = true ∧
  Babel.attributes el =
    [ Babel.jsxAttribute "maxLength" (Babel.StringLiteral "10");
      Babel.jsxAttribute "maxLength"
        (Babel.JSXExpressionContainer (Babel.StringLiteral "20")) ] ∧
  AddProps.componentsSkipped st = 0 ∧
  AddProps.propsAdded st = 1.
Proof. evaluate_merges host. vm_compute. split_and!; reflexivity. Qed.

(* ===================================================================== *)
(** ** Priorities *)
(* ===================================================================== *)

(** C8.  For fixed thresholds and usage counts [a < b], the priority of [a]
    is never higher than the priority of [b]; the priority of a count is
    [high] from the high threshold on, else [medium] from the medium
    threshold on, else [low]. *)
Theorem getMigrationPriority_monotone (config : Analyzer.Config) (a b : Z) :
  (a < b)%Z →
  priorityRank (Analyzer.getMigrationPriority config a)
    ≤ priorityRank (Analyzer.getMigrationPriority config b) ∧
  ∀ n : Z,
    let th := Analyzer.priorityThresholds config in
    let hi := Analyzer.PriorityThresholds.high th in
    let me := Analyzer.PriorityThresholds.medium th in
    ((hi ≤ n)%Z → Analyzer.getMigrationPriority config n = Analyzer.high) ∧
    ((n < hi)%Z → (me ≤ n)%Z →
       Analyzer.getMigrationPriority config n = Analyzer.medium) ∧
    ((n < hi)%Z → (n < me)%Z →
       Analyzer.getMigrationPriority config n = Analyzer.low).
Proof.
  intros Hab. unfold Analyzer.getMigrationPriority. split.
  - repeat case_match; simpl; lia.
  - intros n. cbv zeta.
    repeat split; intros; repeat case_match; first [done | lia].
Qed.

Lemma getMigrationPriority_monotone_witness :
  let config :=
    Analyzer.mkConfig ["react-native"]
      (Analyzer.PriorityThresholds.mk 10 5)
      (Analyzer.ComponentFilters.mk [] []) in
  (4 < 12)%Z ∧
  Analyzer.getMigrationPriority config 4 = Analyzer.low ∧
  Analyzer.getMigrationPriority config 12 = Analyzer.high ∧
  priorityRank (Analyzer.getMigrationPriority config 4)
    ≤ priorityRank (Analyzer.getMigrationPriority config 12).
Proof.
  intros config.
  split; [lia|]. split; [reflexivity|]. split; [reflexivity|].
  exact (proj1 (getMigrationPriority_monotone config 4 12 ltac:(lia))).
Defined.

(* ===================================================================== *)
(** ** Tags that are not plain identifiers *)
(* ===================================================================== *)

Lemma arrayIncludes_not_string (l : list string) (v : Js.value) :
  Js.isString v = false → Js.arrayIncludes l v = false.
Proof. by destruct v. Qed.

Lemma isTrackedComponent_not_string (fileImports : list ImportInfo.t)
    (v : Js.value) :
  Js.isString v = false → Analyzer.isTrackedComponent fileImports v = false.
Proof.
  intros Hv. unfold Analyzer.isTrackedComponent.
  induction fileImports as [|imp l IH]; [done|].
  simpl. by rewrite arrayIncludes_not_string, IH.
Qed.

Lemma nameOf_not_identifier (n : Babel.JSXName) :
  isPlainIdentifier n = false → Js.isString (Babel.nameOf n) = false.
Proof. by destruct n. Qed.

(** C9.  An element whose tag is not a plain identifier is never mutated by
    the props adder and never counted by the analyzer: the extracted name is
    not a string, so [shouldProcessComponent] answers [false] and
    [addPropsToComponent] returns [false] with the element and the
    statistics as they were; no array of names includes it, so neither the
    filters nor the import check of the analyzer match, and the visitor
    leaves the per-file counts and the analysis as they were. *)
Theorem non_identifier_tag_untouched {host : Js.Host}
    (pconfig : AddProps.Config) (aconfig : Analyzer.Config)
    (el : Babel.JSXElement) (st : AddProps.Stats)
    (imports fileImports : list ImportInfo.t) (filePath : string)
    (componentUsage : gmap string nat) (a : Analyzer.Analysis) :
  isPlainIdentifier (Babel.tag el) = false →
  AddProps.shouldProcessComponent pconfig (Babel.nameOf (Babel.tag el)) imports
    = false ∧
  AddProps.addPropsToComponent pconfig st el imports = (false, el, st) ∧
  (∀ names, Js.arrayIncludes names (Babel.nameOf (Babel.tag el)) = false) ∧
  Analyzer.isTrackedComponent fileImports (Babel.nameOf (Babel.tag el))
    = false ∧
  Analyzer.visitJSXElement aconfig filePath fileImports (componentUsage, a) el
    = (componentUsage, a).
Proof.
  intros Htag. apply nameOf_not_identifier in Htag.
  assert (AddProps.shouldProcessComponent pconfig
            (Babel.nameOf (Babel.tag el)) imports = false) as Hskip.
  { unfold AddProps.shouldProcessComponent.
    by rewrite Htag, orb_true_r. }
  split; [done|]. split.
  { unfold AddProps.addPropsToComponent. by rewrite Hskip. }
  split; [intros; by apply arrayIncludes_not_string|].
  split; [by apply isTrackedComponent_not_string|].
  unfold Analyzer.visitJSXElement.
  rewrite isTrackedComponent_not_string by done.
  by destruct (negb _).
Qed.

Lemma non_identifier_tag_untouched_witness :
  let pconfig :=
    AddProps.mkConfig ["Field"] ["ui-kit"]
      [AddProps.mkProp "required" "true"] true in
  let aconfig :=
    Analyzer.mkConfig ["ui-kit"] (Analyzer.PriorityThresholds.mk 10 5)
      (Analyzer.ComponentFilters.mk [] []) in
  let el :=
    Babel.mkElement (Babel.JSXMemberExpression "Form" "Field")
      [Babel.jsxAttribute "label" (Babel.StringLiteral "Name")] in
  let imports := [ImportInfo.mk "ui-kit" ["Form"; "Field"]] in
  isPlainIdentifier (Babel.tag el) = false ∧
  AddProps.addPropsToComponent (host := Js.asciiHost) pconfig
    AddProps.initialStats el imports
    = (false, el, AddProps.initialStats) ∧
  Analyzer.visitJSXElement aconfig "src/App.tsx" imports
    (∅, Analyzer.initialAnalysis) el = (∅, Analyzer.initialAnalysis).
Proof.
  intros pconfig aconfig el imports.
  pose proof (non_identifier_tag_untouched (host := Js.asciiHost)
                pconfig aconfig el
                AddProps.initialStats imports imports "src/App.tsx" ∅
                Analyzer.initialAnalysis eq_refl) as (_ & Hadd & _ & _ & Hvisit).
  split; [reflexivity|]. split; [exact Hadd | exact Hvisit].
Defined.

(* ===================================================================== *)
(** ** The usage aggregation of the analyzer *)
(* ===================================================================== *)

Section AnalyzerFacts.
Import Analyzer.
Variable config : Config.

(** A tracked name is a string. *)
Lemma isTrackedComponent_string (fileImports : list ImportInfo.t)
    (v : Js.value) :
  isTrackedComponent fileImports v = true → ∃ name, v = Js.Str name.
Proof.
  destruct v as [|name|]; intros H; [|by eauto|].
  all: by rewrite isTrackedComponent_not_string in H.
Qed.

(** The visitor on a sighting: one more usage in the file's own counts, and
    the component's record, created if need be, with one more usage. *)
Lemma visitJSXElement_sighting (filePath : string)
    (fileImports : list ImportInfo.t) (componentUsage : gmap string nat)
    (a : Analysis) (el : Babel.JSXElement) (name : string) :
  Babel.nameOf (Babel.tag el) = Js.Str name →
  isSighting config fileImports el = true →
  visitJSXElement config filePath fileImports (componentUsage, a) el =
  (increment name componentUsage,
   mkAnalysis (summary a)
     (<[name :=
          recordUsage filePath
            (find (λ imp,
                     Js.arrayIncludes (ImportInfo.components imp) (Js.Str name))
                  fileImports)
            (default (newComponentData name) (components a !! name))]>
        (components a))
     (files a) (imports a)).
Proof.
  unfold isSighting, visitJSXElement. intros -> [Hf Ht]%andb_true_iff.
  by rewrite Hf, Ht.
Qed.

(** The visitor on any other element: nothing changes. *)
Lemma visitJSXElement_other (filePath : string)
    (fileImports : list ImportInfo.t) (acc : gmap string nat * Analysis)
    (el : Babel.JSXElement) :
  isSighting config fileImports el = false →
  visitJSXElement config filePath fileImports acc el = acc.
Proof.
  unfold isSighting, visitJSXElement. destruct acc as [componentUsage a].
  intros [Hf | Ht]%andb_false_iff.
  - by rewrite Hf.
  - rewrite Ht. by destruct (negb _).
Qed.

Lemma increment_lookup (k : string) (m : gmap string nat) :
  default 0 (increment k m !! k) = S (default 0 (m !! k)).
Proof. unfold increment. by rewrite lookup_insert_eq. Qed.

Lemma increment_lookup_ne (k k' : string) (m : gmap string nat) :
  k ≠ k' → increment k m !! k' = m !! k'.
Proof. intros. unfold increment. by rewrite lookup_insert_ne. Qed.

(** What one sighting does to the records. *)
Lemma visitJSXElement_sighting_counts (filePath : string)
    (fileImports : list ImportInfo.t) (componentUsage : gmap string nat)
    (a : Analysis) (el : Babel.JSXElement) (name : string) :
  Babel.nameOf (Babel.tag el) = Js.Str name →
  isSighting config fileImports el = true →
  let a' :=
    (visitJSXElement config filePath fileImports (componentUsage, a) el).2 in
  usagesOf a' name = S (usagesOf a name) ∧
  usagesIn a' name filePath = S (usagesIn a name filePath) ∧
  (∀ f, f ≠ filePath → usagesIn a' name f = usagesIn a name f) ∧
  (∀ n, n ≠ name → components a' !! n = components a !! n).
Proof.
  intros Hname Hs a'.
  subst a'. rewrite (visitJSXElement_sighting _ _ _ _ _ name) by done.
  unfold usagesOf, usagesIn. cbn [snd components].
  rewrite lookup_insert_eq. cbn [from_option].
  unfold recordUsage.
  cbn [ComponentData.totalUsages ComponentData.files].
  destruct (components a !! name) as [c|] eqn:Hc; cbn [default from_option].
  - split; [done|]. split; [apply increment_lookup|].
    split; [|intros; by rewrite lookup_insert_ne].
    intros f Hf. by rewrite increment_lookup_ne.
  - split; [done|]. split; [apply increment_lookup|].
    split; [|intros; by rewrite lookup_insert_ne].
    intros f Hf. by rewrite increment_lookup_ne.
Qed.


End AnalyzerFacts.

(** C7.  Scenario 4: with [<Field/>] twice in file A and once in file B,
    both in scope, the record of ["Field"] ends the run with
    [totalUsages = 3] and the per-file map [{A: 2, B: 1}].  In general the
    visitor, on a sighting (an element that passes the filters and whose tag
    a retained import binds), adds exactly one to the component's
    [totalUsages] and to its counter for the file of the sighting, leaves
    its counters for other files and the records of other components as
    they were; on any other element it changes nothing. *)
Theorem sightings_counted_once :
  (let config :=
     Analyzer.mkConfig ["ui-kit"] (Analyzer.PriorityThresholds.mk 10 5)
       (Analyzer.ComponentFilters.mk [] []) in
   let import :=
     Babel.mkImport "ui-kit" [Babel.mkSpecifier Babel.ImportSpecifier "Field"] in
   let field := Babel.mkElement (Babel.JSXIdentifier "Field") [] in
   let fileA :=
     Babel.mkSource "src/A.tsx"
       (Babel.Parsed (Babel.mkFile [import] [field; field])) in
   let fileB :=
     Babel.mkSource "src/B.tsx"
       (Babel.Parsed (Babel.mkFile [import] [field])) in
   let a := Analyzer.analysis (Analyzer.main config [fileA; fileB]) in
   Analyzer.components a !! "Field" =
     Some (Analyzer.ComponentData.mk "Field" 3
             {[ "src/A.tsx" := 2; "src/B.tsx" := 1 ]} {[ "ui-kit" ]}
             Analyzer.low)) ∧
  (∀ config filePath fileImports componentUsage a el name,
     Babel.nameOf (Babel.tag el) = Js.Str name →
     isSighting config fileImports el = true →
     let a' :=
       (Analyzer.visitJSXElement config filePath fileImports
          (componentUsage, a) el).2 in
     usagesOf a' name = S (usagesOf a name) ∧
     usagesIn a' name filePath = S (usagesIn a name filePath) ∧
     (∀ f, f ≠ filePath → usagesIn a' name f = usagesIn a name f) ∧
     (∀ n, n ≠ name → Analyzer.components a' !! n = Analyzer.components a !! n)) ∧
  (∀ config filePath fileImports acc el,
     isSighting config fileImports el = false →
     Analyzer.visitJSXElement config filePath fileImports acc el = acc).
Proof.
  split; [by vm_compute|]. split.
  - intros. by apply visitJSXElement_sighting_counts.
  - intros. by apply visitJSXElement_other.
Qed.


(* ===================================================================== *)
(** ** Import provenance in the two scripts *)
(* ===================================================================== *)

(** The analyzer keeps the declarations of the tracked packages that bind
    something by name. *)
Lemma analyzeImports_retained (config : Analyzer.Config)
    (decls : list Babel.ImportDeclaration)
    (acc : list ImportInfo.t) (a : Analyzer.Analysis) (imp : ImportInfo.t) :
  imp ∈ (foldl (Analyzer.analyzeImport config) (acc, a) decls).1 ↔
  imp ∈ acc ∨
  ∃ d, d ∈ decls ∧
       Babel.importSource d ∈ Analyzer.packagesToTrack config ∧
       Babel.namedLocals d ≠ [] ∧
       imp = ImportInfo.mk (Babel.importSource d) (Babel.namedLocals d).
Proof.
  revert acc a. induction decls as [|d decls IH]; intros acc a.
  - simpl. split; [by left|]. intros [H | (d & Hd & _)]; [done|].
    by apply elem_of_nil in Hd.
  - cbn [foldl]. unfold Analyzer.analyzeImport at 2.
    destruct (existsb _ _) eqn:Htracked.
    + apply existsb_exists in Htracked as (pkg & Hpkg & Heq).
      apply String.eqb_eq in Heq. apply list_elem_of_In in Hpkg.
      destruct (0 <? length (Babel.namedLocals d)) eqn:Hlen.
      * rewrite IH, elem_of_app, list_elem_of_singleton.
        apply Nat.ltb_lt in Hlen. split.
        -- intros [[H | ->] | (d' & Hd' & H)]; [by left| |].
           ++ right. exists d. rewrite Heq. split_and!; [by left|done| |done].
              intros Hnil. rewrite Hnil in Hlen. simpl in Hlen. lia.
           ++ right. exists d'. split; [by right | done].
        -- intros [H | (d' & [-> | Hd']%elem_of_cons & Hp & Hn & ->)].
           ++ by left; left.
           ++ by left; right.
           ++ right. by exists d'.
      * rewrite IH. apply Nat.ltb_ge in Hlen.
        assert (Babel.namedLocals d = []) as Hnil
          by (destruct (Babel.namedLocals d); [done | simpl in Hlen; lia]).
        split.
        -- intros [H | (d' & Hd' & H)]; [by left|].
           right. exists d'. split; [by right | done].
        -- intros [H | (d' & [-> | Hd']%elem_of_cons & Hp & Hn & ->)];
             [by left | done | right; by exists d'].
    + rewrite IH. split.
      * intros [H | (d' & Hd' & H)]; [by left|].
        right. exists d'. split; [by right | done].
      * intros [H | (d' & [-> | Hd']%elem_of_cons & Hp & Hn & ->)];
          [by left | | right; by exists d'].
        exfalso. apply list_elem_of_In in Hp.
        assert (existsb (λ pkg, (Babel.importSource d =? pkg)%string)
                        (Analyzer.packagesToTrack config) = true) as Hex.
        { apply existsb_exists. eexists. split; [done|]. by apply String.eqb_eq. }
        by rewrite Hex in Htracked.
Qed.

(** The props adder keeps every declaration that binds something by
    name. *)
Lemma collectImports_retained (decls : list Babel.ImportDeclaration)
    (acc : list ImportInfo.t) (imp : ImportInfo.t) :
  imp ∈ foldl AddProps.collectImport acc decls ↔
  imp ∈ acc ∨
  ∃ d, d ∈ decls ∧ Babel.namedLocals d ≠ [] ∧
       imp = ImportInfo.mk (Babel.importSource d) (Babel.namedLocals d).
Proof.
  revert acc. induction decls as [|d decls IH]; intros acc.
  - simpl. split; [by left|]. intros [H | (d & Hd & _)]; [done|].
    by apply elem_of_nil in Hd.
  - cbn [foldl]. unfold AddProps.collectImport at 2.
    destruct (0 <? length (Babel.namedLocals d)) eqn:Hlen.
    + rewrite IH, elem_of_app, list_elem_of_singleton.
      apply Nat.ltb_lt in Hlen. split.
      * intros [[H | ->] | (d' & Hd' & H)]; [by left| |].
        -- right. exists d. split_and!; [by left| |done].
           intros Hnil. rewrite Hnil in Hlen. simpl in Hlen. lia.
        -- right. exists d'. split; [by right | done].
      * intros [H | (d' & [-> | Hd']%elem_of_cons & Hn & ->)].
        -- by left; left.
        -- by left; right.
        -- right. by exists d'.
    + rewrite IH. apply Nat.ltb_ge in Hlen.
      assert (Babel.namedLocals d = []) as Hnil
        by (destruct (Babel.namedLocals d); [done | simpl in Hlen; lia]).
      split.
      * intros [H | (d' & Hd' & H)]; [by left|].
        right. exists d'. split; [by right | done].
      * intros [H | (d' & [-> | Hd']%elem_of_cons & Hn & ->)];
          [by left | done | right; by exists d'].
Qed.

Lemma isTrackedComponent_iff (fileImports : list ImportInfo.t) (name : string) :
  Analyzer.isTrackedComponent fileImports (Js.Str name) = true ↔
  ∃ imp, imp ∈ fileImports ∧ name ∈ ImportInfo.components imp.
Proof.
  unfold Analyzer.isTrackedComponent. rewrite existsb_exists.
  split; intros (imp & Himp & H); exists imp.
  - apply list_elem_of_In in Himp. by apply bool_decide_eq_true in H.
  - split; [by apply list_elem_of_In | by apply bool_decide_eq_true].
Qed.

Lemma isComponentFromTargetPackages_iff (config : AddProps.Config)
    (imports : list ImportInfo.t) (name : string) :
  AddProps.isComponentFromTargetPackages config imports name = true ↔
  ∃ imp, imp ∈ imports ∧ name ∈ ImportInfo.components imp ∧
         ∃ pkg, pkg ∈ AddProps.packages config ∧
                ∃ pre post, ImportInfo.source imp = pre +:+ pkg +:+ post.
Proof.
  unfold AddProps.isComponentFromTargetPackages. rewrite existsb_exists.
  split.
  - intros (imp & Himp & [Hname Hpkg]%andb_true_iff). exists imp.
    apply list_elem_of_In in Himp. apply bool_decide_eq_true in Hname.
    apply existsb_exists in Hpkg as (pkg & Hpkg & Hinc).
    apply list_elem_of_In in Hpkg. apply includes_substring in Hinc.
    eauto 6.
  - intros (imp & Himp & Hname & pkg & Hpkg & Hsub). exists imp.
    split; [by apply list_elem_of_In|]. apply andb_true_iff. split.
    + by apply bool_decide_eq_true.
    + apply existsb_exists. exists pkg.
      split; [by apply list_elem_of_In | by apply includes_substring].
Qed.

(** C4, as the code has it.  In the analysis path a tag name is matched by
    import provenance exactly when a declaration of the file binds it by a
    named import and the declaration's module path equals a member of
    [packagesToTrack].  In the mutation path it is matched exactly when a
    declaration binds it by a named import and the declaration's module
    path contains a member of [packages] as a substring (equality
    included). *)
Theorem provenance_match_rules (ast : Babel.File) (name : string) :
  (∀ (config : Analyzer.Config) (a : Analyzer.Analysis),
     Analyzer.isTrackedComponent
       (Analyzer.analyzeImports config a ast).1 (Js.Str name) = true ↔
     ∃ d, d ∈ Babel.importDeclarations ast ∧
          name ∈ Babel.namedLocals d ∧
          Babel.importSource d ∈ Analyzer.packagesToTrack config) ∧
  (∀ config : AddProps.Config,
     AddProps.isComponentFromTargetPackages config
       (foldl AddProps.collectImport [] (Babel.importDeclarations ast))
       name = true ↔
     ∃ d, d ∈ Babel.importDeclarations ast ∧
          name ∈ Babel.namedLocals d ∧
          ∃ pkg, pkg ∈ AddProps.packages config ∧
                 ∃ pre post, Babel.importSource d = pre +:+ pkg +:+ post).
Proof.
  split.
  - intros config a. rewrite isTrackedComponent_iff.
    unfold Analyzer.analyzeImports. split.
    + intros (imp & [Himp | (d & Hd & Hp & _ & ->)]%analyzeImports_retained
                  & Hname).
      * by apply elem_of_nil in Himp.
      * exists d. done.
    + intros (d & Hd & Hname & Hp).
      exists (ImportInfo.mk (Babel.importSource d) (Babel.namedLocals d)).
      split; [|done]. apply analyzeImports_retained. right. exists d.
      split_and!; [done | done | | done].
      intros Hnil. rewrite Hnil in Hname. by apply elem_of_nil in Hname.
  - intros config. rewrite isComponentFromTargetPackages_iff. split.
    + intros (imp & [Himp | (d & Hd & _ & ->)]%collectImports_retained
                  & Hname & Hpkg).
      * by apply elem_of_nil in Himp.
      * exists d. done.
    + intros (d & Hd & Hname & Hpkg).
      exists (ImportInfo.mk (Babel.importSource d) (Babel.namedLocals d)).
      split; [|done]. apply collectImports_retained. right. exists d.
      split_and!; [done | | done].
      intros Hnil. rewrite Hnil in Hname. by apply elem_of_nil in Hname.
Qed.

(** C4 fails in the mutation path: with [packages = ["react-native"]], a
    file that imports [TextInput] from ["react-native-web"] (a module path
    that only contains the package name) has its [<TextInput/>] classified
    in scope and modified. *)
Lemma substring_module_path_in_scope :
  let config :=
    AddProps.mkConfig [] ["react-native"]
      [AddProps.mkProp "maxLength" "20"] true in
  let ast :=
    Babel.mkFile
      [Babel.mkImport "react-native-web"
         [Babel.mkSpecifier Babel.ImportSpecifier "TextInput"]]
      [Babel.mkElement (Babel.JSXIdentifier "TextInput") []] in
  let imports :=
    foldl AddProps.collectImport [] (Babel.importDeclarations ast) in
("react-native-web" ∉ AddProps.packages config) ∧
  AddProps.isComponentFromTargetPackages config imports "TextInput" = true ∧
  AddProps.shouldProcessComponent (host := Js.asciiHost) config
    (Js.Str "TextInput") imports = true ∧
  AddProps.filesModified
    (AddProps.stats
       (AddProps.main (host := Js.asciiHost) (fs := Fs.writable) config
          [Babel.mkSource "src/App.tsx" (Babel.Parsed ast)]))
    = 1.
Proof.
  cbv zeta. split.
  - cbn. rewrite list_elem_of_singleton. discriminate.
  - by vm_compute.
Qed.

(* ===================================================================== *)
(** ** The built-in markup vocabulary *)
(* ===================================================================== *)

(** The names of the vocabulary are ASCII and lower-case. *)
Lemma htmlElementNames_lowercase :
  Forall (λ n, Js.isAscii n = true ∧ Js.asciiLowerCase n = n)
         AddProps.htmlElementNames.
Proof. repeat (constructor; [by vm_compute|]). constructor. Qed.

(** Whatever the configuration and the imports, a name whose lower-casing is
    in the vocabulary is not processed by the props adder. *)
Lemma shouldProcessComponent_html {host : Js.Host} (config : AddProps.Config)
    (imports : list ImportInfo.t) (name : string) :
  Js.toLowerCase name ∈ AddProps.HTML_ELEMENTS →
  AddProps.shouldProcessComponent config (Js.Str name) imports = false.
Proof.
  intros Hin. unfold AddProps.shouldProcessComponent.
  destruct (negb (Js.truthy (Js.Str name)) || negb (Js.isString (Js.Str name)));
    [done|].
  by rewrite bool_decide_eq_true_2.
Qed.

(** C5, as the code has it.  For every name of the built-in vocabulary the
    props adder does not process the element, whatever [components],
    [packages] and the import table hold.  The analyzer consults no
    vocabulary: an element with such a name that passes the filters and
    whose name a retained import binds is counted like any other. *)
Theorem builtin_names_skipped_by_props_adder_only {host : Js.Host}
    (name : string) :
  name ∈ AddProps.HTML_ELEMENTS →
  (∀ (config : AddProps.Config) (imports : list ImportInfo.t),
     AddProps.shouldProcessComponent config (Js.Str name) imports = false) ∧
  (∀ (config : AddProps.Config) (st : AddProps.Stats)
     (attrs : list Babel.Attribute) (imports : list ImportInfo.t),
     let el := Babel.mkElement (Babel.JSXIdentifier name) attrs in
     AddProps.addPropsToComponent config st el imports = (false, el, st)) ∧
  (∀ (config : Analyzer.Config) (filePath : string)
     (fileImports : list ImportInfo.t) (componentUsage : gmap string nat)
     (a : Analyzer.Analysis) (attrs : list Babel.Attribute),
     let el := Babel.mkElement (Babel.JSXIdentifier name) attrs in
     isSighting config fileImports el = true →
     usagesOf
       (Analyzer.visitJSXElement config filePath fileImports
          (componentUsage, a) el).2 name
     = S (usagesOf a name)).
Proof.
  intros Hin.
  assert (Js.toLowerCase name ∈ AddProps.HTML_ELEMENTS) as Hlow.
  { unfold AddProps.HTML_ELEMENTS in Hin. apply elem_of_list_to_set in Hin.
    pose proof htmlElementNames_lowercase as Hall.
    rewrite Forall_forall in Hall. destruct (Hall name Hin) as [Hascii Hlow].
    rewrite (Js.toLowerCase_ascii name Hascii), Hlow.
    by apply elem_of_list_to_set. }
  split; [intros; by apply shouldProcessComponent_html|].
  split.
  - intros config st attrs imports el. unfold AddProps.addPropsToComponent.
    subst el. cbn [Babel.tag Babel.nameOf].
    by rewrite shouldProcessComponent_html.
  - intros config filePath fileImports componentUsage a attrs el Hs.
    by apply (visitJSXElement_sighting_counts config filePath fileImports
                componentUsage a el name).
Qed.

Lemma builtin_names_skipped_by_props_adder_only_witness :
  "input" ∈ AddProps.HTML_ELEMENTS ∧
  AddProps.shouldProcessComponent (host := Js.asciiHost)
    (AddProps.mkConfig ["input"] ["ui-kit"] [] true) (Js.Str "input")
    [ImportInfo.mk "ui-kit" ["input"]] = false.
Proof.
  assert ("input" ∈ AddProps.HTML_ELEMENTS) as Hin
    by (apply (bool_decide_eq_true_1 ("input" ∈ AddProps.HTML_ELEMENTS));
        vm_compute; reflexivity).
  split; [exact Hin|].
  exact (proj1 (builtin_names_skipped_by_props_adder_only
                  (host := Js.asciiHost) "input" Hin) _ _).
Defined.

(** C5 fails in the analysis path: a file that binds the name [input] by a
    named import from a tracked package has its [<input/>] counted, although
    ["input"] is in the built-in vocabulary. *)
Lemma analyzer_counts_builtin_name :
  let config :=
    Analyzer.mkConfig ["ui-kit"] (Analyzer.PriorityThresholds.mk 10 5)
      (Analyzer.ComponentFilters.mk [] []) in
  let file :=
    Babel.mkSource "src/Form.tsx"
      (Babel.Parsed
         (Babel.mkFile
            [Babel.mkImport "ui-kit"
               [Babel.mkSpecifier Babel.ImportSpecifier "input"]]
            [Babel.mkElement (Babel.JSXIdentifier "input") []])) in
  bool_decide ("input" ∈ AddProps.HTML_ELEMENTS) = true ∧
  usagesOf (Analyzer.analysis (Analyzer.main config [file])) "input" = 1.
Proof. by vm_compute. Qed.

(* ===================================================================== *)
(** ** Files that fail to parse *)
(* ===================================================================== *)

Section AddPropsFiles.
Import AddProps.
Context {host : Js.Host} {fs : Fs.FileSystem}.
Variable config : Config.

Lemma processProp_frame (acc : list Babel.Attribute * bool * Stats)
    (d : PropConfig) :
  fileCounters (processProp config acc d).2 = fileCounters acc.2.
Proof.
  destruct acc as [[attrs hasChanges] st]. unfold processProp.
  destruct (hasProp attrs (name d)); [|done].
  destruct (updateExisting config); [|done].
  destruct (updatePropValue attrs (name d) (value d)) as [[] rest]; done.
Qed.

Lemma processProps_frame (ds : list PropConfig)
    (acc : list Babel.Attribute * bool * Stats) :
  fileCounters (foldl (processProp config) acc ds).2 = fileCounters acc.2.
Proof.
  revert acc. induction ds as [|d ds IH]; intros acc; [done|].
  cbn [foldl]. by rewrite IH, processProp_frame.
Qed.

Lemma addPropsToComponent_frame (st : Stats) (el : Babel.JSXElement)
    (imports : list ImportInfo.t) :
  fileCounters (addPropsToComponent config st el imports).2 = fileCounters st.
Proof.
  unfold addPropsToComponent. destruct (negb _); [done|].
  pose proof (processProps_frame (props config)
                (Babel.attributes el, false, incrComponentsFound st)) as H.
  destruct (foldl _ _ _) as [[attrs hasChanges] st']. exact H.
Qed.

Lemma visitJSXElements_frame (imports : list ImportInfo.t)
    (els : list Babel.JSXElement)
    (acc : bool * list Babel.JSXElement * Stats) :
  fileCounters (foldl (visitJSXElement config imports) acc els).2
    = fileCounters acc.2.
Proof.
  revert acc. induction els as [|el els IH]; intros acc; [done|].
  cbn [foldl]. rewrite IH. destruct acc as [[fileModified seen] st].
  unfold visitJSXElement.
  pose proof (addPropsToComponent_frame st el imports) as H.
  destruct (addPropsToComponent config st el imports) as [[changed el'] st'].
  done.
Qed.

(** What the merge makes of the attributes, and whether it reports a
    change, does not depend on the statistics it finds. *)
Lemma processProp_stats (attrs : list Babel.Attribute) (hasChanges : bool)
    (st1 st2 : Stats) (d : PropConfig) :
  (processProp config (attrs, hasChanges, st1) d).1
    = (processProp config (attrs, hasChanges, st2) d).1.
Proof.
  unfold processProp.
  destruct (hasProp attrs (name d)); [|done].
  destruct (updateExisting config); [|done].
  by destruct (updatePropValue attrs (name d) (value d)) as [[] rest].
Qed.

Lemma processProps_stats (ds : list PropConfig)
    (acc1 acc2 : list Babel.Attribute * bool * Stats) :
  acc1.1 = acc2.1 →
  (foldl (processProp config) acc1 ds).1
    = (foldl (processProp config) acc2 ds).1.
Proof.
  revert acc1 acc2. induction ds as [|d ds IH]; intros acc1 acc2 Heq; [done|].
  cbn [foldl]. apply IH.
  destruct acc1 as [[attrs1 h1] st1], acc2 as [[attrs2 h2] st2].
  cbn [fst] in Heq. injection Heq as -> ->. apply processProp_stats.
Qed.

Lemma addPropsToComponent_stats (st1 st2 : Stats) (el : Babel.JSXElement)
    (imports : list ImportInfo.t) :
  (addPropsToComponent config st1 el imports).1
    = (addPropsToComponent config st2 el imports).1.
Proof.
  unfold addPropsToComponent. destruct (negb _); [done|].
  pose proof (processProps_stats (props config)
                (Babel.attributes el, false, incrComponentsFound st1)
                (Babel.attributes el, false, incrComponentsFound st2) eq_refl)
    as H.
  destruct (foldl _ (_, _, incrComponentsFound st1) _) as [[a1 h1] s1].
  destruct (foldl _ (_, _, incrComponentsFound st2) _) as [[a2 h2] s2].
  cbn [fst] in H. by injection H as -> ->.
Qed.

Lemma visitJSXElements_stats (imports : list ImportInfo.t)
    (els : list Babel.JSXElement)
    (acc1 acc2 : bool * list Babel.JSXElement * Stats) :
  acc1.1 = acc2.1 →
  (foldl (visitJSXElement config imports) acc1 els).1
    = (foldl (visitJSXElement config imports) acc2 els).1.
Proof.
  revert acc1 acc2. induction els as [|el els IH]; intros acc1 acc2 Heq;
    [done|].
  cbn [foldl]. apply IH.
  destruct acc1 as [[m1 seen1] st1], acc2 as [[m2 seen2] st2].
  cbn [fst] in Heq. injection Heq as -> ->. unfold visitJSXElement.
  pose proof (addPropsToComponent_stats st1 st2 el imports) as H.
  destruct (addPropsToComponent config st1 el imports) as [[c1 e1] s1].
  destruct (addPropsToComponent config st2 el imports) as [[c2 e2] s2].
  cbn [fst] in H. by injection H as -> ->.
Qed.

(** What [processFile] hands to [generate]: the flag and the tree of
    [traversed]. *)
Lemma processFile_traversed (st : Stats) (ast : Babel.File) :
  let r :=
    foldl (visitJSXElement config
             (foldl collectImport [] (Babel.importDeclarations ast)))
          (false, [], st) (Babel.jsxElements ast) in
  traversed config ast
    = (r.1.1, Babel.mkFile (Babel.importDeclarations ast) r.1.2).
Proof.
  cbv zeta. unfold traversed.
  pose proof (visitJSXElements_stats
                (foldl collectImport [] (Babel.importDeclarations ast))
                (Babel.jsxElements ast)
                (false, [], initialStats) (false, [], st) eq_refl) as H.
  destruct (foldl _ (false, [], initialStats) _) as [[m0 els0] st0].
  destruct (foldl _ (false, [], st) _) as [[m1 els1] st1].
  cbn [fst snd] in *. by injection H as -> ->.
Qed.

(** The file counters after one file. *)
Lemma processFile_counters (run : Run) (f : Babel.SourceFile) :
  let st := stats run in
  let st' := stats (processFile config run f) in
  filesProcessed st' =
    filesProcessed st + match caughtBy config f with Some _ => 0 | None => 1 end ∧
  errors st' = errors st ++ option_list (addPropsErrorMsg config f) ∧
  filesModified st ≤ filesModified st' ≤
    filesModified st + match caughtBy config f with Some _ => 0 | None => 1 end.
Proof.
  unfold processFile, addPropsErrorMsg, caughtBy.
  destruct (Babel.parsed f) as [ast | message];
    cbn [fmap option_fmap option_map option_list].
  - rewrite (processFile_traversed (stats run) ast).
    pose proof (visitJSXElements_frame
                  (foldl collectImport [] (Babel.importDeclarations ast))
                  (Babel.jsxElements ast) (false, [], stats run)) as H.
    destruct (foldl (visitJSXElement config _) _ _)
      as [[fileModified elements] st'].
    unfold fileCounters in H. cbn [fst snd] in *.
    injection H as Hp Hm He.
    destruct fileModified; [destruct (Fs.writeFileSync _ _)|];
      cbn; rewrite Hp, Hm, He, ?app_nil_r;
      split_and!; first [done | lia].
  - cbn. split_and!; first [done | lia].
Qed.

(** The file counters after the loop of [main]. *)
Lemma processFiles_counters (files : list Babel.SourceFile) (run : Run) :
  let st := stats run in
  let st' := stats (foldl (processFile config) run files) in
  filesProcessed st'
    = filesProcessed st + length (completedFiles config files) ∧
  errors st' = errors st ++ omap (addPropsErrorMsg config) files ∧
  filesModified st'
    ≤ filesModified st + length (completedFiles config files).
Proof.
  revert run. induction files as [|f files IH]; intros run.
  - cbn. rewrite app_nil_r. split_and!; first [done | lia].
  - cbn [foldl]. cbv zeta.
    destruct (IH (processFile config run f)) as (Hp & He & Hm).
    destruct (processFile_counters run f) as (Hp1 & He1 & Hm1).
    rewrite Hp, He, Hp1, He1. unfold completedFiles in *.
    unfold addPropsErrorMsg in *.
    destruct (caughtBy config f) as [message|] eqn:Hcaught.
    + rewrite filter_cons_False by (rewrite Hcaught; discriminate).
      cbn [omap list_omap fmap option_fmap option_map option_list length].
      rewrite Hcaught. cbn. rewrite <- app_assoc. cbn.
      split_and!; first [done | lia].
    + rewrite filter_cons_True by done.
      cbn [omap list_omap fmap option_fmap option_map option_list length].
      rewrite Hcaught. cbn. rewrite app_nil_r.
      split_and!; first [done | lia].
Qed.

(** A file that fails to read or parse has that error caught. *)
Lemma addPropsErrorMsg_parse (f : Babel.SourceFile) (msg : string) :
  parseErrorMsg f = Some msg → addPropsErrorMsg config f = Some msg.
Proof.
  unfold parseErrorMsg, addPropsErrorMsg, thrownMessage, caughtBy.
  by destruct (Babel.parsed f).
Qed.

(** Where every write succeeds, these are the only errors. *)
Lemma caughtBy_writable (f : Babel.SourceFile) :
  (∀ path out, Fs.writeFileSync path out = None) →
  caughtBy config f = thrownMessage f.
Proof.
  intros Hw. unfold caughtBy, thrownMessage.
  destruct (Babel.parsed f) as [ast | message]; [|done].
  destruct (traversed config ast) as [[] out]; [apply Hw | done].
Qed.

Lemma files_writable (files : list Babel.SourceFile) :
  (∀ path out, Fs.writeFileSync path out = None) →
  completedFiles config files = parsedFiles files ∧
  omap (addPropsErrorMsg config) files = omap parseErrorMsg files.
Proof.
  intros Hw. unfold completedFiles, parsedFiles.
  induction files as [|f files [IH1 IH2]]; [done|].
  pose proof (caughtBy_writable f Hw) as Hf.
  cbn [omap list_omap]. unfold addPropsErrorMsg at 1, parseErrorMsg at 1.
  rewrite Hf, IH2. split; [|done].
  unfold thrownMessage in Hf.
  destruct (Babel.parsed f) as [ast | message] eqn:Hparsed.
  - rewrite (filter_cons_True (λ f, caughtBy config f = None)) by done.
    rewrite (filter_cons_True (λ f, parsedOk f = true))
      by (unfold parsedOk; by rewrite Hparsed).
    by rewrite IH1.
  - rewrite (filter_cons_False (λ f, caughtBy config f = None))
      by (rewrite Hf; discriminate).
    rewrite (filter_cons_False (λ f, parsedOk f = true))
      by (unfold parsedOk; rewrite Hparsed; discriminate).
    done.
Qed.

(** Every file is either completed or has its error. *)
Lemma length_completed_caught (files : list Babel.SourceFile) :
  length (completedFiles config files)
    + length (omap (addPropsErrorMsg config) files)
  = length files.
Proof.
  unfold completedFiles, addPropsErrorMsg.
  induction files as [|f files IH]; [done|].
  destruct (caughtBy config f) as [message|] eqn:Hcaught.
  - rewrite filter_cons_False by (rewrite Hcaught; discriminate).
    cbn. rewrite Hcaught. cbn. lia.
  - rewrite filter_cons_True by done.
    cbn. rewrite Hcaught. cbn. lia.
Qed.

End AddPropsFiles.

Section AnalyzerFiles.
Import Analyzer.
Variable config : Config.

Lemma analyzeImport_frame (acc : list ImportInfo.t * Analysis)
    (d : Babel.ImportDeclaration) :
  let a' := (analyzeImport config acc d).2 in
  Summary.totalFiles (summary a') = Summary.totalFiles (summary acc.2) ∧
  files a' = files acc.2 ∧
  components a' = components acc.2.
Proof.
  destruct acc as [fileImports a]. unfold analyzeImport.
  destruct (existsb _ _); [|done].
  by destruct (0 <? length (Babel.namedLocals d)).
Qed.

Lemma analyzeImports_frame (decls : list Babel.ImportDeclaration)
    (acc : list ImportInfo.t * Analysis) :
  let a' := (foldl (analyzeImport config) acc decls).2 in
  Summary.totalFiles (summary a') = Summary.totalFiles (summary acc.2) ∧
  files a' = files acc.2 ∧
  components a' = components acc.2.
Proof.
  revert acc. induction decls as [|d decls IH]; intros acc; [done|].
  cbn [foldl]. cbv zeta.
  destruct (IH (analyzeImport config acc d)) as (H1 & H2 & H3).
  destruct (analyzeImport_frame acc d) as (H4 & H5 & H6).
  by rewrite H1, H2, H3, H4, H5, H6.
Qed.

Lemma visitJSXElement_frame (filePath : string)
    (fileImports : list ImportInfo.t) (acc : gmap string nat * Analysis)
    (el : Babel.JSXElement) :
  let a' := (visitJSXElement config filePath fileImports acc el).2 in
  summary a' = summary acc.2 ∧ files a' = files acc.2.
Proof.
  destruct acc as [componentUsage a]. unfold visitJSXElement.
  destruct (negb _); [done|].
  destruct (isTrackedComponent _ _); [|done].
  by destruct (Babel.nameOf (Babel.tag el)).
Qed.

Lemma analyzeJSXUsage_frame (filePath : string)
    (fileImports : list ImportInfo.t) (els : list Babel.JSXElement)
    (acc : gmap string nat * Analysis) :
  let a' := (foldl (visitJSXElement config filePath fileImports) acc els).2 in
  summary a' = summary acc.2 ∧ files a' = files acc.2.
Proof.
  revert acc. induction els as [|el els IH]; intros acc; [done|].
  cbn [foldl]. cbv zeta.
  destruct (IH (visitJSXElement config filePath fileImports acc el))
    as [H1 H2].
  destruct (visitJSXElement_frame filePath fileImports acc el) as [H3 H4].
  by rewrite H1, H2, H3, H4.
Qed.

(** One file of the analyzer: a parsed file is counted and gets its entry
    in [analysis.files]; a failing file leaves the analysis as it was. *)
Lemma processFile_analysis (run : Run) (f : Babel.SourceFile) :
  let a := analysis run in
  let a' := analysis (processFile config run f) in
  (if parsedOk f
   then Summary.totalFiles (summary a') = S (Summary.totalFiles (summary a)) ∧
        is_Some (files a' !! Babel.filePath f) ∧
        (∀ k, is_Some (files a !! k) → is_Some (files a' !! k))
   else a' = a) ∧
  consoleError (processFile config run f)
    = consoleError run ++ option_list (analyzerErrorLine f).
Proof.
  unfold processFile, parsedOk, analyzerErrorLine, thrownMessage.
  destruct (Babel.parsed f) as [ast | message]; [|done].
  unfold analyzeImports, analyzeJSXUsage.
  pose proof (analyzeImports_frame (Babel.importDeclarations ast)
                ([], analysis run)) as (Hi1 & Hi2 & _).
  destruct (foldl (analyzeImport config) _ _) as [fileImports a1].
  pose proof (analyzeJSXUsage_frame (Babel.filePath f) fileImports
                (Babel.jsxElements ast) (∅, a1)) as (Hv1 & Hv2).
  destruct (foldl (visitJSXElement config _ _) _ _) as [componentUsage a2].
  cbn in *. rewrite app_nil_r. rewrite Hv1, Hv2, Hi1, Hi2.
  split_and!; [done | by rewrite lookup_insert_eq | | done].
  intros k Hk. destruct (decide (Babel.filePath f = k)) as [<- | Hne].
  - by rewrite lookup_insert_eq.
  - by rewrite lookup_insert_ne.
Qed.

(** The analysis that [processFile] leaves depends on the analysis it
    finds, not on the console. *)
Lemma processFile_analysis_ext (run1 run2 : Run) (f : Babel.SourceFile) :
  analysis run1 = analysis run2 →
  analysis (processFile config run1 f) = analysis (processFile config run2 f).
Proof.
  intros Heq. unfold processFile. rewrite Heq.
  destruct (Babel.parsed f); [|done].
  destruct (analyzeImports _ _ _) as [fileImports a1].
  by destruct (analyzeJSXUsage _ _ _ _ _).
Qed.

Lemma processFiles_analysis_ext (files : list Babel.SourceFile)
    (run1 run2 : Run) :
  analysis run1 = analysis run2 →
  analysis (foldl (processFile config) run1 files)
    = analysis (foldl (processFile config) run2 files).
Proof.
  revert run1 run2. induction files as [|f files IH]; intros run1 run2 Heq;
    [done|].
  cbn [foldl]. by apply IH, processFile_analysis_ext.
Qed.

(** The loop of [main]: the analysis is the one of the parsed files alone. *)
Lemma processFiles_parsed_only (files : list Babel.SourceFile) (run : Run) :
  analysis (foldl (processFile config) run files)
    = analysis (foldl (processFile config) run (parsedFiles files)).
Proof.
  revert run. unfold parsedFiles.
  induction files as [|f files IH]; intros run; [done|].
  cbn [foldl]. destruct (parsedOk f) eqn:Hok.
  - rewrite filter_cons_True by done. cbn [foldl]. apply IH.
  - rewrite filter_cons_False by (rewrite Hok; discriminate).
    rewrite IH. apply processFiles_analysis_ext.
    destruct (processFile_analysis run f) as [H _]. by rewrite Hok in H.
Qed.

Lemma processFiles_totals (files : list Babel.SourceFile) (run : Run) :
  let r := foldl (processFile config) run files in
  Summary.totalFiles (summary (analysis r))
    = Summary.totalFiles (summary (analysis run)) + length (parsedFiles files) ∧
  consoleError r = consoleError run ++ omap analyzerErrorLine files ∧
  (∀ k, is_Some (Analyzer.files (analysis run) !! k) →
        is_Some (Analyzer.files (analysis r) !! k)) ∧
  (∀ f, f ∈ files → parsedOk f = true →
        is_Some (Analyzer.files (analysis r) !! Babel.filePath f)).
Proof.
  revert run. unfold parsedFiles.
  induction files as [|f files IH]; intros run.
  - cbn. rewrite app_nil_r. split_and!; [lia | done | done |].
    intros f Hf. by apply elem_of_nil in Hf.
  - cbn [foldl]. cbv zeta.
    destruct (IH (processFile config run f)) as (Ht & Hc & Hk & Hf).
    destruct (processFile_analysis run f) as [Ha Hc1].
    rewrite Ht, Hc, Hc1.
    assert (omap analyzerErrorLine (f :: files)
            = option_list (analyzerErrorLine f) ++ omap analyzerErrorLine files)
      as -> by (cbn; by destruct (analyzerErrorLine f)).
    rewrite <- app_assoc.
    destruct (parsedOk f) eqn:Hok.
    + destruct Ha as (Ha1 & Ha2 & Ha3).
      rewrite filter_cons_True by done. rewrite Ha1. cbn [length].
      split_and!; [lia | done | intros k Hk0; by apply Hk, Ha3 |].
      intros f' [-> | Hf']%elem_of_cons Hok'; [by apply Hk | by apply Hf].
    + rewrite filter_cons_False by (rewrite Hok; discriminate). rewrite Ha.
      split_and!; [done | done | intros k Hk0; apply Hk; by rewrite Ha |].
      intros f' [-> | Hf']%elem_of_cons Hok'; [congruence | by apply Hf].
Qed.

(** With no component record the summary and the priorities change
    nothing. *)
Lemma calculate_initial :
  calculatePriorities config (calculateSummary initialAnalysis)
    = initialAnalysis.
Proof.
  unfold calculatePriorities, calculateSummary, initialAnalysis.
  cbn [components summary files imports Summary.totalFiles Summary.packages].
  by rewrite fmap_empty, map_size_empty.
Qed.

End AnalyzerFiles.

(** C6, as the code has it.  Neither script stops at a file that fails:
    every file of the list is handled.  The props adder catches an error at
    a file when reading or parsing it throws, and also when an element of
    the file changed and writing the tree back throws (by then the elements
    and props of the file are counted).  It records each caught error in
    [stats.errors], as one message string made of the file path and the
    error's message, in the order of the files, and counts the other files
    in [filesProcessed], so that [filesProcessed] and the number of errors
    add up to the number of files; [filesModified] never exceeds
    [filesProcessed].  The error of every file that fails to read or parse
    is among them, and where every write succeeds these are the only
    errors and [filesProcessed] counts the parsed files.  The analyzer
    counts the parsed files in [summary.totalFiles] and gives each an entry
    in [analysis.files]; for a failing file it prints a line on
    [console.error] and keeps nothing in [analysis]: the [analysis] object
    at the end of the run is the one of a run on the parsed files alone. *)
Theorem file_failures_accounting {host : Js.Host} {fs : Fs.FileSystem}
    (files : list Babel.SourceFile) :
  (∀ config : AddProps.Config,
     let st := AddProps.stats (AddProps.main config files) in
     AddProps.filesProcessed st = length (completedFiles config files) ∧
     AddProps.errors st = omap (addPropsErrorMsg config) files ∧
     AddProps.filesProcessed st + length (AddProps.errors st) = length files ∧
     AddProps.filesModified st ≤ AddProps.filesProcessed st ∧
     (∀ msg, msg ∈ omap parseErrorMsg files → msg ∈ AddProps.errors st) ∧
     ((∀ path out, Fs.writeFileSync path out = None) →
      AddProps.filesProcessed st = length (parsedFiles files) ∧
      AddProps.errors st = omap parseErrorMsg files)) ∧
  (∀ config : Analyzer.Config,
     let r := Analyzer.main config files in
     let a := Analyzer.analysis r in
     Analyzer.Summary.totalFiles (Analyzer.summary a)
       = length (parsedFiles files) ∧
     (∀ f, f ∈ files → parsedOk f = true →
           is_Some (Analyzer.files a !! Babel.filePath f)) ∧
     Analyzer.consoleError r = omap analyzerErrorLine files ∧
     a = Analyzer.analysis (Analyzer.main config (parsedFiles files))).
Proof.
  split.
  - intros config st. subst st.
    assert (AddProps.stats (AddProps.main config files)
            = AddProps.stats
                (foldl (AddProps.processFile config) AddProps.initialRun files))
      as -> by (unfold AddProps.main; by destruct files).
    destruct (processFiles_counters config files AddProps.initialRun)
      as (Hp & He & Hm).
    cbn [AddProps.initialRun AddProps.stats AddProps.initialStats
         AddProps.filesProcessed AddProps.errors AddProps.filesModified
         app Nat.add] in Hp, He, Hm.
    rewrite Hp, He. split_and!; [done | done | | lia | |].
    + apply length_completed_caught.
    + intros msg (f & Hf & Hmsg)%list_elem_of_omap.
      apply list_elem_of_omap. exists f. split; [done|].
      by apply addPropsErrorMsg_parse.
    + intros Hw. destruct (files_writable config files Hw) as [-> ->]. done.
  - intros config r a. subst r a. unfold Analyzer.main.
    destruct files as [|f files]; [cbn; split_and!; try done|].
    { intros f Hf. by apply elem_of_nil in Hf. }
    cbn [length Nat.eqb].
    destruct (processFiles_totals config (f :: files) Analyzer.initialRun)
      as (Ht & Hc & _ & Hf).
    cbn [Analyzer.analysis Analyzer.consoleError Analyzer.calculatePriorities
         Analyzer.calculateSummary Analyzer.summary Analyzer.files
         Analyzer.Summary.totalFiles].
    split_and!; [done | done | done |].
    rewrite processFiles_parsed_only.
    destruct (parsedFiles (f :: files)) as [|f' files'] eqn:Hparsed.
    + cbn [length Nat.eqb foldl Analyzer.initialRun Analyzer.analysis].
      apply calculate_initial.
    + done.
Qed.

(** C6 fails in the analysis path: of three files of which the second fails
    to parse, the analyzer counts two and has no entry for the second; the
    analysis is the one of a run on the first and the third file alone, and
    the failure is a line on [console.error] only. *)
Lemma analyzer_keeps_no_record_of_failed_file :
  let config :=
    Analyzer.mkConfig ["ui-kit"] (Analyzer.PriorityThresholds.mk 10 5)
      (Analyzer.ComponentFilters.mk [] []) in
  let import :=
    Babel.mkImport "ui-kit" [Babel.mkSpecifier Babel.ImportSpecifier "Field"] in
  let field := Babel.mkElement (Babel.JSXIdentifier "Field") [] in
  let file1 :=
    Babel.mkSource "src/One.tsx" (Babel.Parsed (Babel.mkFile [import] [field])) in
  let file2 :=
    Babel.mkSource "src/Two.tsx" (Babel.SyntaxError "Unexpected token (3:7)") in
  let file3 :=
    Babel.mkSource "src/Three.tsx" (Babel.Parsed (Babel.mkFile [import] [field])) in
  let r := Analyzer.main config [file1; file2; file3] in
  let a := Analyzer.analysis r in
  Analyzer.Summary.totalFiles (Analyzer.summary a) = 2 ∧
  Analyzer.files a !! "src/Two.tsx" = None ∧
  a = Analyzer.analysis (Analyzer.main config [file1; file3]) ∧
  Analyzer.consoleError r
    = ["✗ Error analyzing src/Two.tsx: Unexpected token (3:7)"].
Proof. by vm_compute. Qed.

(** A write that fails, in the props adder: the [<Field/>] of the file is
    counted and gets the prop, then writing the file back throws.  The
    error is recorded, the file is counted neither as processed nor as
    modified, and nothing is written. *)
Lemma failed_write_is_recorded_after_the_counts :
  let config :=
    AddProps.mkConfig ["Field"] [] [AddProps.mkProp "required" "true"] true in
  let readOnly : Fs.FileSystem :=
    {| Fs.writeFileSync := λ _ _, Some "EACCES: permission denied" |} in
  let file :=
    Babel.mkSource "src/App.tsx"
      (Babel.Parsed
         (Babel.mkFile [] [Babel.mkElement (Babel.JSXIdentifier "Field") []])) in
  let r :=
    AddProps.main (host := Js.asciiHost) (fs := readOnly) config [file] in
  AddProps.stats r
    = AddProps.mkStats 0 0 1 1 0 0
        ["Error processing src/App.tsx: EACCES: permission denied"] ∧
  AddProps.written r = [].
Proof. by vm_compute. Qed.

(* ===================================================================== *)
(** ** The summary counts the sightings of the run *)
(* ===================================================================== *)

Section AnalyzerTotals.
Import Analyzer.
Variable config : Config.

Lemma sumTotalUsages_insert_fresh (m : gmap string ComponentData.t)
    (k : string) (c : ComponentData.t) :
  m !! k = None →
  sumTotalUsages (<[k := c]> m)
    = sumTotalUsages m + ComponentData.totalUsages c.
Proof.
  intros Hk. unfold sumTotalUsages.
  rewrite map_fold_insert_L; [done | intros; lia | done].
Qed.

Lemma sumTotalUsages_insert_known (m : gmap string ComponentData.t)
    (k : string) (c c' : ComponentData.t) :
  m !! k = Some c →
  sumTotalUsages (<[k := c']> m) + ComponentData.totalUsages c
    = sumTotalUsages m + ComponentData.totalUsages c'.
Proof.
  intros Hk.
  rewrite <- (insert_delete_id m k c Hk) at 2.
  rewrite <- (insert_delete_eq m k c').
  rewrite !sumTotalUsages_insert_fresh by apply lookup_delete_eq. lia.
Qed.

(** A sighting adds one to the sum of the records' [totalUsages]. *)
Lemma visitJSXElement_sum (filePath : string)
    (fileImports : list ImportInfo.t) (acc : gmap string nat * Analysis)
    (el : Babel.JSXElement) :
  sumTotalUsages
    (components (visitJSXElement config filePath fileImports acc el).2)
  = sumTotalUsages (components acc.2)
    + (if isSighting config fileImports el then 1 else 0).
Proof.
  destruct acc as [componentUsage a].
  destruct (isSighting config fileImports el) eqn:Hs.
  - pose proof Hs as [_ Ht]%andb_true_iff.
    apply isTrackedComponent_string in Ht as [name Hname].
    rewrite (visitJSXElement_sighting _ _ _ _ _ _ name) by done.
    cbn [snd components].
    destruct (components a !! name) as [c|] eqn:Hc; cbn [from_option];
      unfold id.
    + set (c' := recordUsage _ _ c).
      pose proof (sumTotalUsages_insert_known (components a) name c c' Hc) as H.
      change (ComponentData.totalUsages c')
        with (S (ComponentData.totalUsages c)) in H.
      lia.
    + rewrite sumTotalUsages_insert_fresh by done. cbn. lia.
  - rewrite visitJSXElement_other by done. cbn [snd]. lia.
Qed.

Lemma analyzeJSXUsage_sum (filePath : string)
    (fileImports : list ImportInfo.t) (els : list Babel.JSXElement)
    (acc : gmap string nat * Analysis) :
  sumTotalUsages
    (components (foldl (visitJSXElement config filePath fileImports) acc els).2)
  = sumTotalUsages (components acc.2)
    + length (filter (λ el, isSighting config fileImports el = true) els).
Proof.
  revert acc. induction els as [|el els IH]; intros acc.
  - cbn. lia.
  - cbn [foldl]. rewrite IH, visitJSXElement_sum.
    destruct (isSighting config fileImports el) eqn:Hs.
    + rewrite filter_cons_True by done. cbn [length]. lia.
    + rewrite filter_cons_False by (rewrite Hs; discriminate). lia.
Qed.

(** The imports retained for a file depend on the file and on the
    configuration, not on the analysis so far. *)
Lemma analyzeImports_independent (decls : list Babel.ImportDeclaration)
    (acc : list ImportInfo.t) (a1 a2 : Analysis) :
  (foldl (analyzeImport config) (acc, a1) decls).1
  = (foldl (analyzeImport config) (acc, a2) decls).1.
Proof.
  revert acc a1 a2. induction decls as [|d decls IH]; intros acc a1 a2; [done|].
  cbn [foldl]. unfold analyzeImport at 2 4.
  destruct (existsb _ _); [|apply IH].
  destruct (0 <? length (Babel.namedLocals d)); apply IH.
Qed.

(** One file adds its sightings to the sum. *)
Lemma processFile_sum (run : Run) (f : Babel.SourceFile) :
  sumTotalUsages (components (analysis (processFile config run f)))
  = sumTotalUsages (components (analysis run)) + sightingsIn config f.
Proof.
  unfold processFile, sightingsIn, retainedImports.
  destruct (Babel.parsed f) as [ast | message]; [|cbn; lia].
  unfold analyzeImports, analyzeJSXUsage.
  rewrite (analyzeImports_independent (Babel.importDeclarations ast) []
             initialAnalysis (analysis run)).
  pose proof (analyzeImports_frame config (Babel.importDeclarations ast)
                ([], analysis run)) as (_ & _ & Hi).
  destruct (foldl (analyzeImport config) _ _) as [fileImports a1].
  pose proof (analyzeJSXUsage_sum (Babel.filePath f) fileImports
                (Babel.jsxElements ast) (∅, a1)) as Hv.
  destruct (foldl (visitJSXElement config _ _) _ _) as [componentUsage a2].
  cbn in *. by rewrite Hv, Hi.
Qed.

Lemma processFiles_sum (files : list Babel.SourceFile) (run : Run) :
  sumTotalUsages (components (analysis (foldl (processFile config) run files)))
  = sumTotalUsages (components (analysis run))
    + sum_list (sightingsIn config <$> files).
Proof.
  revert run. induction files as [|f files IH]; intros run.
  - cbn. lia.
  - cbn [foldl]. rewrite IH, processFile_sum. cbn. lia.
Qed.

(** X12.  At the end of a run [summary.totalUsages] is the number of sightings in
    the files of the run. *)
Lemma summary_totalUsages_sightings (files : list Babel.SourceFile) :
  Summary.totalUsages (summary (analysis (main config files)))
  = sum_list (sightingsIn config <$> files).
Proof.
  unfold main. destruct files as [|f files]; [done|].
  cbn [length Nat.eqb analysis calculatePriorities calculateSummary summary
       Summary.totalUsages].
  by rewrite processFiles_sum.
Qed.

End AnalyzerTotals.

(* ===================================================================== *)
(** ** What the merge does to an element, whatever its attribute nodes *)
(* ===================================================================== *)

Lemma sortInsert_Permutation {A} (compareFn : A → A → Z) (x : A) (l : list A) :
  Js.sortInsert compareFn x l ≡ₚ x :: l.
Proof.
  induction l as [|y l IH]; [done|].
  simpl. destruct (compareFn x y <=? 0)%Z; [done|].
  rewrite IH. apply Permutation_swap.
Qed.

(** The sort keeps every element of the array, as often as it occurs. *)
Lemma sort_Permutation {A} (compareFn : A → A → Z) (l : list A) :
  Js.sort compareFn l ≡ₚ l.
Proof.
  induction l as [|x l IH]; [done|].
  simpl. rewrite sortInsert_Permutation. by rewrite IH.
Qed.

Section AddPropsMerge.
Import AddProps.
Context {host : Js.Host} {fs : Fs.FileSystem}.
Variable config : Config.

(** [updatePropValue] writes a value and nothing else: every attribute
    stays where it is, with its key and its name. *)
Lemma updatePropValue_shape (props : list Babel.Attribute)
    (propName newValue : string) :
  shapeOf <$> (updatePropValue props propName newValue).2 = shapeOf <$> props.
Proof.
  induction props as [|p props IH]; [done|].
  simpl. destruct (Js.strictEq (keyOf p) propName); [done|].
  destruct (updatePropValue props propName newValue) as [found rest].
  simpl in *. by f_equal.
Qed.

(** The three ways through the body of the loop. *)
Lemma processProp_cases (attrs : list Babel.Attribute) (hasChanges : bool)
    (st : Stats) (d : PropConfig) :
  let r := processProp config (attrs, hasChanges, st) d in
  (hasProp attrs (name d) = false ∧
   r = (attrs ++ [newPropFor d], true, incrPropsAdded st)) ∨
  (hasProp attrs (name d) = true ∧ updateExisting config = true ∧
   r = ((updatePropValue attrs (name d) (value d)).2, true,
        incrPropsUpdated st)) ∨
  (hasProp attrs (name d) = true ∧ updateExisting config = false ∧
   r = (attrs, hasChanges, incrComponentsSkipped st)).
Proof.
  cbv zeta. unfold processProp.
  destruct (hasProp attrs (name d)) eqn:Hhas; [|by left].
  right. destruct (updateExisting config); [left | by right].
  pose proof (updatePropValue_found attrs (name d) (value d)) as Hfound.
  destruct (updatePropValue attrs (name d) (value d)) as [found rest].
  simpl in Hfound. rewrite Hfound, Hhas. done.
Qed.

(** The loop over the directives [ds], from the attributes [attrs], the flag
    [hasChanges] and the statistics [st]: what was appended, how often each
    of the three counters moved, and what became of the flag. *)
Lemma processProps_effect (ds : list PropConfig) (attrs : list Babel.Attribute)
    (hasChanges : bool) (st : Stats) :
  ∃ (added : list Babel.Attribute) (updated skipped : nat),
    let '(attrs', hasChanges', st') :=
      foldl (processProp config) (attrs, hasChanges, st) ds in
    added `sublist_of` (newPropFor <$> ds) ∧
    shapeOf <$> attrs' = shapeOf <$> (attrs ++ added) ∧
    (updateExisting config = false → attrs' = attrs ++ added ∧ updated = 0) ∧
    (updateExisting config = true → skipped = 0) ∧
    length added + updated + skipped = length ds ∧
    propsAdded st' = propsAdded st + length added ∧
    propsUpdated st' = propsUpdated st + updated ∧
    componentsSkipped st' = componentsSkipped st + skipped ∧
    componentsFound st' = componentsFound st ∧
    hasChanges' = hasChanges || bool_decide (0 < length added + updated) ∧
    (length added + updated = 0 → attrs' = attrs).
Proof.
  revert attrs hasChanges st.
  induction ds as [|d ds IH]; intros attrs hasChanges st.
  - exists [], 0, 0. cbn. rewrite app_nil_r, orb_false_r.
    split_and!; done.
  - cbn [foldl].
    destruct (processProp_cases attrs hasChanges st d)
      as [(Hhas & ->) | [(Hhas & Hupd & ->) | (Hhas & Hupd & ->)]].
    + destruct (IH (attrs ++ [newPropFor d]) true (incrPropsAdded st))
        as (added & updated & skipped & H).
      exists (newPropFor d :: added), updated, skipped.
      destruct (foldl _ _ ds) as [[attrs' hasChanges'] st'].
      destruct H as (Hsub & Hshape & Hoff & Hon & Hlen & Ha & Hu & Hs & Hf
                     & Hflag & _).
      rewrite <- app_assoc in Hshape. cbn [app] in Hshape.
      cbn in Ha, Hu, Hs, Hf.
      split_and!;
        first [ done
              | by apply sublist_skip
              | cbn [length]; lia
              | intros Hno; destruct (Hoff Hno) as [-> ->];
                by rewrite <- app_assoc
              | rewrite Hflag; cbn [orb]; symmetry; rewrite orb_true_iff;
                right; apply bool_decide_eq_true; cbn [length]; lia ].
    + destruct (IH (updatePropValue attrs (name d) (value d)).2 true
                  (incrPropsUpdated st))
        as (added & updated & skipped & H).
      exists added, (S updated), skipped.
      destruct (foldl _ _ ds) as [[attrs' hasChanges'] st'].
      destruct H as (Hsub & Hshape & Hoff & Hon & Hlen & Ha & Hu & Hs & Hf
                     & Hflag & _).
      cbn in Ha, Hu, Hs, Hf.
      split_and!;
        first [ done
              | by apply sublist_cons
              | cbn [length]; lia
              | rewrite Hshape, !fmap_app; by rewrite updatePropValue_shape
              | intros; congruence
              | intros; lia
              | rewrite Hflag; cbn [orb]; symmetry; rewrite orb_true_iff;
                right; apply bool_decide_eq_true; lia ].
    + destruct (IH attrs hasChanges (incrComponentsSkipped st))
        as (added & updated & skipped & H).
      exists added, updated, (S skipped).
      destruct (foldl _ _ ds) as [[attrs' hasChanges'] st'].
      destruct H as (Hsub & Hshape & Hoff & Hon & Hlen & Ha & Hu & Hs & Hf
                     & Hflag & Hsame).
      cbn in Ha, Hu, Hs, Hf.
      split_and!;
        first [ done
              | by apply sublist_cons
              | cbn [length]; lia
              | intros; congruence ].
Qed.

End AddPropsMerge.

Section AddPropsElement.
Import AddProps.
Context {host : Js.Host} {fs : Fs.FileSystem}.
Variable config : Config.

(** Everything [addPropsToComponent] does to an element and to the
    statistics, in and out of scope. *)
Lemma addPropsToComponent_effect (st : Stats) (el : Babel.JSXElement)
    (imports : list ImportInfo.t) :
  ∃ (added : list Babel.Attribute) (updated skipped : nat),
    let '(changed, el', st') := addPropsToComponent config st el imports in
    Babel.tag el' = Babel.tag el ∧
    added `sublist_of` (newPropFor <$> props config) ∧
    shapeOf <$> Babel.attributes el' ≡ₚ shapeOf <$> (Babel.attributes el ++ added) ∧
    (updateExisting config = false →
       Babel.attributes el' ≡ₚ Babel.attributes el ++ added ∧ updated = 0) ∧
    (updateExisting config = true → skipped = 0) ∧
    length added + updated + skipped =
      (if inScope config imports el then length (props config) else 0) ∧
    propsAdded st' = propsAdded st + length added ∧
    propsUpdated st' = propsUpdated st + updated ∧
    componentsSkipped st' = componentsSkipped st + skipped ∧
    componentsFound st' =
      componentsFound st + (if inScope config imports el then 1 else 0) ∧
    fileCounters st' = fileCounters st ∧
    changed = bool_decide (0 < length added + updated) ∧
    (changed = false → el' = el).
Proof.
  pose proof (addPropsToComponent_frame config st el imports) as Hframe.
  unfold addPropsToComponent, inScope in *.
  destruct (shouldProcessComponent config _ imports) eqn:Hscope; cbn [negb] in *.
  - destruct (processProps_effect config (props config) (Babel.attributes el)
                false (incrComponentsFound st))
      as (added & updated & skipped & H).
    exists added, updated, skipped.
    destruct (foldl _ _ _) as [[attrs' hasChanges'] st'].
    destruct H as (Hsub & Hshape & Hoff & Hon & Hlen & Ha & Hu & Hs & Hf
                   & Hflag & Hsame).
    cbn in Ha, Hu, Hs, Hf, Hflag. cbn [Babel.tag Babel.attributes snd] in *.
    split_and!; try done.
    + rewrite <- Hshape. destruct hasChanges'; [|done].
      unfold sortPropsAlphabetically. by rewrite sort_Permutation.
    + intros Hno. destruct (Hoff Hno) as [-> ->]. split; [|done].
      destruct hasChanges'; [|done].
      unfold sortPropsAlphabetically. by rewrite sort_Permutation.
    + lia.
    + intros ->. symmetry in Hflag. apply bool_decide_eq_false_1 in Hflag.
      assert (attrs' = Babel.attributes el) as -> by (apply Hsame; lia).
      by destruct el.
  - exists [], 0, 0. rewrite app_nil_r. split_and!; try done.
    apply sublist_nil_l.
Qed.

(** X2.  The merge never removes or renames an attribute and never changes the
    tag: the attributes of the result are, value apart, those of the element
    and attributes built from directives, each directive used at most once
    and [propsAdded] counting them. *)
Theorem addPropsToComponent_keeps_attributes (st : Stats)
    (el : Babel.JSXElement) (imports : list ImportInfo.t) :
  let '(_, el', st') := addPropsToComponent config st el imports in
  Babel.tag el' = Babel.tag el ∧
  ∃ added : list Babel.Attribute,
    added `sublist_of` (newPropFor <$> props config) ∧
    shapeOf <$> Babel.attributes el' ≡ₚ shapeOf <$> (Babel.attributes el ++ added) ∧
    length (Babel.attributes el') = length (Babel.attributes el) + length added ∧
    propsAdded st' = propsAdded st + length added.
Proof.
  destruct (addPropsToComponent_effect st el imports)
    as (added & updated & skipped & H).
  destruct (addPropsToComponent config st el imports) as [[changed el'] st'].
  destruct H as (Htag & Hsub & Hshape & _ & _ & _ & Ha & _).
  split; [done|]. exists added. split_and!; try done.
  apply Permutation_length in Hshape.
  by rewrite !length_fmap, length_app in Hshape.
Qed.

(** X3.  With [updateExisting] off the merge writes into no attribute: the
    result holds the attributes of the element as they were, values
    included, and the appended ones; nothing is counted as updated. *)
Theorem updates_off_leaves_attributes_verbatim (st : Stats)
    (el : Babel.JSXElement) (imports : list ImportInfo.t) :
  updateExisting config = false →
  let '(_, el', st') := addPropsToComponent config st el imports in
  propsUpdated st' = propsUpdated st ∧
  ∃ added : list Babel.Attribute,
    added `sublist_of` (newPropFor <$> props config) ∧
    Babel.attributes el' ≡ₚ Babel.attributes el ++ added.
Proof.
  intros Hoff.
  destruct (addPropsToComponent_effect st el imports)
    as (added & updated & skipped & H).
  destruct (addPropsToComponent config st el imports) as [[changed el'] st'].
  destruct H as (_ & Hsub & _ & Hno & _ & _ & _ & Hu & _).
  destruct (Hno Hoff) as [Hperm ->].
  split; [lia|]. by exists added.
Qed.

(** X4.  [addPropsToComponent] returns [true] exactly when it counted a prop as
    added or as updated; when it returns [false] the element is as it
    was. *)
Theorem addPropsToComponent_flag (st : Stats) (el : Babel.JSXElement)
    (imports : list ImportInfo.t) :
  let '(changed, el', st') := addPropsToComponent config st el imports in
  (changed = true ↔
     propsAdded st < propsAdded st' ∨ propsUpdated st < propsUpdated st') ∧
  (changed = false → el' = el).
Proof.
  destruct (addPropsToComponent_effect st el imports)
    as (added & updated & skipped & H).
  destruct (addPropsToComponent config st el imports) as [[changed el'] st'].
  destruct H as (_ & _ & _ & _ & _ & _ & Ha & Hu & _ & _ & _ & Hflag & Hsame).
  split; [|done]. rewrite Hflag, bool_decide_eq_true. lia.
Qed.

End AddPropsElement.

Lemma updates_off_leaves_attributes_verbatim_witness :
  let config :=
    AddProps.mkConfig ["Field"] []
      [AddProps.mkProp "maxLength" "20"; AddProps.mkProp "testID" "field"]
      false in
  let el :=
    Babel.mkElement (Babel.JSXIdentifier "Field")
      [Babel.jsxAttribute "maxLength" (Babel.StringLiteral "10")] in
  AddProps.updateExisting config = false ∧
  let '(_, el', st') :=
    AddProps.addPropsToComponent (host := Js.asciiHost) config
      AddProps.initialStats el [] in
  AddProps.propsUpdated st' = 0 ∧
  ∃ added : list Babel.Attribute,
    added `sublist_of` (newPropFor <$> AddProps.props config) ∧
    Babel.attributes el' ≡ₚ Babel.attributes el ++ added.
Proof.
  intros config el. split; [reflexivity|].
  exact (updates_off_leaves_attributes_verbatim (host := Js.asciiHost)
           config AddProps.initialStats el [] eq_refl).
Defined.

(* ===================================================================== *)
(** ** The statistics and the written files of a props adder run *)
(* ===================================================================== *)

Section AddPropsRun.
Import AddProps.
Context {host : Js.Host} {fs : Fs.FileSystem}.
Variable config : Config.

(** The [JSXElement] visitor over the elements of a file: the counters, the
    flag and the elements it leaves. *)
Lemma visitJSXElements_effect (imports : list ImportInfo.t)
    (els : list Babel.JSXElement) (fileModified : bool)
    (seen : list Babel.JSXElement) (st : Stats) :
  ∃ work : nat,
    let '(fileModified', seen', st') :=
      foldl (visitJSXElement config imports) (fileModified, seen, st) els in
    let n := length (filter (λ el, inScope config imports el = true) els) in
    componentsFound st' = componentsFound st + n ∧
    directivesHandled st' = directivesHandled st + n * length (props config) ∧
    propsAdded st' + propsUpdated st'
      = propsAdded st + propsUpdated st + work ∧
    fileModified' = fileModified || bool_decide (0 < work) ∧
    Babel.tag <$> seen' = Babel.tag <$> (seen ++ els) ∧
    (work = 0 → seen' = seen ++ els) ∧
    fileCounters st' = fileCounters st.
Proof.
  revert fileModified seen st.
  induction els as [|el els IH]; intros fileModified seen st.
  - exists 0. cbn. rewrite app_nil_r, orb_false_r. split_and!; first [done | lia].
  - cbn [foldl]. unfold visitJSXElement at 2.
    destruct (addPropsToComponent_effect config st el imports)
      as (added & updated & skipped & H).
    destruct (addPropsToComponent config st el imports)
      as [[changed el'] st1].
    destruct H as (Htag & _ & _ & _ & _ & Hlen & Ha & Hu & Hs & Hf & Hfc
                   & Hflag & Hsame).
    destruct (IH (fileModified || changed) (seen ++ [el']) st1) as (work & H).
    exists (length added + updated + work).
    destruct (foldl _ _ els) as [[fileModified' seen'] st'].
    cbv zeta in H |- *.
    destruct H as (Hf' & Hd' & Hw' & Hm' & Ht' & Hs' & Hfc').
    unfold directivesHandled in *.
    destruct (inScope config imports el) eqn:Hin.
    + rewrite filter_cons_True by done. cbn [length].
      split_and!; first [lia | congruence | idtac].
      * rewrite Hm', Hflag, <- orb_assoc. f_equal.
        apply eq_true_iff_eq. rewrite orb_true_iff, !bool_decide_eq_true. lia.
      * rewrite Ht', <- !app_assoc, !fmap_app. cbn. by rewrite Htag.
      * intros Hzero. rewrite Hs' by lia. rewrite <- app_assoc.
        rewrite Hsame; [done|]. rewrite Hflag. apply bool_decide_eq_false. lia.
    + rewrite filter_cons_False by (rewrite Hin; discriminate).
      split_and!; first [lia | congruence | idtac].
      * rewrite Hm', Hflag, <- orb_assoc. f_equal.
        apply eq_true_iff_eq. rewrite orb_true_iff, !bool_decide_eq_true. lia.
      * rewrite Ht', <- !app_assoc, !fmap_app. cbn. by rewrite Htag.
      * intros Hzero. rewrite Hs' by lia. rewrite <- app_assoc.
        rewrite Hsame; [done|]. rewrite Hflag. apply bool_decide_eq_false. lia.
Qed.

(** One file of the props adder. *)
Lemma processFile_effect (run : Run) (f : Babel.SourceFile) :
  let st := stats run in
  let r := processFile config run f in
  let st' := stats r in
  componentsFound st' = componentsFound st + inScopeElements config f ∧
  directivesHandled st'
    = directivesHandled st + inScopeElements config f * length (props config) ∧
  propsAdded st + propsUpdated st ≤ propsAdded st' + propsUpdated st' ∧
  ((written r = written run ∧ filesModified st' = filesModified st) ∨
   (∃ ast out,
      Babel.parsed f = Babel.Parsed ast ∧
      written r = written run ++ [(Babel.filePath f, out)] ∧
      filesModified st' = S (filesModified st) ∧
      propsAdded st + propsUpdated st < propsAdded st' + propsUpdated st' ∧
      Babel.importDeclarations out = Babel.importDeclarations ast ∧
      Babel.tag <$> Babel.jsxElements out = Babel.tag <$> Babel.jsxElements ast)).
Proof.
  cbv zeta. unfold processFile, inScopeElements.
  destruct (Babel.parsed f) as [ast | message].
  - destruct (visitJSXElements_effect
                (foldl collectImport [] (Babel.importDeclarations ast))
                (Babel.jsxElements ast) false [] (stats run)) as (work & H).
    destruct (foldl (visitJSXElement config _) _ _)
      as [[fileModified elements] st'].
    cbv zeta in H. destruct H as (Hf & Hd & Hw & Hm & Ht & _ & Hfc).
    unfold fileCounters in Hfc. injection Hfc as Hp Hmod He.
    unfold directivesHandled in *.
    destruct fileModified; [destruct (Fs.writeFileSync _ _) as [message|]|];
      cbn.
    + split_and!; [lia | lia | lia |]. left. split; [done | lia].
    + split_and!; [lia | lia | lia |]. right.
      exists ast, (Babel.mkFile (Babel.importDeclarations ast) elements).
      symmetry in Hm. apply bool_decide_eq_true in Hm.
      split_and!; first [done | lia].
    + split_and!; [lia | lia | lia |]. left. split; [done | lia].
  - cbn. split_and!; [lia | unfold directivesHandled; cbn; lia | lia |].
    left. done.
Qed.

(** The loop of [main], from any state of the run. *)
Lemma processFiles_effect (files : list Babel.SourceFile) (run : Run) :
  let st := stats run in
  let r := foldl (processFile config) run files in
  let st' := stats r in
  let n := sum_list (inScopeElements config <$> files) in
  componentsFound st' = componentsFound st + n ∧
  directivesHandled st' = directivesHandled st + n * length (props config) ∧
  length (written r) + filesModified st
    = length (written run) + filesModified st' ∧
  filesModified st' + (propsAdded st + propsUpdated st)
    ≤ filesModified st + (propsAdded st' + propsUpdated st') ∧
  (∀ path out, (path, out) ∈ written r →
     (path, out) ∈ written run ∨
     ∃ f ast,
       f ∈ files ∧ Babel.filePath f = path ∧
       Babel.parsed f = Babel.Parsed ast ∧
       Babel.importDeclarations out = Babel.importDeclarations ast ∧
       Babel.tag <$> Babel.jsxElements out = Babel.tag <$> Babel.jsxElements ast).
Proof.
  revert run. induction files as [|f files IH]; intros run.
  - cbn. split_and!; first [lia | by left].
  - cbn [foldl]. cbv zeta.
    destruct (IH (processFile config run f)) as (Hf & Hd & Hl & Hm & Hw).
    destruct (processFile_effect run f) as (Hf1 & Hd1 & Hle1 & Hcases).
    cbn [fmap list_fmap sum_list_with id].
    assert (∀ path out,
              (path, out) ∈ written (processFile config run f) →
              (path, out) ∈ written run ∨
              ∃ ast,
                Babel.filePath f = path ∧ Babel.parsed f = Babel.Parsed ast ∧
                Babel.importDeclarations out = Babel.importDeclarations ast ∧
                Babel.tag <$> Babel.jsxElements out
                  = Babel.tag <$> Babel.jsxElements ast) as Hone.
    { intros path out Hin.
      destruct Hcases as [[Hsame _] | (ast & out' & Hp & Hwr & _ & _ & Hi & Ht)].
      - left. by rewrite <- Hsame.
      - rewrite Hwr in Hin. apply elem_of_app in Hin as [Hin | Hin]; [by left|].
        apply list_elem_of_singleton in Hin. injection Hin as <- <-.
        right. by exists ast. }
    split_and!.
    + lia.
    + lia.
    + destruct Hcases as [[Hsame Hmod] | (ast & out & _ & Hwr & Hmod & _)].
      * rewrite Hsame in Hl. lia.
      * rewrite Hwr, length_app in Hl. cbn in Hl. lia.
    + destruct Hcases as [[Hsame Hmod] | (ast & out & _ & _ & Hmod & Hlt & _)];
        lia.
    + intros path out Hin.
      destruct (Hw path out Hin) as [Hin1 | (f' & ast & Hf' & H)].
      * destruct (Hone path out Hin1) as [Hin0 | (ast & H)]; [by left|].
        right. exists f, ast. split; [by left | done].
      * right. exists f', ast. split; [by right | done].
Qed.

End AddPropsRun.

Section AddPropsMode.
Import AddProps.
Context {host : Js.Host} {fs : Fs.FileSystem}.
Variable config : Config.

Lemma addPropsToComponent_mode (st : Stats) (el : Babel.JSXElement)
    (imports : list ImportInfo.t) :
  modeRespected config st →
  modeRespected config (addPropsToComponent config st el imports).2.
Proof.
  intros [Hon Hoff].
  destruct (addPropsToComponent_effect config st el imports)
    as (added & updated & skipped & H).
  destruct (addPropsToComponent config st el imports) as [[changed el'] st'].
  destruct H as (_ & _ & _ & Hno & Hyes & _ & _ & Hu & Hs & _).
  split; intros Hmode; cbn [snd].
  - rewrite Hs, (Hon Hmode), (Hyes Hmode). done.
  - destruct (Hno Hmode) as [_ ->]. rewrite Hu, (Hoff Hmode). done.
Qed.

Lemma visitJSXElements_mode (imports : list ImportInfo.t)
    (els : list Babel.JSXElement)
    (acc : bool * list Babel.JSXElement * Stats) :
  modeRespected config acc.2 →
  modeRespected config (foldl (visitJSXElement config imports) acc els).2.
Proof.
  revert acc. induction els as [|el els IH]; intros acc Hacc; [done|].
  cbn [foldl]. apply IH. destruct acc as [[fileModified seen] st].
  unfold visitJSXElement.
  pose proof (addPropsToComponent_mode st el imports Hacc) as H.
  by destruct (addPropsToComponent config st el imports) as [[changed el'] st'].
Qed.

Lemma processFile_mode (run : Run) (f : Babel.SourceFile) :
  modeRespected config (stats run) →
  modeRespected config (stats (processFile config run f)).
Proof.
  intros Hrun. unfold processFile.
  destruct (Babel.parsed f) as [ast | message]; [|done].
  pose proof (visitJSXElements_mode
                (foldl collectImport [] (Babel.importDeclarations ast))
                (Babel.jsxElements ast) (false, [], stats run) Hrun) as H.
  destruct (foldl (visitJSXElement config _) _ _)
    as [[fileModified elements] st'].
  destruct fileModified; [|done].
  by destruct (Fs.writeFileSync _ _).
Qed.

Lemma processFiles_mode (files : list Babel.SourceFile) (run : Run) :
  modeRespected config (stats run) →
  modeRespected config (stats (foldl (processFile config) run files)).
Proof.
  revert run. induction files as [|f files IH]; intros run Hrun; [done|].
  cbn [foldl]. by apply IH, processFile_mode.
Qed.

End AddPropsMode.

(** The run of [main] as a whole. *)
Lemma props_adder_main_effect {host : Js.Host} {fs : Fs.FileSystem}
    (config : AddProps.Config) (files : list Babel.SourceFile) :
  let r := AddProps.main config files in
  let st := AddProps.stats r in
  AddProps.componentsFound st = sum_list (inScopeElements config <$> files) ∧
  directivesHandled st
    = AddProps.componentsFound st * length (AddProps.props config) ∧
  modeRespected config st ∧
  length (AddProps.written r) = AddProps.filesModified st ∧
  AddProps.filesModified st ≤ AddProps.propsAdded st + AddProps.propsUpdated st ∧
  ∀ path out, (path, out) ∈ AddProps.written r →
    ∃ f ast,
      f ∈ files ∧ Babel.filePath f = path ∧
      Babel.parsed f = Babel.Parsed ast ∧
      Babel.importDeclarations out = Babel.importDeclarations ast ∧
      Babel.tag <$> Babel.jsxElements out = Babel.tag <$> Babel.jsxElements ast.
Proof.
  cbv zeta. unfold AddProps.main.
  destruct (length files =? 0) eqn:Hlen.
  { apply Nat.eqb_eq, nil_length_inv in Hlen as ->.
    cbn. split_and!; [done | done | done | done | lia |].
    intros path out H. by apply elem_of_nil in H. }
  destruct (processFiles_effect config files AddProps.initialRun)
    as (Hf & Hd & Hl & Hm & Hw).
  pose proof (processFiles_mode config files AddProps.initialRun) as Hmode.
  set (r := foldl (AddProps.processFile config) AddProps.initialRun files) in *.
  change (AddProps.componentsFound (AddProps.stats AddProps.initialRun))
    with 0 in Hf.
  change (directivesHandled (AddProps.stats AddProps.initialRun)) with 0 in Hd.
  change (length (AddProps.written AddProps.initialRun)) with 0 in Hl.
  change (AddProps.filesModified (AddProps.stats AddProps.initialRun))
    with 0 in Hl, Hm.
  change (AddProps.propsAdded (AddProps.stats AddProps.initialRun)
          + AddProps.propsUpdated (AddProps.stats AddProps.initialRun))
    with 0 in Hm.
  split_and!; [lia | rewrite Hd, Hf; lia | by apply Hmode | lia | lia |].
  intros path out Hin. destruct (Hw path out Hin) as [H | H]; [|done].
  by apply elem_of_nil in H.
Qed.

(** X6.  At the end of a props adder run, [componentsFound] is the number of
    elements in scope in the parsed files, and every directive has been
    counted once for each of them, as added, updated or skipped:
    [propsAdded + propsUpdated + componentsSkipped] is [componentsFound]
    times the number of directives.  With [updateExisting] on nothing is
    counted as skipped, with [updateExisting] off nothing as updated. *)
Theorem props_adder_counts_every_directive {host : Js.Host}
    {fs : Fs.FileSystem} (config : AddProps.Config)
    (files : list Babel.SourceFile) :
  let st := AddProps.stats (AddProps.main config files) in
  AddProps.componentsFound st = sum_list (inScopeElements config <$> files) ∧
  AddProps.propsAdded st + AddProps.propsUpdated st
    + AddProps.componentsSkipped st
    = AddProps.componentsFound st * length (AddProps.props config) ∧
  (AddProps.updateExisting config = true → AddProps.componentsSkipped st = 0) ∧
  (AddProps.updateExisting config = false → AddProps.propsUpdated st = 0).
Proof.
  destruct (props_adder_main_effect config files)
    as (Hf & Hd & [Hon Hoff] & _).
  cbv zeta. by split_and!.
Qed.

(** X7.  The files that a props adder run writes back are counted by
    [filesModified]; each of them had a prop added or updated; and each is a
    parsed file of the run, written with its import declarations as they
    were and with the same elements, tag by tag, in the same order. *)
Theorem written_files_are_modified_inputs {host : Js.Host}
    {fs : Fs.FileSystem} (config : AddProps.Config)
    (files : list Babel.SourceFile) :
  let r := AddProps.main config files in
  let st := AddProps.stats r in
  length (AddProps.written r) = AddProps.filesModified st ∧
  AddProps.filesModified st ≤ AddProps.propsAdded st + AddProps.propsUpdated st ∧
  ∀ path out, (path, out) ∈ AddProps.written r →
    ∃ f ast,
      f ∈ files ∧ Babel.filePath f = path ∧
      Babel.parsed f = Babel.Parsed ast ∧
      Babel.importDeclarations out = Babel.importDeclarations ast ∧
      Babel.tag <$> Babel.jsxElements out = Babel.tag <$> Babel.jsxElements ast.
Proof.
  destruct (props_adder_main_effect config files)
    as (_ & _ & _ & Hl & Hm & Hw).
  cbv zeta. by split_and!.
Qed.

(** X9.  With an empty list of directives a run writes no file and counts no
    prop, whatever the files hold; it still counts the elements in scope. *)
Theorem no_directives_no_writes {host : Js.Host}
    {fs : Fs.FileSystem} (config : AddProps.Config)
    (files : list Babel.SourceFile) :
  AddProps.props config = [] →
  let r := AddProps.main config files in
  let st := AddProps.stats r in
  AddProps.written r = [] ∧
  AddProps.filesModified st = 0 ∧
  AddProps.propsAdded st = 0 ∧
  AddProps.propsUpdated st = 0 ∧
  AddProps.componentsSkipped st = 0 ∧
  AddProps.componentsFound st = sum_list (inScopeElements config <$> files).
Proof.
  intros Hnone.
  destruct (props_adder_main_effect config files)
    as (Hf & Hd & _ & Hl & Hm & _).
  cbv zeta in *. unfold directivesHandled in Hd.
  rewrite Hnone in Hd. cbn [length] in Hd.
  split_and!; [|lia|lia|lia|lia|done].
  apply nil_length_inv. lia.
Qed.

Lemma no_directives_no_writes_witness :
  let config := AddProps.mkConfig ["Field"] ["ui-kit"] [] true in
  let file :=
    Babel.mkSource "src/App.tsx"
      (Babel.Parsed
         (Babel.mkFile []
            [Babel.mkElement (Babel.JSXIdentifier "Field")
               [Babel.jsxAttribute "label" (Babel.StringLiteral "Name")]])) in
  let r :=
    AddProps.main (host := Js.asciiHost) (fs := Fs.writable) config [file] in
  AddProps.props config = [] ∧
  AddProps.written r = [] ∧
  AddProps.componentsFound (AddProps.stats r) = 1.
Proof.
  intros config file r.
  destruct (no_directives_no_writes (host := Js.asciiHost)
              (fs := Fs.writable) config [file] eq_refl)
    as (Hw & _ & _ & _ & _ & Hf).
  split; [reflexivity|]. split; [exact Hw | exact Hf].
Defined.

(* ===================================================================== *)
(** ** What the analyzer's records hold at the end of a run *)
(* ===================================================================== *)

Section AnalyzerRecords.
Import Analyzer.
Variable config : Config.

Lemma sumValues_insert_fresh (m : gmap string nat) (k : string) (v : nat) :
  m !! k = None → sumValues (<[k := v]> m) = sumValues m + v.
Proof.
  intros Hk. unfold sumValues.
  rewrite map_fold_insert_L; [done | intros; lia | done].
Qed.

(** One more usage in a per-file map is one more in its sum. *)
Lemma sumValues_increment (m : gmap string nat) (k : string) :
  sumValues (increment k m) = S (sumValues m).
Proof.
  unfold increment. destruct (m !! k) as [v|] eqn:Hk; cbn [default from_option].
  - rewrite <- (insert_delete_id m k v Hk) at 2.
    rewrite <- (insert_delete_eq m k (S (id v))).
    rewrite !sumValues_insert_fresh by apply lookup_delete_eq.
    unfold id. lia.
  - rewrite sumValues_insert_fresh by done. lia.
Qed.

(** The filters, in terms of the two lists. *)
Lemma passesFilters_iff (n : string) :
  passesFilters config (Js.Str n) = true ↔
  (ComponentFilters.include (componentFilters config) = [] ∨
   n ∈ ComponentFilters.include (componentFilters config)) ∧
  n ∉ ComponentFilters.exclude (componentFilters config).
Proof.
  unfold passesFilters. cbn [Js.arrayIncludes].
  destruct (ComponentFilters.include (componentFilters config)) as [|i incl].
  - cbn [length Nat.ltb Nat.leb andb].
    case_bool_decide as Hex; split; try done.
    + by intros [_ ?].
    + intros _. split; [by left | done].
  - cbn [length]. replace (0 <? S (length incl)) with true by done.
    cbn [andb]. case_bool_decide as Hin; cbn [negb].
    + case_bool_decide as Hex; split; try done.
      * by intros [_ ?].
      * intros _. split; [by right | done].
    + split; [done|]. by intros [[? | ?] _].
Qed.

(** A tracked name is found by [find] as well. *)
Lemma find_tracked (fileImports : list ImportInfo.t) (n : string) :
  isTrackedComponent fileImports (Js.Str n) = true →
  ∃ imp,
    find (λ imp, Js.arrayIncludes (ImportInfo.components imp) (Js.Str n))
         fileImports = Some imp ∧
    imp ∈ fileImports.
Proof.
  unfold isTrackedComponent. induction fileImports as [|imp l IH]; [done|].
  cbn [existsb find].
  destruct (Js.arrayIncludes (ImportInfo.components imp) (Js.Str n)).
  - intros _. exists imp. split; [done | by left].
  - cbn [orb]. intros H. destruct (IH H) as (imp' & Hfind & Hin).
    exists imp'. split; [done | by right].
Qed.

(** A sighting keeps, or sets up, the invariant of the component's
    record. *)
Lemma recordUsage_invariant (paths : list string) (filePath : string)
    (imp : ImportInfo.t) (n : string) (old : option ComponentData.t) :
  ImportInfo.source imp ∈ packagesToTrack config →
  passesFilters config (Js.Str n) = true →
  filePath ∈ paths →
  (∀ c, old = Some c → recordInvariant config paths n c) →
  recordInvariant config paths n
    (recordUsage filePath (Some imp) (default (newComponentData n) old)).
Proof.
  intros Hsrc Hpass Hpath Hold. unfold recordInvariant, recordUsage.
  cbn [ComponentData.name ComponentData.totalUsages ComponentData.files
       ComponentData.packages].
  destruct old as [c|]; cbn [default from_option]; unfold id.
  - destruct (Hold c eq_refl) as (Hn & Hsum & Hpos & Hfiles & Hne & Hsub & _).
    split_and!; [done | by rewrite sumValues_increment, Hsum | lia | | | | done].
    + intros f k. unfold increment.
      destruct (decide (filePath = f)) as [<- | Hneq].
      * rewrite lookup_insert_eq. intros [= <-]. split; [lia | done].
      * rewrite lookup_insert_ne by done. apply Hfiles.
    + intros Hempty. apply (not_elem_of_empty (C := gset string)
                                (ImportInfo.source imp)).
      rewrite <- Hempty. by apply elem_of_union_l, elem_of_singleton.
    + intros p [Hp | Hp]%elem_of_union; [|by apply Hsub].
      apply elem_of_singleton in Hp. by subst.
  - cbn [newComponentData ComponentData.name ComponentData.totalUsages
         ComponentData.files ComponentData.packages].
    split_and!; [done | by rewrite sumValues_increment | lia | | | | done].
    + intros f k. unfold increment.
      destruct (decide (filePath = f)) as [<- | Hneq].
      * rewrite lookup_insert_eq. intros [= <-]. split; [lia | done].
      * rewrite lookup_insert_ne by done. by rewrite lookup_empty.
    + intros Hempty. apply (not_elem_of_empty (C := gset string)
                                (ImportInfo.source imp)).
      rewrite <- Hempty. by apply elem_of_union_l, elem_of_singleton.
    + intros p [Hp | Hp]%elem_of_union; [|by apply not_elem_of_empty in Hp].
      apply elem_of_singleton in Hp. by subst.
Qed.

Lemma visitJSXElement_records (paths : list string) (filePath : string)
    (fileImports : list ImportInfo.t) (acc : gmap string nat * Analysis)
    (el : Babel.JSXElement) :
  filePath ∈ paths →
  (∀ imp, imp ∈ fileImports → ImportInfo.source imp ∈ packagesToTrack config) →
  (∀ n c, components acc.2 !! n = Some c → recordInvariant config paths n c) →
  ∀ n c,
    components (visitJSXElement config filePath fileImports acc el).2 !! n
      = Some c →
    recordInvariant config paths n c.
Proof.
  intros Hpath Himps Hinv. destruct acc as [componentUsage a].
  destruct (isSighting config fileImports el) eqn:Hs.
  - pose proof Hs as [Hpass Ht]%andb_true_iff.
    pose proof Ht as [name Hname]%isTrackedComponent_string.
    rewrite (visitJSXElement_sighting _ _ _ _ _ _ name) by done.
    rewrite Hname in Hpass, Ht.
    destruct (find_tracked fileImports name Ht) as (imp & -> & Himp).
    cbn [snd components]. intros n c.
    destruct (decide (name = n)) as [<- | Hneq].
    + rewrite lookup_insert_eq. intros [= <-].
      apply recordUsage_invariant; [by apply Himps | done | done |].
      intros c Hc. by apply Hinv.
    + rewrite lookup_insert_ne by done. apply Hinv.
  - by rewrite visitJSXElement_other.
Qed.

Lemma analyzeJSXUsage_records (paths : list string) (filePath : string)
    (fileImports : list ImportInfo.t) (els : list Babel.JSXElement)
    (acc : gmap string nat * Analysis) :
  filePath ∈ paths →
  (∀ imp, imp ∈ fileImports → ImportInfo.source imp ∈ packagesToTrack config) →
  (∀ n c, components acc.2 !! n = Some c → recordInvariant config paths n c) →
  ∀ n c,
    components (foldl (visitJSXElement config filePath fileImports) acc els).2
      !! n = Some c →
    recordInvariant config paths n c.
Proof.
  intros Hpath Himps. revert acc.
  induction els as [|el els IH]; intros acc Hinv; [done|].
  cbn [foldl]. apply IH. by apply visitJSXElement_records.
Qed.

Lemma recordInvariant_mono (paths paths' : list string) (n : string)
    (c : ComponentData.t) :
  paths ⊆ paths' →
  recordInvariant config paths n c → recordInvariant config paths' n c.
Proof.
  intros Hsub (H1 & H2 & H3 & H4 & H5 & H6 & H7).
  split_and!; [done | done | done | | done | done | done].
  intros f k Hk. destruct (H4 f k Hk). split; [done | by apply Hsub].
Qed.

Lemma processFile_records (paths : list string) (run : Run)
    (f : Babel.SourceFile) :
  (∀ n c, components (analysis run) !! n = Some c →
          recordInvariant config paths n c) →
  ∀ n c,
    components (analysis (processFile config run f)) !! n = Some c →
    recordInvariant config (paths ++ [Babel.filePath f]) n c.
Proof.
  intros Hinv. unfold processFile.
  destruct (Babel.parsed f) as [ast | message].
  - unfold analyzeImports, analyzeJSXUsage.
    pose proof (analyzeImports_frame config (Babel.importDeclarations ast)
                  ([], analysis run)) as (_ & _ & Hc).
    assert (∀ imp,
              imp ∈ (foldl (analyzeImport config) ([], analysis run)
                           (Babel.importDeclarations ast)).1 →
              ImportInfo.source imp ∈ packagesToTrack config) as Himps.
    { intros imp [H | (d & _ & Hp & _ & ->)]%analyzeImports_retained.
      - by apply elem_of_nil in H.
      - done. }
    destruct (foldl (analyzeImport config) _ _) as [fileImports a1].
    cbn [fst snd] in *.
    pose proof (analyzeJSXUsage_records (paths ++ [Babel.filePath f])
                  (Babel.filePath f) fileImports (Babel.jsxElements ast)
                  (∅, a1)) as Hv.
    destruct (foldl (visitJSXElement config _ _) _ _) as [componentUsage a2].
    cbn [analysis components snd] in *. apply Hv; [set_solver | done |].
    intros n c Hn. rewrite Hc in Hn.
    eapply recordInvariant_mono; [|by apply Hinv]. set_solver.
  - cbn [analysis]. intros n c Hn.
    eapply recordInvariant_mono; [|by apply Hinv]. set_solver.
Qed.

Lemma processFiles_records (files : list Babel.SourceFile)
    (paths : list string) (run : Run) :
  (∀ n c, components (analysis run) !! n = Some c →
          recordInvariant config paths n c) →
  ∀ n c,
    components (analysis (foldl (processFile config) run files)) !! n
      = Some c →
    recordInvariant config (paths ++ (Babel.filePath <$> files)) n c.
Proof.
  revert paths run. induction files as [|f files IH]; intros paths run Hinv.
  - cbn. by rewrite app_nil_r.
  - cbn [foldl]. rewrite fmap_cons, cons_middle, app_assoc.
    apply IH. by apply processFile_records.
Qed.

(** The records at the end of [main]. *)
Lemma main_records (files : list Babel.SourceFile) (n : string)
    (c : ComponentData.t) :
  components (analysis (main config files)) !! n = Some c →
  recordInvariant config (Babel.filePath <$> files) n c ∧
  ComponentData.migrationPriority c
    = getMigrationPriority config (Z.of_nat (ComponentData.totalUsages c)).
Proof.
  unfold main. destruct (length files =? 0).
  { change (components (analysis initialRun))
      with (∅ : gmap string ComponentData.t).
    by rewrite lookup_empty. }
  cbn [analysis calculatePriorities calculateSummary components].
  rewrite lookup_fmap. intros Hc.
  apply fmap_Some in Hc as (c0 & Hc0 & ->).
  split; [|done].
  pose proof (processFiles_records files [] initialRun) as H.
  by apply H in Hc0.
Qed.

End AnalyzerRecords.

(** X13.  At the end of a run every component record is filed under its own name;
    its [totalUsages] is positive and is the sum of its per-file counters;
    each per-file counter is positive and belongs to a file of the run; and
    its [migrationPriority] is the priority of its final [totalUsages]. *)
Theorem component_record_counts (config : Analyzer.Config)
    (files : list Babel.SourceFile) (n : string)
    (c : Analyzer.ComponentData.t) :
  Analyzer.components (Analyzer.analysis (Analyzer.main config files)) !! n
    = Some c →
  Analyzer.ComponentData.name c = n ∧
  0 < Analyzer.ComponentData.totalUsages c ∧
  Analyzer.ComponentData.totalUsages c
    = Analyzer.sumValues (Analyzer.ComponentData.files c) ∧
  (∀ f k, Analyzer.ComponentData.files c !! f = Some k →
          0 < k ∧ f ∈ Babel.filePath <$> files) ∧
  Analyzer.ComponentData.migrationPriority c
    = Analyzer.getMigrationPriority config
        (Z.of_nat (Analyzer.ComponentData.totalUsages c)).
Proof.
  intros Hc.
  destruct (main_records config files n c Hc)
    as [(Hn & Hsum & Hpos & Hfiles & _) Hprio].
  by split_and!.
Qed.

(** X14.  At the end of a run every component record is one that the filters let
    through (its name is in the include list, if there is one, and not in
    the exclude list), and it names at least one package, all of them from
    [packagesToTrack]. *)
Theorem component_record_scope (config : Analyzer.Config)
    (files : list Babel.SourceFile) (n : string)
    (c : Analyzer.ComponentData.t) :
  Analyzer.components (Analyzer.analysis (Analyzer.main config files)) !! n
    = Some c →
  (Analyzer.ComponentFilters.include (Analyzer.componentFilters config) = [] ∨
   n ∈ Analyzer.ComponentFilters.include (Analyzer.componentFilters config)) ∧
  (n ∉ Analyzer.ComponentFilters.exclude (Analyzer.componentFilters config)) ∧
  Analyzer.ComponentData.packages c ≠ ∅ ∧
  (∀ p, p ∈ Analyzer.ComponentData.packages c →
        p ∈ Analyzer.packagesToTrack config).
Proof.
  intros Hc.
  destruct (main_records config files n c Hc)
    as [(_ & _ & _ & _ & Hne & Hsub & Hpass) _].
  apply passesFilters_iff in Hpass as [Hinc Hexc].
  by split_and!.
Qed.

Lemma component_record_counts_witness :
  let config :=
    Analyzer.mkConfig ["ui-kit"] (Analyzer.PriorityThresholds.mk 3 2)
      (Analyzer.ComponentFilters.mk [] []) in
  let import :=
    Babel.mkImport "ui-kit" [Babel.mkSpecifier Babel.ImportSpecifier "Field"] in
  let field := Babel.mkElement (Babel.JSXIdentifier "Field") [] in
  let files :=
    [ Babel.mkSource "src/A.tsx"
        (Babel.Parsed (Babel.mkFile [import] [field; field]));
      Babel.mkSource "src/B.tsx"
        (Babel.Parsed (Babel.mkFile [import] [field])) ] in
  let c :=
    Analyzer.ComponentData.mk "Field" 3
      {[ "src/A.tsx" := 2; "src/B.tsx" := 1 ]} {[ "ui-kit" ]} Analyzer.high in
  Analyzer.components (Analyzer.analysis (Analyzer.main config files)) !! "Field"
    = Some c ∧
  Analyzer.ComponentData.totalUsages c
    = Analyzer.sumValues (Analyzer.ComponentData.files c).
Proof.
  intros config import field files c.
  assert (Analyzer.components
            (Analyzer.analysis (Analyzer.main config files)) !! "Field"
          = Some c) as Hc by (vm_compute; reflexivity).
  split; [exact Hc|].
  exact (proj1 (proj2 (proj2
           (component_record_counts config files "Field" c Hc)))).
Defined.

Lemma component_record_scope_witness :
  let config :=
    Analyzer.mkConfig ["ui-kit"] (Analyzer.PriorityThresholds.mk 3 2)
      (Analyzer.ComponentFilters.mk ["Field"; "Button"] ["View"]) in
  let import :=
    Babel.mkImport "ui-kit"
      [ Babel.mkSpecifier Babel.ImportSpecifier "Field";
        Babel.mkSpecifier Babel.ImportSpecifier "View" ] in
  let files :=
    [ Babel.mkSource "src/A.tsx"
        (Babel.Parsed
           (Babel.mkFile [import]
              [ Babel.mkElement (Babel.JSXIdentifier "View") [];
                Babel.mkElement (Babel.JSXIdentifier "Field") [] ])) ] in
  let c :=
    Analyzer.ComponentData.mk "Field" 1 {[ "src/A.tsx" := 1 ]} {[ "ui-kit" ]}
      Analyzer.low in
  Analyzer.components (Analyzer.analysis (Analyzer.main config files)) !! "Field"
    = Some c ∧
  "Field" ∉ Analyzer.ComponentFilters.exclude (Analyzer.componentFilters config).
Proof.
  intros config import files c.
  assert (Analyzer.components
            (Analyzer.analysis (Analyzer.main config files)) !! "Field"
          = Some c) as Hc by (vm_compute; reflexivity).
  split; [exact Hc|].
  exact (proj1 (proj2 (component_record_scope config files "Field" c Hc))).
Defined.

(* ===================================================================== *)
(** ** The counters of the analyzer are the numbers of sightings *)
(* ===================================================================== *)

Section AnalyzerCounts.
Import Analyzer.
Variable config : Config.

(** What one element does to the three counters of a component [n]: the
    file's own count, the record's total and the record's count for the
    file. *)
Lemma visitJSXElement_counts (filePath : string)
    (fileImports : list ImportInfo.t) (componentUsage : gmap string nat)
    (a : Analysis) (el : Babel.JSXElement) (n : string) :
  let r := visitJSXElement config filePath fileImports (componentUsage, a) el in
  let one := if isSightingOf config fileImports n el then 1 else 0 in
  default 0 (r.1 !! n) = default 0 (componentUsage !! n) + one ∧
  usagesOf r.2 n = usagesOf a n + one ∧
  (∀ p, usagesIn r.2 n p
        = usagesIn a n p + (if bool_decide (filePath = p) then one else 0)) ∧
  sumValues r.1
    = sumValues componentUsage
      + (if isSighting config fileImports el then 1 else 0).
Proof.
  cbv zeta. unfold isSightingOf.
  destruct (isSighting config fileImports el) eqn:Hs; cbn [andb].
  - pose proof Hs as [_ [name Hname]%isTrackedComponent_string]%andb_true_iff.
    destruct (visitJSXElement_sighting_counts config filePath fileImports
                componentUsage a el name Hname Hs) as (Hof & Hin & Hother & Hrest).
    rewrite (visitJSXElement_sighting _ _ _ _ _ _ name) in * by done.
    rewrite Hname. cbn [fst snd] in *. rewrite sumValues_increment.
    destruct (String.eqb_spec name n) as [<- | Hneq].
    + split_and!; [by rewrite increment_lookup; lia | lia | | lia].
      intros p. case_bool_decide as Hp; [subst; lia|].
      rewrite Hother by done. lia.
    + split_and!; [by rewrite increment_lookup_ne; [lia|] | | | lia].
      * unfold usagesOf. rewrite Hrest by done. lia.
      * intros p. unfold usagesIn. rewrite Hrest by done.
        destruct (bool_decide _); lia.
  - rewrite visitJSXElement_other by done. cbn [fst snd].
    split_and!; [lia | lia | | lia]. intros p. destruct (bool_decide _); lia.
Qed.

Lemma analyzeJSXUsage_counts (filePath : string)
    (fileImports : list ImportInfo.t) (els : list Babel.JSXElement)
    (componentUsage : gmap string nat) (a : Analysis) (n : string) :
  let r :=
    foldl (visitJSXElement config filePath fileImports) (componentUsage, a) els in
  let k :=
    length (filter (λ el, isSightingOf config fileImports n el = true) els) in
  default 0 (r.1 !! n) = default 0 (componentUsage !! n) + k ∧
  usagesOf r.2 n = usagesOf a n + k ∧
  (∀ p, usagesIn r.2 n p
        = usagesIn a n p + (if bool_decide (filePath = p) then k else 0)) ∧
  sumValues r.1
    = sumValues componentUsage
      + length (filter (λ el, isSighting config fileImports el = true) els).
Proof.
  revert componentUsage a. induction els as [|el els IH]; intros componentUsage a.
  - cbn. split_and!; [lia | lia | | lia]. intros p. destruct (bool_decide _); lia.
  - cbn [foldl]. cbv zeta.
    destruct (visitJSXElement_counts filePath fileImports componentUsage a el n)
      as (H1 & H2 & H3 & H4).
    destruct (visitJSXElement config filePath fileImports (componentUsage, a) el)
      as [componentUsage1 a1].
    destruct (IH componentUsage1 a1) as (I1 & I2 & I3 & I4).
    cbn [fst snd] in *. rewrite I1, I2, I4, H1, H2, H4.
    assert (length (filter (λ el, isSightingOf config fileImports n el = true)
                           (el :: els))
            = (if isSightingOf config fileImports n el then 1 else 0)
              + length (filter (λ el, isSightingOf config fileImports n el = true)
                               els)) as ->.
    { destruct (isSightingOf config fileImports n el) eqn:Hof.
      - by rewrite filter_cons_True.
      - by rewrite filter_cons_False by (rewrite Hof; discriminate). }
    assert (length (filter (λ el, isSighting config fileImports el = true)
                           (el :: els))
            = (if isSighting config fileImports el then 1 else 0)
              + length (filter (λ el, isSighting config fileImports el = true)
                               els)) as ->.
    { destruct (isSighting config fileImports el) eqn:Hof.
      - by rewrite filter_cons_True.
      - by rewrite filter_cons_False by (rewrite Hof; discriminate). }
    split_and!; [lia | lia | | lia].
    intros p. rewrite I3, H3. destruct (bool_decide _); lia.
Qed.

(** What [processFile] leaves for a parsed file: the component counters
    moved by the sightings of the file, and the file's record. *)
Lemma processFile_counts (run : Run) (f : Babel.SourceFile)
    (ast : Babel.File) :
  Babel.parsed f = Babel.Parsed ast →
  let a := analysis run in
  let a' := analysis (processFile config run f) in
  (∀ n, usagesOf a' n = usagesOf a n + sightingsOfIn config n f) ∧
  (∀ n p, usagesIn a' n p
          = usagesIn a n p
            + (if bool_decide (Babel.filePath f = p)
               then sightingsOfIn config n f else 0)) ∧
  ∃ fd,
    files a' = <[Babel.filePath f := fd]> (files a) ∧
    FileData.path fd = Babel.filePath f ∧
    FileData.imports fd = retainedImports config ast ∧
    FileData.totalUsages fd = sightingsIn config f ∧
    FileData.totalUsages fd = sumValues (FileData.componentUsage fd) ∧
    (∀ n, default 0 (FileData.componentUsage fd !! n)
          = sightingsOfIn config n f).
Proof.
  intros Hparsed. cbv zeta.
  unfold processFile, sightingsOfIn, sightingsIn, retainedImports.
  rewrite Hparsed. unfold analyzeImports, analyzeJSXUsage.
  rewrite (analyzeImports_independent config (Babel.importDeclarations ast) []
             initialAnalysis (analysis run)).
  pose proof (analyzeImports_frame config (Babel.importDeclarations ast)
                ([], analysis run)) as (_ & Hfiles & Hcomps).
  destruct (foldl (analyzeImport config) _ _) as [fileImports a1].
  cbn [fst snd] in *.
  pose proof (analyzeJSXUsage_counts (Babel.filePath f) fileImports
                (Babel.jsxElements ast) ∅ a1) as Hcounts.
  pose proof (analyzeJSXUsage_frame config (Babel.filePath f) fileImports
                (Babel.jsxElements ast) (∅, a1)) as (_ & Hfiles2).
  destruct (foldl (visitJSXElement config _ _) _ _) as [componentUsage a2].
  cbn [fst snd analysis files components] in *.
  assert (∀ n, usagesOf a1 n = usagesOf (analysis run) n) as Hof
    by (intros; unfold usagesOf; by rewrite Hcomps).
  assert (∀ n p, usagesIn a1 n p = usagesIn (analysis run) n p) as Hin
    by (intros; unfold usagesIn; by rewrite Hcomps).
  split_and!.
  - intros n. destruct (Hcounts n) as (_ & H & _). cbv zeta in H.
    unfold usagesOf in *. cbn [components] in *. by rewrite H, Hof.
  - intros n p. destruct (Hcounts n) as (_ & _ & H & _).
    unfold usagesIn in *. cbn [components] in *. by rewrite H, Hin.
  - eexists. split; [by rewrite Hfiles2, Hfiles|].
    cbn [FileData.path FileData.imports FileData.totalUsages
         FileData.componentUsage].
    split_and!; try done.
    + destruct (Hcounts "") as (_ & _ & _ & H). cbv zeta in H.
      rewrite H. unfold sumValues. by rewrite map_fold_empty.
    + intros n. destruct (Hcounts n) as (H & _). cbv zeta in H.
      rewrite H. by rewrite lookup_empty.
Qed.

Lemma processFile_failed (run : Run) (f : Babel.SourceFile) :
  parsedOk f = false → analysis (processFile config run f) = analysis run.
Proof.
  intros Hok. destruct (processFile_analysis config run f) as [H _].
  by rewrite Hok in H.
Qed.

Lemma sightingsOfIn_failed (n : string) (f : Babel.SourceFile) :
  parsedOk f = false → sightingsOfIn config n f = 0.
Proof.
  unfold parsedOk, sightingsOfIn. by destruct (Babel.parsed f).
Qed.

(** The loop of [main], from any state of the run. *)
Lemma processFiles_counts (files : list Babel.SourceFile) (run : Run) :
  let a := analysis run in
  let a' := analysis (foldl (processFile config) run files) in
  (∀ n, usagesOf a' n
        = usagesOf a n + sum_list (sightingsOfIn config n <$> files)) ∧
  (∀ n p, usagesIn a' n p
          = usagesIn a n p
            + sum_list
                ((λ f, if bool_decide (Babel.filePath f = p)
                       then sightingsOfIn config n f else 0) <$> files)) ∧
  (∀ path fd, Analyzer.files a' !! path = Some fd →
     Analyzer.files a !! path = Some fd ∨
     ∃ f ast,
       f ∈ files ∧ Babel.filePath f = path ∧
       Babel.parsed f = Babel.Parsed ast ∧
       FileData.path fd = path ∧
       FileData.imports fd = retainedImports config ast ∧
       FileData.totalUsages fd = sightingsIn config f ∧
       FileData.totalUsages fd = sumValues (FileData.componentUsage fd) ∧
       (∀ n, default 0 (FileData.componentUsage fd !! n)
             = sightingsOfIn config n f)).
Proof.
  revert run. induction files as [|f files IH]; intros run.
  - cbn. split_and!; [intros; lia | intros; lia | by left].
  - cbn [foldl]. cbv zeta.
    destruct (IH (processFile config run f)) as (Hof & Hin & Hfd).
    destruct (Babel.parsed f) as [ast | message] eqn:Hparsed.
    + destruct (processFile_counts run f ast Hparsed)
        as (Hof1 & Hin1 & fd1 & Hfiles1 & Hfacts).
      split_and!.
      * intros n. rewrite fmap_cons. cbn [sum_list_with id].
        rewrite Hof, Hof1. lia.
      * intros n p. rewrite fmap_cons. cbn [sum_list_with id].
        rewrite Hin, Hin1. lia.
      * intros path fd Hlook.
        destruct (Hfd path fd Hlook) as [Hl | (f' & ast' & Hf' & H)].
        -- rewrite Hfiles1 in Hl.
           destruct (decide (Babel.filePath f = path)) as [Hp | Hp].
           ++ subst path. rewrite lookup_insert_eq in Hl. injection Hl as <-.
              right. exists f, ast. split; [by left | done].
           ++ rewrite lookup_insert_ne in Hl by done. by left.
        -- right. exists f', ast'. split; [by right | done].
    + assert (parsedOk f = false) as Hok by (unfold parsedOk; by rewrite Hparsed).
      rewrite processFile_failed in * by done.
      split_and!.
      * intros n. rewrite fmap_cons. cbn [sum_list_with id].
        rewrite Hof, sightingsOfIn_failed by done. lia.
      * intros n p. rewrite fmap_cons. cbn [sum_list_with id].
        rewrite Hin, sightingsOfIn_failed by done.
        destruct (bool_decide _); lia.
      * intros path fd Hlook.
        destruct (Hfd path fd Hlook) as [Hl | (f' & ast' & Hf' & H)];
          [by left|].
        right. exists f', ast'. split; [by right | done].
Qed.

(** The counters at the end of [main]. *)
Lemma main_counts (files : list Babel.SourceFile) :
  let a := analysis (main config files) in
  (∀ n, usagesOf a n = sum_list (sightingsOfIn config n <$> files)) ∧
  (∀ n p, usagesIn a n p
          = sum_list
              ((λ f, if bool_decide (Babel.filePath f = p)
                     then sightingsOfIn config n f else 0) <$> files)) ∧
  (∀ path fd, Analyzer.files a !! path = Some fd →
     ∃ f ast,
       f ∈ files ∧ Babel.filePath f = path ∧
       Babel.parsed f = Babel.Parsed ast ∧
       FileData.path fd = path ∧
       FileData.imports fd = retainedImports config ast ∧
       FileData.totalUsages fd = sightingsIn config f ∧
       FileData.totalUsages fd = sumValues (FileData.componentUsage fd) ∧
       (∀ n, default 0 (FileData.componentUsage fd !! n)
             = sightingsOfIn config n f)).
Proof.
  cbv zeta. unfold main. destruct (length files =? 0) eqn:Hlen.
  { apply Nat.eqb_eq, nil_length_inv in Hlen as ->.
    split_and!; [done | done |]. intros path fd H.
    change (Analyzer.files (analysis initialRun))
      with (∅ : gmap string FileData.t) in H.
    by rewrite lookup_empty in H. }
  destruct (processFiles_counts files initialRun) as (Hof & Hin & Hfd).
  cbn [analysis calculatePriorities calculateSummary components Analyzer.files].
  split_and!.
  - intros n.
    transitivity (usagesOf (analysis (foldl (processFile config) initialRun
                                            files)) n).
    + unfold usagesOf, calculatePriorities. cbn [components].
      rewrite lookup_fmap. by destruct (components _ !! n).
    + by rewrite Hof.
  - intros n p.
    transitivity (usagesIn (analysis (foldl (processFile config) initialRun
                                            files)) n p).
    + unfold usagesIn, calculatePriorities. cbn [components].
      rewrite lookup_fmap. by destruct (components _ !! n).
    + by rewrite Hin.
  - intros path fd Hlook. destruct (Hfd path fd Hlook) as [H | H]; [|done].
    change (Analyzer.files (analysis initialRun))
      with (∅ : gmap string FileData.t) in H.
    by rewrite lookup_empty in H.
Qed.

End AnalyzerCounts.

(** X11.  At the end of a run, a component's [totalUsages] is the number of its
    sightings in the files of the run, and its counter for a path is the
    number of its sightings in the files of that path (0, and no record or
    no counter, when there is none). *)
Theorem counters_are_numbers_of_sightings (config : Analyzer.Config)
    (files : list Babel.SourceFile) (n p : string) :
  let a := Analyzer.analysis (Analyzer.main config files) in
  usagesOf a n = sum_list (sightingsOfIn config n <$> files) ∧
  usagesIn a n p
    = sum_list
        ((λ f, if bool_decide (Babel.filePath f = p)
               then sightingsOfIn config n f else 0) <$> files).
Proof.
  destruct (main_counts config files) as (Hof & Hin & _).
  cbv zeta. split; [apply Hof | apply Hin].
Qed.

(** X15.  At the end of a run, every entry of [analysis.files] is the record of a
    parsed file of the run with that path: it holds the imports retained
    for the file, for every component the number of its sightings in the
    file, and as [totalUsages] the number of all sightings in the file,
    which is the sum of the per-component counts. *)
Theorem file_record_describes_its_file (config : Analyzer.Config)
    (files : list Babel.SourceFile) (path : string)
    (fd : Analyzer.FileData.t) :
  Analyzer.files (Analyzer.analysis (Analyzer.main config files)) !! path
    = Some fd →
  ∃ f ast,
    f ∈ files ∧ Babel.filePath f = path ∧
    Babel.parsed f = Babel.Parsed ast ∧
    Analyzer.FileData.path fd = path ∧
    Analyzer.FileData.imports fd = retainedImports config ast ∧
    Analyzer.FileData.totalUsages fd = sightingsIn config f ∧
    Analyzer.FileData.totalUsages fd
      = Analyzer.sumValues (Analyzer.FileData.componentUsage fd) ∧
    (∀ n, default 0 (Analyzer.FileData.componentUsage fd !! n)
          = sightingsOfIn config n f).
Proof.
  intros Hfd. destruct (main_counts config files) as (_ & _ & H).
  by apply H.
Qed.

Lemma file_record_describes_its_file_witness :
  let config :=
    Analyzer.mkConfig ["ui-kit"] (Analyzer.PriorityThresholds.mk 3 2)
      (Analyzer.ComponentFilters.mk [] []) in
  let import :=
    Babel.mkImport "ui-kit"
      [ Babel.mkSpecifier Babel.ImportSpecifier "Field";
        Babel.mkSpecifier Babel.ImportSpecifier "Button" ] in
  let field := Babel.mkElement (Babel.JSXIdentifier "Field") [] in
  let button := Babel.mkElement (Babel.JSXIdentifier "Button") [] in
  let view := Babel.mkElement (Babel.JSXIdentifier "View") [] in
  let files :=
    [ Babel.mkSource "src/A.tsx"
        (Babel.Parsed (Babel.mkFile [import] [view; field; button; field])) ] in
  let fd :=
    Analyzer.FileData.mk "src/A.tsx" [ImportInfo.mk "ui-kit" ["Field"; "Button"]]
      {[ "Field" := 2; "Button" := 1 ]} 3 in
  Analyzer.files (Analyzer.analysis (Analyzer.main config files)) !! "src/A.tsx"
    = Some fd ∧
  ∃ f ast,
    f ∈ files ∧ Babel.filePath f = "src/A.tsx" ∧
    Babel.parsed f = Babel.Parsed ast ∧
    Analyzer.FileData.path fd = "src/A.tsx" ∧
    Analyzer.FileData.imports fd = retainedImports config ast ∧
    Analyzer.FileData.totalUsages fd = sightingsIn config f ∧
    Analyzer.FileData.totalUsages fd
      = Analyzer.sumValues (Analyzer.FileData.componentUsage fd) ∧
    (∀ n, default 0 (Analyzer.FileData.componentUsage fd !! n)
          = sightingsOfIn config n f).
Proof.
  intros config import field button view files fd.
  assert (Analyzer.files (Analyzer.analysis (Analyzer.main config files))
            !! "src/A.tsx" = Some fd) as Hfd by (vm_compute; reflexivity).
  split; [exact Hfd|].
  exact (file_record_describes_its_file config files "src/A.tsx" fd Hfd).
Defined.

(* ===================================================================== *)
(** ** The orderings of the reports *)
(* ===================================================================== *)

Section SortFacts.
Context {A : Type} (compareFn : A → A → Z) (R : relation A).
Hypothesis compare_le : ∀ x y, (compareFn x y <= 0)%Z → R x y.
Hypothesis compare_gt : ∀ x y, (0 < compareFn x y)%Z → R y x.
Hypothesis R_trans : ∀ x y z, R x y → R y z → R x z.

Lemma sortInsert_StronglySorted (x : A) (l : list A) :
  StronglySorted R l → StronglySorted R (Js.sortInsert compareFn x l).
Proof.
  induction 1 as [|y l Hl IH Hy]; cbn [Js.sortInsert].
  - repeat constructor.
  - destruct (compareFn x y <=? 0)%Z eqn:Hxy.
    + apply Z.leb_le in Hxy. constructor; [by constructor|].
      constructor; [by apply compare_le|].
      eapply Forall_impl; [exact Hy|]. intros z Hz.
      eapply R_trans; [by apply compare_le | done].
    + apply Z.leb_gt in Hxy. constructor; [done|].
      rewrite sortInsert_Permutation. constructor; [|done].
      by apply compare_gt.
Qed.

(** With a comparison function that follows a transitive order, the sort
    leaves the array in that order. *)
Lemma sort_StronglySorted (l : list A) :
  StronglySorted R (Js.sort compareFn l).
Proof.
  induction l as [|x l IH]; [constructor|].
  cbn [Js.sort foldr]. by apply sortInsert_StronglySorted.
Qed.

End SortFacts.

Lemma sortedComponents_order (components : list Analyzer.ComponentData.t) :
  StronglySorted
    (λ a b, Analyzer.ComponentData.totalUsages b
              ≤ Analyzer.ComponentData.totalUsages a)
    (Js.sort Analyzer.byUsageDescending components).
Proof.
  apply sort_StronglySorted; unfold Analyzer.byUsageDescending; intros; lia.
Qed.

(** X17.  The component list and the file list of the HTML report hold every
    record once (as often as the array of values does) and run from the most
    used to the least used. *)
Theorem report_lists_most_used_first
    (components : list Analyzer.ComponentData.t)
    (files : list Analyzer.FileData.t) :
  Analyzer.sortedComponents components ≡ₚ components ∧
  StronglySorted
    (λ a b, Analyzer.ComponentData.totalUsages b
              ≤ Analyzer.ComponentData.totalUsages a)
    (Analyzer.sortedComponents components) ∧
  Analyzer.sortedFiles files ≡ₚ files ∧
  StronglySorted
    (λ a b, Analyzer.FileData.totalUsages b ≤ Analyzer.FileData.totalUsages a)
    (Analyzer.sortedFiles files).
Proof.
  unfold Analyzer.sortedComponents, Analyzer.sortedFiles.
  split_and!; try apply sort_Permutation.
  - apply sortedComponents_order.
  - apply sort_StronglySorted; unfold Analyzer.byFileUsageDescending;
      intros; lia.
Qed.

(** X18.  The "top components" of the console summary are at most five records
    of the array, all of them when there are five or fewer, most used
    first, and no record left out has more usages than one that is
    listed. *)
Theorem topComponents_dominate (components : list Analyzer.ComponentData.t) :
  length (Analyzer.topComponents components) = min 5 (length components) ∧
  StronglySorted
    (λ a b, Analyzer.ComponentData.totalUsages b
              ≤ Analyzer.ComponentData.totalUsages a)
    (Analyzer.topComponents components) ∧
  ∃ rest,
    components ≡ₚ Analyzer.topComponents components ++ rest ∧
    ∀ c c', c ∈ Analyzer.topComponents components → c' ∈ rest →
            Analyzer.ComponentData.totalUsages c'
              ≤ Analyzer.ComponentData.totalUsages c.
Proof.
  unfold Analyzer.topComponents.
  set (sorted := Js.sort Analyzer.byUsageDescending components).
  assert (sorted ≡ₚ components) as Hperm by apply sort_Permutation.
  assert (StronglySorted
            (λ a b, Analyzer.ComponentData.totalUsages b
                      ≤ Analyzer.ComponentData.totalUsages a) sorted) as Hsorted.
  { apply sortedComponents_order. }
  rewrite <- (take_drop 5 sorted) in Hsorted.
  apply StronglySorted_app in Hsorted as (Hdom & Htop & _).
  split_and!.
  - rewrite length_take, (Permutation_length Hperm). lia.
  - done.
  - exists (drop 5 sorted). split; [by rewrite take_drop|].
    intros c c' Hc Hc'. by apply Hdom.
Qed.

(* ===================================================================== *)
(** ** The package table of the analyzer *)
(* ===================================================================== *)

Lemma pushMissing_elem (arr components : list string) (x : string) :
  x ∈ Analyzer.pushMissing arr components ↔ x ∈ arr ∨ x ∈ components.
Proof.
  unfold Analyzer.pushMissing. revert arr.
  induction components as [|c components IH]; intros arr; cbn [foldl].
  - split; [by left | intros [? | H]; [done | by apply elem_of_nil in H]].
  - rewrite IH. case_bool_decide as Hc.
    + rewrite elem_of_cons. split; [intros [? | ?]; auto|].
      intros [? | [-> | ?]]; auto.
    + rewrite elem_of_app, list_elem_of_singleton, elem_of_cons.
      split; [intros [[? | ?] | ?]; auto | intros [? | [? | ?]]; auto].
Qed.

Lemma pushMissing_NoDup (arr components : list string) :
  NoDup arr → NoDup (Analyzer.pushMissing arr components).
Proof.
  unfold Analyzer.pushMissing. revert arr.
  induction components as [|c components IH]; intros arr Harr; [done|].
  cbn [foldl]. apply IH. case_bool_decide as Hc; [done|].
  apply NoDup_app. split_and!; [done | | apply NoDup_singleton].
  intros x Hx Hx'. apply list_elem_of_singleton in Hx'. by subst.
Qed.

Lemma boundBy_snoc (decls : list Babel.ImportDeclaration)
    (d : Babel.ImportDeclaration) (p x : string) :
  boundBy (decls ++ [d]) p x ↔
  boundBy decls p x ∨ (Babel.importSource d = p ∧ x ∈ Babel.namedLocals d).
Proof.
  unfold boundBy. split.
  - intros (d' & [Hd | Hd]%elem_of_app & Hp & Hx).
    + left. by exists d'.
    + apply list_elem_of_singleton in Hd as ->. by right.
  - intros [(d' & Hd & H) | [Hp Hx]].
    + exists d'. split; [apply elem_of_app; by left | done].
    + exists d. split; [apply elem_of_app; right; by apply list_elem_of_singleton|].
      done.
Qed.

Lemma declarationsOf_cons (f : Babel.SourceFile)
    (files : list Babel.SourceFile) :
  declarationsOf (f :: files) = declarationsOf [f] ++ declarationsOf files.
Proof. unfold declarationsOf. cbn [mbind list_bind]. by rewrite app_nil_r. Qed.

Section AnalyzerImports.
Import Analyzer.
Variable config : Config.

(** One declaration keeps the package table exact. *)
Lemma analyzeImport_exact (decls : list Babel.ImportDeclaration)
    (acc : list ImportInfo.t * Analysis) (d : Babel.ImportDeclaration) :
  importsExact config decls (imports acc.2) (Summary.packages (summary acc.2)) →
  let a' := (analyzeImport config acc d).2 in
  importsExact config (decls ++ [d]) (imports a')
    (Summary.packages (summary a')).
Proof.
  destruct acc as [fileImports a]. cbn [snd]. intros (Hdom & Hsound & Hcomplete).
  assert (existsb (λ pkg, String.eqb (Babel.importSource d) pkg)
                  (packagesToTrack config) = true
          ↔ Babel.importSource d ∈ packagesToTrack config) as Htracked.
  { rewrite existsb_exists. split.
    - intros (pkg & Hin & ->%String.eqb_eq). by apply list_elem_of_In.
    - intros Hin. exists (Babel.importSource d).
      split; [by apply list_elem_of_In | by apply String.eqb_eq]. }
  assert (∀ p x, p ∈ packagesToTrack config →
                 (Babel.importSource d ∉ packagesToTrack config
                  ∨ Babel.namedLocals d = []) →
                 (boundBy (decls ++ [d]) p x ↔ boundBy decls p x)) as Hskip.
  { intros p x Hp Hno. rewrite boundBy_snoc. split; [|by left].
    intros [? | [Hsrc Hx]]; [done|]. destruct Hno as [Hno | Hno].
    - by rewrite Hsrc in Hno.
    - rewrite Hno in Hx. by apply elem_of_nil in Hx. }
  assert ((Babel.importSource d ∉ packagesToTrack config
           ∨ Babel.namedLocals d = []) →
          importsExact config (decls ++ [d]) (imports a)
            (Summary.packages (summary a))) as Hsame.
  { intros Hno. split_and!; [done | |].
    - intros p l Hl. destruct (Hsound p l Hl) as (Hp & Hnd & Hne & Hx).
      split_and!; [done | done | done |]. intros x. by rewrite Hskip, Hx.
    - intros p x Hp Hb. apply (Hcomplete p x Hp). by apply Hskip. }
  cbv zeta. unfold analyzeImport.
  destruct (existsb _ _) eqn:Hex.
  2:{ apply Hsame. left. intros Hin. apply Htracked in Hin. discriminate. }
  clear Hex.
  assert (Babel.importSource d ∈ packagesToTrack config) as Hex
    by (by apply Htracked).
  destruct (0 <? length (Babel.namedLocals d)) eqn:Hlen.
  2:{ apply Hsame. right. apply Nat.ltb_ge in Hlen.
      destruct (Babel.namedLocals d); [done | cbn in Hlen; lia]. }
  apply Nat.ltb_lt in Hlen.
  cbn [snd imports summary Summary.packages].
  set (src := Babel.importSource d) in *.
  assert (∀ x, x ∈ default [] (imports a !! src) ↔ boundBy decls src x)
    as Hknown.
  { intros x. destruct (imports a !! src) as [l|] eqn:Hl; cbn [default from_option].
    - by destruct (Hsound src l Hl) as (_ & _ & _ & ->).
    - split; [by intros ?%elem_of_nil|]. intros Hb.
      destruct (Hcomplete src x Hex Hb) as [l' Hl']. congruence. }
  assert (NoDup (default [] (imports a !! src))) as Hnd.
  { destruct (imports a !! src) as [l|] eqn:Hl; cbn [default from_option].
    - by destruct (Hsound src l Hl) as (_ & ? & _).
    - apply NoDup_nil_2. }
  split_and!.
  - by rewrite dom_insert_L, Hdom.
  - intros p l. destruct (decide (src = p)) as [<- | Hneq].
    + rewrite lookup_insert_eq. intros [= <-].
      split_and!; [done | by apply pushMissing_NoDup | |].
      * destruct (Babel.namedLocals d) as [|x0 l0] eqn:Hnl; [cbn in Hlen; lia|].
        intros Hnil.
        assert (x0 ∈ pushMissing (default [] (imports a !! src)) (x0 :: l0))
          as Hx0 by (apply pushMissing_elem; right; by left).
        rewrite Hnil in Hx0. by apply elem_of_nil in Hx0.
      * intros x. rewrite pushMissing_elem, boundBy_snoc, Hknown. split.
        -- intros [? | ?]; [by left | by right].
        -- intros [? | [_ ?]]; [by left | by right].
    + rewrite lookup_insert_ne by done. intros Hl.
      destruct (Hsound p l Hl) as (Hp & Hndl & Hne & Hx).
      split_and!; [done | done | done |]. intros x.
      rewrite boundBy_snoc, Hx. split; [by left|].
      intros [? | [? _]]; [done | by subst].
  - intros p x Hp [Hb | [Hsrc Hx]]%boundBy_snoc.
    + destruct (decide (src = p)) as [<- | Hneq].
      * by rewrite lookup_insert_eq.
      * rewrite lookup_insert_ne by done. by apply (Hcomplete p x).
    + subst p. by rewrite lookup_insert_eq.
Qed.

Lemma analyzeImports_exact (ds : list Babel.ImportDeclaration)
    (decls : list Babel.ImportDeclaration)
    (acc : list ImportInfo.t * Analysis) :
  importsExact config decls (imports acc.2) (Summary.packages (summary acc.2)) →
  let a' := (foldl (analyzeImport config) acc ds).2 in
  importsExact config (decls ++ ds) (imports a')
    (Summary.packages (summary a')).
Proof.
  revert decls acc. induction ds as [|d ds IH]; intros decls acc Hacc.
  - cbn. by rewrite app_nil_r.
  - cbn [foldl]. cbv zeta. rewrite cons_middle, app_assoc.
    apply IH. by apply analyzeImport_exact.
Qed.

Lemma visitJSXElement_imports (filePath : string)
    (fileImports : list ImportInfo.t) (acc : gmap string nat * Analysis)
    (el : Babel.JSXElement) :
  imports (visitJSXElement config filePath fileImports acc el).2
    = imports acc.2.
Proof.
  destruct acc as [componentUsage a]. unfold visitJSXElement.
  destruct (negb _); [done|].
  destruct (isTrackedComponent _ _); [|done].
  by destruct (Babel.nameOf (Babel.tag el)).
Qed.

Lemma analyzeJSXUsage_imports (filePath : string)
    (fileImports : list ImportInfo.t) (els : list Babel.JSXElement)
    (acc : gmap string nat * Analysis) :
  imports (foldl (visitJSXElement config filePath fileImports) acc els).2
    = imports acc.2.
Proof.
  revert acc. induction els as [|el els IH]; intros acc; [done|].
  cbn [foldl]. by rewrite IH, visitJSXElement_imports.
Qed.

Lemma processFile_exact (decls : list Babel.ImportDeclaration) (run : Run)
    (f : Babel.SourceFile) :
  let a := analysis run in
  let a' := analysis (processFile config run f) in
  importsExact config decls (imports a) (Summary.packages (summary a)) →
  importsExact config (decls ++ declarationsOf [f]) (imports a')
    (Summary.packages (summary a')).
Proof.
  cbv zeta. intros Hexact. unfold processFile, declarationsOf.
  cbn [mbind list_bind]. rewrite app_nil_r.
  destruct (Babel.parsed f) as [ast | message].
  - unfold analyzeImports, analyzeJSXUsage.
    pose proof (analyzeImports_exact (Babel.importDeclarations ast) decls
                  ([], analysis run) Hexact) as H.
    cbv zeta in H.
    destruct (foldl (analyzeImport config) _ _) as [fileImports a1].
    pose proof (analyzeJSXUsage_imports (Babel.filePath f) fileImports
                  (Babel.jsxElements ast) (∅, a1)) as Hi.
    pose proof (analyzeJSXUsage_frame config (Babel.filePath f) fileImports
                  (Babel.jsxElements ast) (∅, a1)) as (Hs & _).
    destruct (foldl (visitJSXElement config _ _) _ _) as [componentUsage a2].
    cbn [fst snd analysis imports summary Summary.packages] in *.
    by rewrite Hi, Hs.
  - by rewrite app_nil_r.
Qed.

Lemma processFiles_exact (files : list Babel.SourceFile)
    (decls : list Babel.ImportDeclaration) (run : Run) :
  let a := analysis run in
  let a' := analysis (foldl (processFile config) run files) in
  importsExact config decls (imports a) (Summary.packages (summary a)) →
  importsExact config (decls ++ declarationsOf files) (imports a')
    (Summary.packages (summary a')).
Proof.
  cbv zeta. revert decls run.
  induction files as [|f files IH]; intros decls run Hexact.
  - cbn. by rewrite app_nil_r.
  - cbn [foldl]. rewrite declarationsOf_cons, app_assoc.
    apply IH. by apply processFile_exact.
Qed.

End AnalyzerImports.

(** X16.  At the end of a run, [summary.packages] is the set of keys of
    [analysis.imports]: the tracked packages from which some parsed file
    imports something by name.  The entry of a package lists the names so
    imported from it, each once. *)
Theorem package_table_exact (config : Analyzer.Config)
    (files : list Babel.SourceFile) :
  let a := Analyzer.analysis (Analyzer.main config files) in
  let decls := declarationsOf files in
  dom (Analyzer.imports a) = Analyzer.Summary.packages (Analyzer.summary a) ∧
  (∀ p, p ∈ Analyzer.Summary.packages (Analyzer.summary a) ↔
        p ∈ Analyzer.packagesToTrack config ∧ ∃ x, boundBy decls p x) ∧
  (∀ p l, Analyzer.imports a !! p = Some l →
          NoDup l ∧ ∀ x, x ∈ l ↔ boundBy decls p x).
Proof.
  cbv zeta.
  assert (importsExact config (declarationsOf files)
            (Analyzer.imports (Analyzer.analysis (Analyzer.main config files)))
            (Analyzer.Summary.packages
               (Analyzer.summary
                  (Analyzer.analysis (Analyzer.main config files)))))
    as (Hdom & Hsound & Hcomplete).
  { assert (importsExact config [] (∅ : gmap string (list string)) ∅) as Hbase.
    { split_and!; [by rewrite dom_empty_L | |].
      - intros p l Hl. by rewrite lookup_empty in Hl.
      - intros p x _ (d & Hd & _). by apply elem_of_nil in Hd. }
    unfold Analyzer.main. destruct (length files =? 0) eqn:Hlen.
    - apply Nat.eqb_eq, nil_length_inv in Hlen as ->. exact Hbase.
    - exact (processFiles_exact config files [] Analyzer.initialRun Hbase). }
  split_and!; [done | |].
  - intros p. rewrite <- Hdom, elem_of_dom. split.
    + intros [l Hl]. destruct (Hsound p l Hl) as (Hp & _ & Hne & Hx).
      split; [done|]. destruct l as [|x l]; [done|].
      exists x. apply Hx. by left.
    + intros [Hp [x Hx]]. by apply (Hcomplete p x).
  - intros p l Hl. by destruct (Hsound p l Hl) as (_ & ? & _ & ?).
Qed.

(* ===================================================================== *)
(** ** The command line *)
(* ===================================================================== *)

(** X10.  The props adder's argument loop ends in one of two ways.  If it exits
    with the usage text, some argument is [--help] or [-h].  Otherwise
    [customSrcPath] is what it was before the loop, or it is the argument
    slot right after some [--src] or [-s] (nothing, when the flag is the
    last argument). *)
Theorem props_adder_parseArgs_outcome (args : list string)
    (customSrcPath : option string) :
  match AddProps.parseArgs args customSrcPath with
  | AddProps.ExitHelp =>
      ∃ i arg, args !! i = Some arg ∧ isFlag "--help" "-h" arg
  | AddProps.Continue path =>
      path = customSrcPath ∨
      ∃ i arg, args !! i = Some arg ∧ isFlag "--src" "-s" arg ∧
               args !! S i = path
  end.
Proof.
  revert customSrcPath.
  induction args as [args IH] using (induction_ltof1 _ length).
  unfold ltof in IH. intros customSrcPath.
  destruct args as [|arg rest]; [by left|].
  cbn [AddProps.parseArgs].
  destruct (String.eqb arg "--src" || String.eqb arg "-s") eqn:Hsrc.
  - assert (isFlag "--src" "-s" arg) as Hflag.
    { apply orb_true_iff in Hsrc as [H | H]; apply String.eqb_eq in H;
        [by left | by right]. }
    destruct rest as [|path rest]; [right; by exists 0, arg|].
    specialize (IH rest ltac:(cbn; lia) (Some path)).
    destruct (AddProps.parseArgs rest (Some path)) as [path' |].
    + destruct IH as [-> | (i & arg' & Hi & Hf & Hv)].
      * right. by exists 0, arg.
      * right. by exists (S (S i)), arg'.
    + destruct IH as (i & arg' & Hi & Hf). by exists (S (S i)), arg'.
  - destruct (String.eqb arg "--help" || String.eqb arg "-h") eqn:Hhelp.
    + exists 0, arg. split; [done|].
      apply orb_true_iff in Hhelp as [H | H]; apply String.eqb_eq in H;
        [by left | by right].
    + specialize (IH rest ltac:(cbn; lia) customSrcPath).
      destruct (AddProps.parseArgs rest customSrcPath) as [path' |].
      * destruct IH as [-> | (i & arg' & Hi & Hf & Hv)]; [by left|].
        right. by exists (S i), arg'.
      * destruct IH as (i & arg' & Hi & Hf). by exists (S i), arg'.
Qed.

(** X19.  The analyzer's argument loop likewise: the usage exit needs a [--help]
    or [-h]; otherwise each of the two paths is what it was, or the
    argument slot right after one of its flags.  The configuration is then
    read from the path so found when that is a non-empty string, and from
    [./analyzer-config.json] when there is none or it is the empty
    string. *)
Theorem analyzer_parseArgs_outcome (args : list string)
    (customSrcPath customConfigPath : option string) :
  match Analyzer.parseArgs args customSrcPath customConfigPath with
  | Analyzer.ExitHelp =>
      ∃ i arg, args !! i = Some arg ∧ isFlag "--help" "-h" arg
  | Analyzer.Continue src cfg =>
      (src = customSrcPath ∨
       ∃ i arg, args !! i = Some arg ∧ isFlag "--src" "-s" arg ∧
                args !! S i = src) ∧
      (cfg = customConfigPath ∨
       ∃ i arg, args !! i = Some arg ∧ isFlag "--config" "-c" arg ∧
                args !! S i = cfg) ∧
      (∀ path, cfg = Some path → path ≠ "" →
               Analyzer.configPath cfg = path) ∧
      (cfg = None ∨ cfg = Some "" →
       Analyzer.configPath cfg = "./analyzer-config.json")
  end.
Proof.
  assert (∀ cfg,
            (∀ path, cfg = Some path → path ≠ "" →
                     Analyzer.configPath cfg = path) ∧
            (cfg = None ∨ cfg = Some "" →
             Analyzer.configPath cfg = "./analyzer-config.json")) as Hpath.
  { intros cfg. split.
    - intros path -> Hne. unfold Analyzer.configPath, Js.or.
      by destruct (String.eqb_spec path "").
    - by intros [-> | ->]. }
  revert customSrcPath customConfigPath.
  induction args as [args IH] using (induction_ltof1 _ length).
  unfold ltof in IH. intros customSrcPath customConfigPath.
  destruct args as [|arg rest];
    [split; [by left | split; [by left | apply Hpath]]|].
  cbn [Analyzer.parseArgs].
  destruct (String.eqb arg "--src" || String.eqb arg "-s") eqn:Hsrc.
  { assert (isFlag "--src" "-s" arg) as Hflag.
    { apply orb_true_iff in Hsrc as [H | H]; apply String.eqb_eq in H;
        [by left | by right]. }
    destruct rest as [|path rest].
    { split; [right; by exists 0, arg | split; [by left | apply Hpath]]. }
    specialize (IH rest ltac:(cbn; lia) (Some path) customConfigPath).
    destruct (Analyzer.parseArgs rest (Some path) customConfigPath)
      as [src cfg |].
    - destruct IH as (Hs & Hc & _). split; [|split; [|apply Hpath]].
      + right. destruct Hs as [-> | (i & arg' & Hi & Hf & Hv)].
        * by exists 0, arg.
        * by exists (S (S i)), arg'.
      + destruct Hc as [-> | (i & arg' & Hi & Hf & Hv)]; [by left|].
        right. by exists (S (S i)), arg'.
    - destruct IH as (i & arg' & Hi & Hf). by exists (S (S i)), arg'. }
  destruct (String.eqb arg "--config" || String.eqb arg "-c") eqn:Hcfg.
  { assert (isFlag "--config" "-c" arg) as Hflag.
    { apply orb_true_iff in Hcfg as [H | H]; apply String.eqb_eq in H;
        [by left | by right]. }
    destruct rest as [|path rest].
    { split; [by left | split; [right; by exists 0, arg | apply Hpath]]. }
    specialize (IH rest ltac:(cbn; lia) customSrcPath (Some path)).
    destruct (Analyzer.parseArgs rest customSrcPath (Some path))
      as [src cfg |].
    - destruct IH as (Hs & Hc & _). split; [|split; [|apply Hpath]].
      + destruct Hs as [-> | (i & arg' & Hi & Hf & Hv)]; [by left|].
        right. by exists (S (S i)), arg'.
      + right. destruct Hc as [-> | (i & arg' & Hi & Hf & Hv)].
        * by exists 0, arg.
        * by exists (S (S i)), arg'.
    - destruct IH as (i & arg' & Hi & Hf). by exists (S (S i)), arg'. }
  destruct (String.eqb arg "--help" || String.eqb arg "-h") eqn:Hhelp.
  { exists 0, arg. split; [done|].
    apply orb_true_iff in Hhelp as [H | H]; apply String.eqb_eq in H;
      [by left | by right]. }
  specialize (IH rest ltac:(cbn; lia) customSrcPath customConfigPath).
  destruct (Analyzer.parseArgs rest customSrcPath customConfigPath)
    as [src cfg |].
  - destruct IH as (Hs & Hc & _). split; [|split; [|apply Hpath]].
    + destruct Hs as [-> | (i & arg' & Hi & Hf & Hv)]; [by left|].
      right. by exists (S i), arg'.
    + destruct Hc as [-> | (i & arg' & Hi & Hf & Hv)]; [by left|].
      right. by exists (S i), arg'.
  - destruct IH as (i & arg' & Hi & Hf). by exists (S i), arg'.
Qed.

(* ===================================================================== *)
(** ** Which elements the props adder touches *)
(* ===================================================================== *)

(** X1.  An element is in scope for the props adder exactly when its tag is a
    plain identifier which the host's [toLowerCase] does not turn into a
    built-in element name and which is either listed in
    [config.components] or bound by a named import from a module path that
    contains a member of [config.packages].  The built-in names come
    first: a name of ASCII characters that is a built-in name up to the
    case of its letters, such as [Input] or [Button], is out of scope even
    when it is listed or imported. *)
Theorem shouldProcessComponent_iff {host : Js.Host} (config : AddProps.Config)
    (imports : list ImportInfo.t) (v : Js.value) :
  (AddProps.shouldProcessComponent config v imports = true ↔
   ∃ s,
     v = Js.Str s ∧ s ≠ "" ∧
     (Js.toLowerCase s ∉ AddProps.HTML_ELEMENTS) ∧
     (s ∈ AddProps.components config ∨
      ∃ imp, imp ∈ imports ∧ s ∈ ImportInfo.components imp ∧
             ∃ pkg, pkg ∈ AddProps.packages config ∧
                    ∃ pre post, ImportInfo.source imp = pre +:+ pkg +:+ post)) ∧
  (∀ s, v = Js.Str s → Js.isAscii s = true →
        Js.asciiLowerCase s ∈ AddProps.HTML_ELEMENTS →
        AddProps.shouldProcessComponent config v imports = false).
Proof.
  split; cycle 1.
  { intros s -> Hascii Hin. apply shouldProcessComponent_html.
    by rewrite (Js.toLowerCase_ascii s Hascii). }
  unfold AddProps.shouldProcessComponent.
  destruct v as [|s|]; cbn [Js.truthy Js.isString negb orb].
  - split; [done | by intros (s & ? & _)].
  - rewrite orb_false_r.
    destruct (String.eqb_spec s "") as [-> | Hne]; cbn [negb].
    + split; [done | by intros (s & [= <-] & ? & _)].
    + case_bool_decide as Hhtml.
      * split; [done | by intros (s' & [= <-] & _ & ? & _)].
      * case_bool_decide as Hlisted.
        -- split; [|done]. intros _. exists s. split_and!; [done..|by left].
        -- rewrite isComponentFromTargetPackages_iff. split.
           ++ intros H. exists s. split_and!; [done..|by right].
           ++ by intros (s' & [= <-] & _ & _ & [? | ?]).
  - split; [done | by intros (s & ? & _)].
Qed.

Section AddPropsElements.
Import AddProps.
Context {host : Js.Host} {fs : Fs.FileSystem}.
Variable config : Config.





End AddPropsElements.



Lemma iter_incrPropsAdded (n : nat) (s : AddProps.Stats) :
  AddProps.propsAdded (Nat.iter n AddProps.incrPropsAdded s)
    = AddProps.propsAdded s + n ∧
  AddProps.propsUpdated (Nat.iter n AddProps.incrPropsAdded s)
    = AddProps.propsUpdated s ∧
  AddProps.componentsSkipped (Nat.iter n AddProps.incrPropsAdded s)
    = AddProps.componentsSkipped s.
Proof.
  induction n as [|n (IH1 & IH2 & IH3)]; [cbn; split_and!; [lia | done..]|].
  rewrite !Nat.iter_succ. unfold AddProps.incrPropsAdded at 1 3 5.
  cbn [AddProps.propsAdded AddProps.propsUpdated AddProps.componentsSkipped].
  rewrite IH1, IH2, IH3. split_and!; [lia | done..].
Qed.

(** X5.  On an element in scope whose attributes are nodes as the parser and the
    builders make them, [addPropsToComponent] keeps the attributes as they
    are and in their order, appends one attribute for every directive, in
    the order of [config.props], whether or not an attribute of that name
    is there already, and returns [true] unless there is no directive. *)
Theorem parsed_element_gets_every_directive {host : Js.Host}
    (config : AddProps.Config) (st : AddProps.Stats) (el : Babel.JSXElement)
    (imports : list ImportInfo.t) :
  inScope config imports el = true →
  Forall Babel.isJSXAttributeNode (Babel.attributes el) →
  let '(changed, el', st') :=
    AddProps.addPropsToComponent config st el imports in
  changed = bool_decide (AddProps.props config ≠ []) ∧
  Babel.attributes el'
    = Babel.attributes el ++ (newPropFor <$> AddProps.props config) ∧
  AddProps.propsAdded st'
    = AddProps.propsAdded st + length (AddProps.props config) ∧
  AddProps.propsUpdated st' = AddProps.propsUpdated st ∧
  AddProps.componentsSkipped st' = AddProps.componentsSkipped st.
Proof.
  intros Hscope Hnodes. unfold inScope in Hscope.
  rewrite addPropsToComponent_nodes by done.
  cbn [Babel.attributes].
  destruct (iter_incrPropsAdded (length (AddProps.props config))
              (AddProps.incrComponentsFound st)) as (Ha & Hu & Hs).
  by split_and!.
Qed.

Lemma parsed_element_gets_every_directive_witness :
  let config :=
    AddProps.mkConfig ["TextInput"] ["react-native"]
      [AddProps.mkProp "maxLength" "20"; AddProps.mkProp "autoComplete" "off"]
      true in
  let el :=
    Babel.mkElement (Babel.JSXIdentifier "TextInput")
      [ Babel.jsxAttribute "placeholder" (Babel.StringLiteral "Enter text");
        Babel.jsxAttribute "maxLength" (Babel.StringLiteral "10") ] in
  inScope (host := Js.asciiHost) config [] el = true ∧
  Forall Babel.isJSXAttributeNode (Babel.attributes el) ∧
  let '(changed, el', st') :=
    AddProps.addPropsToComponent (host := Js.asciiHost) config
      AddProps.initialStats el [] in
  changed = bool_decide (AddProps.props config ≠ []) ∧
  Babel.attributes el'
    = Babel.attributes el ++ (newPropFor <$> AddProps.props config) ∧
  AddProps.propsAdded st'
    = AddProps.propsAdded AddProps.initialStats
      + length (AddProps.props config) ∧
  AddProps.propsUpdated st' = AddProps.propsUpdated AddProps.initialStats ∧
  AddProps.componentsSkipped st'
    = AddProps.componentsSkipped AddProps.initialStats.
Proof.
  intros config el.
  assert (Forall Babel.isJSXAttributeNode (Babel.attributes el)) as Hnodes
    by (repeat constructor).
  split; [reflexivity|]. split; [exact Hnodes|].
  exact (parsed_element_gets_every_directive (host := Js.asciiHost) config
           AddProps.initialStats el [] eq_refl Hnodes).
Defined.
